(** * accProcess: configuration resolution and pipeline orchestration

    A shallow embedding of [main] of [accelerometer/accProcess.py]: the
    command line tool that resolves the user's options into a set of output
    locations, validates them, runs the decode / summarise / time-series
    stages around one shared summary dictionary, and registers the removal
    of the intermediate files at interpreter exit.

    Layout: Python string and path primitives, [datetime], the argument
    namespace, the effect monad, [main] phase by phase, then the theorems. *)

From Stdlib Require Import ZArith Ascii String List Bool Lia.
From stdpp Require Import base option gmap strings.

Local Open Scope Z_scope.

(** ** Python string primitives *)

Module Py.

(** [s.split(c)] for a one-character separator: never returns an empty
    list, [''.split('.') == ['']]. *)
Fixpoint split (c : ascii) (s : string) : list string :=
  match s with
  | EmptyString => [EmptyString]
  | String a s' =>
      if Ascii.eqb a c then EmptyString :: split c s'
      else match split c s' with
           | [] => [String a EmptyString]
           | p :: ps => String a p :: ps
           end
  end.

(** [s.rfind(c)]: index of the last occurrence; Python's [-1] is [None]. *)
Fixpoint rfind (c : ascii) (s : string) : option nat :=
  match s with
  | EmptyString => None
  | String a s' =>
      match rfind c s' with
      | Some i => Some (S i)
      | None => if Ascii.eqb a c then Some O else None
      end
  end.

(** The slices [s[:i]] and [s[i:]] for [0 <= i]. *)
Fixpoint take (i : nat) (s : string) : string :=
  match i, s with
  | S j, String a s' => String a (take j s')
  | _, _ => EmptyString
  end.

Fixpoint drop (i : nat) (s : string) : string :=
  match i, s with
  | S j, String _ s' => drop j s'
  | _, _ => s
  end.

(** [s == c * len(s)] *)
Fixpoint all_char (c : ascii) (s : string) : bool :=
  match s with
  | EmptyString => true
  | String a s' => Ascii.eqb a c && all_char c s'
  end.

(** [s.rstrip(c)] *)
Fixpoint rstrip (c : ascii) (s : string) : string :=
  match s with
  | EmptyString => EmptyString
  | String a s' =>
      match rstrip c s' with
      | EmptyString => if Ascii.eqb a c then EmptyString
                       else String a EmptyString
      | r => String a r
      end
  end.

Definition startswith (c : ascii) (s : string) : bool :=
  match s with
  | String a _ => Ascii.eqb a c
  | EmptyString => false
  end.

Fixpoint endswith (c : ascii) (s : string) : bool :=
  match s with
  | EmptyString => false
  | String a EmptyString => Ascii.eqb a c
  | String _ s' => endswith c s'
  end.

(** Truthiness of a string: [bool(s)]. *)
Definition nonempty (s : string) : bool :=
  match s with EmptyString => false | _ => true end.

(** [c in s] *)
Fixpoint contains (c : ascii) (s : string) : bool :=
  match s with
  | EmptyString => false
  | String a s' => Ascii.eqb a c || contains c s'
  end.

End Py.

(** ** [os.path] on a POSIX host

    [posixpath.split] and [posixpath.join] as the Python library defines
    them, for the separator ["/"]. *)

Module OsPath.

Definition sep : ascii := "/"%char.
Definition dot : ascii := "."%char.

(** [i = p.rfind(sep) + 1; head, tail = p[:i], p[i:];
     if head and head != sep*len(head): head = head.rstrip(sep)] *)
Definition split (p : string) : string * string :=
  let i := match Py.rfind sep p with Some k => S k | None => O end in
  let head := Py.take i p in
  let tail := Py.drop i p in
  let head := if Py.nonempty head && negb (Py.all_char sep head)
              then Py.rstrip sep head else head in
  (head, tail).

(** [join(a, b)]: [b] replaces [a] when it is absolute, and a separator is
    inserted unless [a] is empty or already ends with one. *)
Definition join (a b : string) : string :=
  if Py.startswith sep b then b
  else if negb (Py.nonempty a) || Py.endswith sep a then a +:+ b
  else a +:+ String sep EmptyString +:+ b.

End OsPath.

(** ** [datetime]

    The values [str2date] produces with the format ["%Y-%m-%dT%H:%M"]:
    seconds and microseconds are zero, so two values compare as their five
    fields do, most significant first. *)

Record datetime := mkDatetime {
  year : N; month : N; day : N; hour : N; minute : N
}.

Definition dt_cmp (a b : datetime) : comparison :=
  match N.compare (year a) (year b) with
  | Eq =>
      match N.compare (month a) (month b) with
      | Eq =>
          match N.compare (day a) (day b) with
          | Eq =>
              match N.compare (hour a) (hour b) with
              | Eq => N.compare (minute a) (minute b)
              | c => c
              end
          | c => c
          end
      | c => c
      end
  | c => c
  end.

(** [a <= b], [a > b], [a < b], [a == b] of Python's [datetime]. *)
Definition dt_le (a b : datetime) : bool :=
  match dt_cmp a b with Gt => false | _ => true end.
Definition dt_gt (a b : datetime) : bool :=
  match dt_cmp a b with Gt => true | _ => false end.
Definition dt_lt (a b : datetime) : bool :=
  match dt_cmp a b with Lt => true | _ => false end.
Definition dt_eq (a b : datetime) : bool :=
  match dt_cmp a b with Eq => true | _ => false end.

Definition digit (n : N) : ascii := ascii_of_N (48 + n mod 10).

Definition pad2 (n : N) : string :=
  String (digit (n / 10)) (String (digit n) EmptyString).

Definition pad4 (n : N) : string :=
  String (digit (n / 1000)) (String (digit (n / 100)) (pad2 n)).

(** [d.strftime('%Y-%m-%dT%H:%M')], fields zero-padded to their documented
    widths. *)
Definition strftime (d : datetime) : string :=
  pad4 (year d) +:+ "-" +:+ pad2 (month d) +:+ "-" +:+ pad2 (day d)
  +:+ "T" +:+ pad2 (hour d) +:+ ":" +:+ pad2 (minute d).


(** ** Values, exceptions, the argument namespace *)

(** The values the stages store in the summary dictionary. *)
Inductive pyval :=
| VStr (s : string)
| VInt (z : Z)
| VBool (b : bool)
| VNone
| VFloat (repr : string).

Abbreviation summary := (gmap string pyval).

Inductive exn :=
| AssertionError (msg : string)
| KeyError (key : string)
| OSError (msg : string)
| ValueError (msg : string)
| StageError (msg : string).

Definition is_OSError (e : exn) : bool :=
  match e with OSError _ => true | _ => false end.

(** The namespace [parser.parse_args()] returns, with the attributes [main]
    reads or assigns.  The seven [*File] attributes do not exist until [main]
    assigns them; they start empty here.  Every other option is only
    forwarded to the stages and sits in [forwarded]. *)
Record Args {Opts : Type} := mkArgs {
  inputFile : string;
  processInputFile : bool;
  sampleRate : Z;
  useFilter : bool;
  startTime : option datetime;
  endTime : option datetime;
  csvTimeXYZTempColsIndex : string;
  deleteIntermediateFiles : bool;
  outputFolder : string;
  summaryFolder : string;
  epochFolder : string;
  timeSeriesFolder : string;
  nonWearFolder : string;
  stationaryFolder : string;
  rawFolder : string;
  npyFolder : string;
  summaryFile : string;
  nonWearFile : string;
  epochFile : string;
  stationaryFile : string;
  tsFile : string;
  rawFile : string;
  npyFile : string;
  forwarded : Opts
}.
Arguments Args : clear implicits.
Arguments mkArgs {Opts}.

Section Namespace.
Context {Opts : Type}.
Implicit Types a : Args Opts.

(** [args.useFilter = b] *)
Definition set_useFilter (b : bool) a : Args Opts :=
  mkArgs (inputFile a) (processInputFile a) (sampleRate a) b
         (startTime a) (endTime a) (csvTimeXYZTempColsIndex a)
         (deleteIntermediateFiles a)
         (outputFolder a) (summaryFolder a) (epochFolder a)
         (timeSeriesFolder a) (nonWearFolder a) (stationaryFolder a)
         (rawFolder a) (npyFolder a)
         (summaryFile a) (nonWearFile a) (epochFile a) (stationaryFile a)
         (tsFile a) (rawFile a) (npyFile a) (forwarded a).

(** [args.inputFile = p] *)
Definition set_inputFile (p : string) a : Args Opts :=
  mkArgs p (processInputFile a) (sampleRate a) (useFilter a)
         (startTime a) (endTime a) (csvTimeXYZTempColsIndex a)
         (deleteIntermediateFiles a)
         (outputFolder a) (summaryFolder a) (epochFolder a)
         (timeSeriesFolder a) (nonWearFolder a) (stationaryFolder a)
         (rawFolder a) (npyFolder a)
         (summaryFile a) (nonWearFile a) (epochFile a) (stationaryFile a)
         (tsFile a) (rawFile a) (npyFile a) (forwarded a).

(** [folder] unless it is the empty string, then [dflt]. *)
Definition or_default (folder dflt : string) : string :=
  if String.eqb folder EmptyString then dflt else folder.

(** Lines 266-281: the output folder first, then the seven folders that
    inherit it. *)
Definition default_folders (inputFileFolder : string) a : Args Opts :=
  let out := or_default (outputFolder a) inputFileFolder in
  mkArgs (inputFile a) (processInputFile a) (sampleRate a) (useFilter a)
         (startTime a) (endTime a) (csvTimeXYZTempColsIndex a)
         (deleteIntermediateFiles a)
         out
         (or_default (summaryFolder a) out)
         (or_default (epochFolder a) out)
         (or_default (timeSeriesFolder a) out)
         (or_default (nonWearFolder a) out)
         (or_default (stationaryFolder a) out)
         (or_default (rawFolder a) out)
         (or_default (npyFolder a) out)
         (summaryFile a) (nonWearFile a) (epochFile a) (stationaryFile a)
         (tsFile a) (rawFile a) (npyFile a) (forwarded a).

(** Lines 283-289: the seven output file names. *)
Definition default_filenames (inputFileName : string) a : Args Opts :=
  mkArgs (inputFile a) (processInputFile a) (sampleRate a) (useFilter a)
         (startTime a) (endTime a) (csvTimeXYZTempColsIndex a)
         (deleteIntermediateFiles a)
         (outputFolder a) (summaryFolder a) (epochFolder a)
         (timeSeriesFolder a) (nonWearFolder a) (stationaryFolder a)
         (rawFolder a) (npyFolder a)
         (OsPath.join (summaryFolder a) (inputFileName +:+ "-summary.json"))
         (OsPath.join (nonWearFolder a)
                      (inputFileName +:+ "-nonWearBouts.csv.gz"))
         (OsPath.join (epochFolder a) (inputFileName +:+ "-epoch.csv.gz"))
         (OsPath.join (stationaryFolder a)
                      (inputFileName +:+ "-stationaryPoints.csv.gz"))
         (OsPath.join (timeSeriesFolder a)
                      (inputFileName +:+ "-timeSeries.csv.gz"))
         (OsPath.join (rawFolder a) (inputFileName +:+ ".csv.gz"))
         (OsPath.join (npyFolder a) (inputFileName +:+ ".npy"))
         (forwarded a).

End Namespace.

(** ** The host: file system, stage collaborators, [int]

    [main] runs against a file system whose state is of type [FS] and calls
    three stages it does not define.  The class records what [main] relies
    on and nothing more.  [Table] is the pair [(epochData, labels)]. *)

Class Host (Opts FS Table : Type) := {
  (** [os.path.isfile], [os.access(_, os.W_OK)], [os.path.exists] *)
  isfile : FS → string → bool;
  access_W : FS → string → bool;
  path_exists : FS → string → bool;
  (** [os.remove]; whatever it raises is an [OSError] *)
  remove : string → FS → exn + FS;
  remove_raises : ∀ p fs e, remove p fs = inl e → is_OSError e = true;
  (** [with open(path, 'w') as f: json.dump(summary, f, indent=4)] *)
  dump_json : string → summary → FS → exn + FS;
  (** [int(s)] *)
  py_int : string → exn + Z;
  (** [accelerometer.device.processInputFileToEpoch]: mutates the summary *)
  processInputFileToEpoch :
    Args Opts → list Z → summary → FS → exn + (summary * FS);
  (** [accelerometer.summariseEpoch.getActivitySummary]: returns
      [(epochData, labels)] and mutates the summary *)
  getActivitySummary : Args Opts → summary → FS → exn + (Table * summary * FS);
  (** [accelerometer.accUtils.writeTimeSeries] *)
  writeTimeSeries : Table → string → FS → exn + FS
}.

(** ** Effects *)

(** What a run does that an observer outside [main] can see, in the order
    it happens. *)
Inductive effect {Opts : Type} :=
| Warn (msg : string)
| Print (msg : string)
| ToScreen (msg : string)
| PrintOptions (a : Args Opts)
| SummarySet (key : string) (v : pyval)
| CallDecode (a : Args Opts) (cols : list Z) (s : summary)
| CallSummarise (a : Args Opts) (s : summary)
| CallWriteTimeSeries (path : string)
| PrintHeadline (kvs : list (string * pyval))
| WriteSummary (path : string) (s : summary)
| ReportTime
| Remove (path : string).
Arguments effect : clear implicits.

(** The functions registered with [atexit]; the closure keeps the namespace
    it was defined in. *)
Inductive handler {Opts : Type} :=
| DeleteIntermediateFiles (a : Args Opts).
Arguments handler : clear implicits.

Record World {Opts FS : Type} := mkWorld {
  fs : FS;
  log : list (effect Opts);
  atexit : list (handler Opts)
}.
Arguments World : clear implicits.
Arguments mkWorld {Opts FS}.

(** State and exception monad: a raised exception keeps the world as it was
    at the raise. *)
Definition M (Opts FS A : Type) : Type :=
  World Opts FS → (exn + A) * World Opts FS.

Global Instance M_ret {Opts FS} : MRet (M Opts FS) :=
  λ A x w, (inr x, w).
Global Instance M_bind {Opts FS} : MBind (M Opts FS) :=
  λ A B f m w, match m w with
               | (inr x, w') => f x w'
               | (inl e, w') => (inl e, w')
               end.
Global Instance M_throw {Opts FS} : MThrow exn (M Opts FS) :=
  λ A e w, (inl e, w).

Section Primitives.
Context {Opts FS Table : Type} {H : Host Opts FS Table}.
Abbreviation W := (World Opts FS).
Abbreviation Mo := (M Opts FS).

Definition emit (e : effect Opts) : Mo unit :=
  λ w, (inr tt, mkWorld (fs w) (log w ++ [e]) (atexit w)).

(** Read the file system with [q]. *)
Definition query {A} (q : FS → A) : Mo A :=
  λ w, (inr (q (fs w)), w).

(** Run a file-system operation that may raise. *)
Definition syscall (op : FS → exn + FS) : Mo unit :=
  λ w, match op (fs w) with
       | inr fs' => (inr tt, mkWorld fs' (log w) (atexit w))
       | inl e => (inl e, w)
       end.

(** A stage call: the stage may change the file system and returns a
    value. *)
Definition call {A} (op : FS → exn + (A * FS)) : Mo A :=
  λ w, match op (fs w) with
       | inr (x, fs') => (inr x, mkWorld fs' (log w) (atexit w))
       | inl e => (inl e, w)
       end.

(** [assert b, msg] *)
Definition assert_ (b : bool) (msg : string) : Mo unit :=
  if b then mret tt else mthrow (AssertionError msg).

(** [@atexit.register] *)
Definition atexit_register (h : handler Opts) : Mo unit :=
  λ w, (inr tt, mkWorld (fs w) (log w) (h :: atexit w)).

(** [try: body  except OSError: on_error] *)
Definition try_except_OSError (body on_error : Mo unit) : Mo unit :=
  λ w, match body w with
       | (inl e, w') => if is_OSError e then on_error w' else (inl e, w')
       | r => r
       end.

(** [d[k]] *)
Definition getitem (d : summary) (k : string) : Mo pyval :=
  match d !! k with
  | Some v => mret v
  | None => mthrow (KeyError k)
  end.

(** [for x in l: f x] *)
Fixpoint for_each {A} (f : A → Mo unit) (l : list A) : Mo unit :=
  match l with
  | [] => mret tt
  | x :: l' => f x ;; for_each f l'
  end.

End Primitives.

(** ** [main] *)

Section Main.
Context {Opts FS Table : Type} {H : Host Opts FS Table}.
Abbreviation Mo := (M Opts FS).
Implicit Types a : Args Opts.

Definition nl : string := String (ascii_of_nat 10) EmptyString.

Definition sampleRate_msg : string :=
  "sampleRate<25 currently not supported".

Definition filter_msg : string :=
  "Skipping lowpass filter (--useFilter False) as sampleRate too low (<= 40)".

(** [f"File '{args.inputFile}' does not exist"] *)
Definition missing_msg (p : string) : string :=
  "File '" +:+ p +:+ "' does not exist".

(** [f"Either folder '{path}' does not exist "
     "or you do not have write permission"] *)
Definition folder_msg (p : string) : string :=
  "Either folder '" +:+ p
  +:+ "' does not exist or you do not have write permission".

Definition time_msg (s e : datetime) : string :=
  "startTime and endTime arguments are invalid!" +:+ nl
  +:+ "startTime: " +:+ strftime s +:+ nl
  +:+ "endTime:, " +:+ strftime e +:+ nl.

(** Lines 242-246: the sample-rate floor and the filter downgrade. *)
Definition check_sampleRate a : Mo (Args Opts) :=
  assert_ (25 <=? sampleRate a) sampleRate_msg ;;
  if sampleRate a <=? 40
  then emit (Warn filter_msg) ;; mret (set_useFilter false a)
  else mret a.

(** Lines 253-259: the input file. *)
Definition check_inputFile a : Mo (Args Opts) :=
  if processInputFile a then
    b ← query (λ fs : FS, isfile fs (inputFile a));
    assert_ b (missing_msg (inputFile a)) ;;
    mret a
  else
    if (length (Py.split OsPath.dot (inputFile a)) <? 2)%nat
    then mret (set_inputFile (inputFile a +:+ ".cwa") a)
    else mret a.

(** Lines 262-263: [inputFileFolder] and [inputFileName]. *)
Definition inputFileFolder (p : string) : string := fst (OsPath.split p).

Definition inputFileName (p : string) : string :=
  hd EmptyString (Py.split OsPath.dot (snd (OsPath.split p))).

(** Lines 262-289: folders and file names. *)
Definition derive_paths a : Args Opts :=
  default_filenames (inputFileName (inputFile a))
    (default_folders (inputFileFolder (inputFile a)) a).

(** Lines 242-289. *)
Definition resolve a : Mo (Args Opts) :=
  a ← check_sampleRate a;
  a ← check_inputFile a;
  mret (derive_paths a).

(** [assert os.access(path, os.W_OK), ...] *)
Definition check_writable (p : string) : Mo unit :=
  b ← query (λ fs : FS, access_W fs p);
  assert_ b (folder_msg p).

(** The folders of the loop at lines 292-296, in its order. *)
Definition checked_folders a : list string :=
  [summaryFolder a; nonWearFolder a; stationaryFolder a; timeSeriesFolder a;
   rawFolder a; npyFolder a; outputFolder a].

(** Lines 292-305. *)
Definition check_folders a : Mo unit :=
  for_each check_writable (checked_folders a) ;;
  if processInputFile a then check_writable (epochFolder a) else mret tt.

(** Lines 320-325; a [datetime] is always truthy, [None] never. *)
Definition check_times a : Mo unit :=
  match startTime a, endTime a with
  | Some s, Some e => assert_ (dt_le s e) (time_msg s e)
  | _, _ => mret tt
  end.

(** Lines 328-331. *)
Definition print_options a : Mo unit :=
  emit (Print ("Processing file '" +:+ inputFile a
               +:+ "' with these arguments:" +:+ nl)) ;;
  emit (PrintOptions a).

(** Lines 292-331. *)
Definition validate a : Mo unit :=
  check_folders a ;;
  (if deleteIntermediateFiles a
   then atexit_register (DeleteIntermediateFiles a) else mret tt) ;;
  check_times a ;;
  print_options a.

(** [summary[k] = v] *)
Definition summary_set (k : string) (v : pyval) (s : summary) : Mo summary :=
  emit (SummarySet k v) ;; mret (<[k := v]> s).

(** [list(map(int, s.split(',')))] *)
Definition parse_cols (s : string) : Mo (list Z) :=
  mapM (λ x, match py_int x with
             | inr z => mret z
             | inl e => mthrow e
             end) (Py.split ","%char s).

(** Lines 336-356: the summary is created, and the input file is turned
    into the epoch file unless the user opted out. *)
Definition epoch_stage a : Mo summary :=
  let summary : summary := ∅ in
  if processInputFile a then
    summary ← summary_set "file-name" (VStr (inputFile a)) summary;
    cols ← parse_cols (csvTimeXYZTempColsIndex a);
    emit (CallDecode a cols summary) ;;
    call (processInputFileToEpoch a cols summary)
  else summary_set "file-name" (VStr (epochFile a)) summary.

(** Lines 359-373: summarise the epochs, write the time series. *)
Definition summary_stage a : summary → Mo summary := λ summary,
  emit (CallSummarise a summary) ;;
  '(table, summary) ← call (getActivitySummary a summary);
  emit (CallWriteTimeSeries (tsFile a)) ;;
  syscall (writeTimeSeries table (tsFile a)) ;;
  mret summary.

(** Lines 336-373: the stages around the shared summary. *)
Definition run_stages a : Mo summary :=
  summary ← epoch_stage a;
  summary_stage a summary.

Definition summaryVals : list string :=
  ["file-name"; "file-startTime"; "file-endTime"; "acc-overall-avg";
   "wearTime-overall(days)"; "nonWearTime-overall(days)";
   "quality-goodWearTime"].

(** Lines 376-395. *)
Definition finalize a (summary : summary) : Mo unit :=
  emit (ToScreen "=== Short summary ===") ;;
  summaryDict ← mapM (λ i, v ← getitem summary i; mret (i, v)) summaryVals;
  emit (PrintHeadline summaryDict) ;;
  emit (WriteSummary (summaryFile a) summary) ;;
  syscall (dump_json (summaryFile a) summary) ;;
  emit (Print ("Full summary written to: " +:+ summaryFile a)) ;;
  emit ReportTime.

Definition main a : Mo unit :=
  a ← resolve a;
  validate a ;;
  summary ← run_stages a;
  finalize a summary.

(** ** Interpreter exit *)

(** [os.remove(p)] *)
Definition os_remove (p : string) : Mo unit :=
  emit (Remove p) ;; syscall (remove p).

(** [if os.path.exists(p): os.remove(p)] *)
Definition remove_if_exists (p : string) : Mo unit :=
  b ← query (λ fs : FS, path_exists fs p);
  if b : bool then os_remove p else mret tt.

Definition cleanup_msg : string := "Could not delete intermediate files".

(** Lines 310-317, the function registered with [atexit]. *)
Definition deleteIntermediateFiles_atexit a : Mo unit :=
  try_except_OSError
    (remove_if_exists (stationaryFile a) ;;
     remove_if_exists (epochFile a))
    (emit (ToScreen cleanup_msg)).

Definition run_handler (h : handler Opts) : Mo unit :=
  match h with
  | DeleteIntermediateFiles a => deleteIntermediateFiles_atexit a
  end.

(** The registered functions run last-registered first; an exception that
    escapes one is collected and the remaining ones still run. *)
Fixpoint run_exitfuncs (hs : list (handler Opts)) (w : World Opts FS)
  : list exn * World Opts FS :=
  match hs with
  | [] => ([], w)
  | h :: hs' =>
      let '(r, w1) := run_handler h w in
      let '(es, w2) := run_exitfuncs hs' w1 in
      (match r with inl e => e :: es | inr _ => es end, w2)
  end.

Record Outcome := mkOutcome {
  result : exn + unit;
  exit_errors : list exn;
  final : World Opts FS
}.

Definition initial (fs0 : FS) : World Opts FS := mkWorld fs0 [] [].

(** A whole process: [main()], then the exit functions. *)
Definition run_process a (fs0 : FS) : Outcome :=
  let '(r, w) := main a (initial fs0) in
  let '(es, w') := run_exitfuncs (atexit w) w in
  mkOutcome r es w'.

End Main.

(** ** A small concrete host

    A file system given by three lists of paths, and stages that only add
    keys to the summary and create their output files.  It is the host of
    the closed examples below. *)

Module Sim.

Record FS := mkFS {
  files : list string;      (* regular files *)
  writable : list string;   (* paths that exist and grant write access *)
  locked : list string      (* files that cannot be removed *)
}.

Definition mem (p : string) (l : list string) : bool :=
  existsb (String.eqb p) l.

Definition sim_remove (p : string) (f : FS) : exn + FS :=
  if mem p (locked f) then inl (OSError "Permission denied")
  else if mem p (files f)
       then inr (mkFS (List.filter (λ q, negb (String.eqb p q)) (files f))
                      (writable f) (locked f))
       else inl (OSError "No such file or directory").

Definition create (p : string) (f : FS) : FS :=
  mkFS (p :: files f) (writable f) (locked f).

Definition add_keys (kvs : list (string * pyval)) (s : summary) : summary :=
  foldl (λ m kv, <[kv.1 := kv.2]> m) s kvs.

(** Decimal digits only; enough for the column indexes. *)
Fixpoint digits (acc : Z) (s : string) : option Z :=
  match s with
  | EmptyString => Some acc
  | String c s' =>
      let n := Z.of_N (N_of_ascii c) in
      if (48 <=? n) && (n <=? 57) then digits (10 * acc + (n - 48)) s'
      else None
  end.

Definition sim_int (s : string) : exn + Z :=
  match s with
  | EmptyString => inl (ValueError "invalid literal for int()")
  | _ => match digits 0 s with
         | Some z => inr z
         | None => inl (ValueError "invalid literal for int()")
         end
  end.

(** The host is determined by the keys its two stages add. *)
Definition host (decode_keys summarise_keys : list (string * pyval))
  : Host unit FS unit.
Proof.
  refine {|
    isfile f p := mem p (files f);
    access_W f p := mem p (writable f);
    path_exists f p := mem p (files f) || mem p (writable f);
    remove := sim_remove;
    dump_json p _ f := inr (create p f);
    py_int := sim_int;
    processInputFileToEpoch a _ s f :=
      inr (add_keys decode_keys s,
           create (epochFile a) (create (stationaryFile a) f));
    getActivitySummary a s f :=
      if mem (epochFile a) (files f)
      then inr (tt, add_keys summarise_keys s, create (nonWearFile a) f)
      else inl (StageError "epoch file not found");
    writeTimeSeries _ p f := inr (create p f)
  |}.
  intros p f e. unfold sim_remove.
  destruct (mem p (locked f)); [intros [= <-]; reflexivity|].
  destruct (mem p (files f)); [discriminate|intros [= <-]; reflexivity].
Defined.

Definition decode_keys : list (string * pyval) :=
  [("file-startTime", VStr "2020-01-01 10:00:00");
   ("file-endTime", VStr "2020-01-08 10:00:00")].

Definition summarise_keys : list (string * pyval) :=
  [("acc-overall-avg", VFloat "28.5");
   ("wearTime-overall(days)", VFloat "6.9");
   ("nonWearTime-overall(days)", VFloat "0.1");
   ("quality-goodWearTime", VInt 1)].

(** Both stages fill in what the headline needs. *)
Definition full : Host unit FS unit := host decode_keys summarise_keys.

(** The summariser leaves the quality flag out. *)
Definition partial : Host unit FS unit :=
  host decode_keys
       [("acc-overall-avg", VFloat "28.5");
        ("wearTime-overall(days)", VFloat "6.9");
        ("nonWearTime-overall(days)", VFloat "0.1")].

(** Command line [data/sample.cwa.gz] with every option at its default. *)
Definition defaults (input : string) : Args unit :=
  mkArgs input true 100 true None None "0,1,2,3,4" true
         EmptyString EmptyString EmptyString EmptyString
         EmptyString EmptyString EmptyString EmptyString
         EmptyString EmptyString EmptyString EmptyString
         EmptyString EmptyString EmptyString tt.

Definition disk : FS :=
  mkFS ["data/sample.cwa.gz"] ["data"; "out"] [].

End Sim.


(** ** The command-line converters [str2bool] and [str2date]

    A [string] is read here as a sequence of code points below 256, one per
    character. *)

Module PyText.

(** [s.count(c)] for a one-character [c]. *)
Fixpoint count (c : ascii) (s : string) : nat :=
  match s with
  | EmptyString => O
  | String a s' => (if Ascii.eqb a c then 1 else 0) + count c s'
  end.

(** [c.lower()] on one code point below 256: the letters [A]-[Z] and the
    capitals from 192 to 222, the multiplication sign 215 apart, move up
    by 32. *)
Definition lower_char (a : ascii) : ascii :=
  let n := nat_of_ascii a in
  if ((65 <=? n) && (n <=? 90)
      || (192 <=? n) && (n <=? 222) && negb (n =? 215))%nat
  then ascii_of_nat (n + 32)
  else a.

(** [s.lower()] *)
Fixpoint lower (s : string) : string :=
  match s with
  | EmptyString => EmptyString
  | String a s' => String (lower_char a) (lower s')
  end.

(** [x in t] for a tuple of strings. *)
Definition in_tuple (x : string) (t : list string) : bool :=
  existsb (String.eqb x) t.

End PyText.

(** Lines 398-403. *)
Definition str2bool (v : string) : bool :=
  PyText.in_tuple (PyText.lower v) ["yes"; "true"; "t"; "1"].

(** What a call of [str2date] can raise: an exception of [main]'s kind, or
    the [IndexError] of a list subscript out of range. *)
Inductive raised :=
| Exn (e : exn)
| IndexError.

Definition dquote : string := String (ascii_of_nat 34) EmptyString.

(** [l[i]] *)
Definition subscript (l : list string) (i : nat) : raised + string :=
  match l !! i with
  | Some x => inr x
  | None => inl IndexError
  end.

Section Str2date.

(** [pd.datetime.strptime(v, "%Y-%m-%dT%H:%M")], the library's parser. *)
Variable strptime : string → exn + datetime.

Definition eg : string := "1994-11-30T12:00".

(** The lines after the [if] chain of lines 412-425: four prints and the
    [raise]; [line] is what the failing branch printed before. *)
Definition reject (line v : string) : list string * (raised + datetime) :=
  ([line;
    "Please change your input date:";
    dquote +:+ v +:+ dquote;
    "to match the example date format:";
    dquote +:+ eg +:+ dquote],
   inl (Exn (ValueError "Date in incorrect format"))).

(** A condition of the chain that subscripts a list: [IndexError] leaves
    the function at once, with nothing printed. *)
Definition with_item (x : raised + string)
  (k : string → list string * (raised + datetime))
  : list string * (raised + datetime) :=
  match x with
  | inl e => ([], inl e)
  | inr s => k s
  end.

(** Lines 406-430: what is printed, and what is returned or raised. *)
Definition str2date (v : string) : list string * (raised + datetime) :=
  if negb (PyText.count "-" v =? PyText.count "-" eg)%nat then
    reject "ERROR: Not enough dashes in date" v
  else if negb (PyText.count "T" v =? PyText.count "T" eg)%nat then
    reject "ERROR: No T seperator in date" v
  else if negb (PyText.count ":" v =? PyText.count ":" eg)%nat then
    reject "ERROR: No ':' seperator in date" v
  else
    with_item (subscript (Py.split "-" v) 0) (λ y,
    if negb (String.length y =? 4)%nat then
      reject "ERROR: Year in date must be 4 numbers" v
    else
      with_item (subscript (Py.split "-" v) 1) (λ m,
      if negb (String.length m =? 2)%nat && negb (String.length m =? 1)%nat
      then reject "ERROR: Month in date must be 1-2 numbers" v
      else
        with_item (subscript (Py.split "-" v) 2) (λ dT,
        with_item (subscript (Py.split "T" dT) 0) (λ d,
        if negb (String.length d =? 2)%nat
           && negb (String.length d =? 1)%nat
        then reject "ERROR: Day in date must be 1-2 numbers" v
        else
          ([], match strptime v with
               | inl e => inl (Exn e)
               | inr t => inr t
               end))))).

End Str2date.

(** ** Vocabulary of the statements *)

Section Vocabulary.
Context {Opts FS Table : Type} {H : Host Opts FS Table}.
Implicit Types a : Args Opts.

(** The configuration [resolve] returns when it returns one. *)
Definition fix_useFilter a : Args Opts :=
  if sampleRate a <=? 40 then set_useFilter false a else a.

Definition fix_inputFile a : Args Opts :=
  if processInputFile a then a
  else if Py.contains OsPath.dot (inputFile a) then a
       else set_inputFile (inputFile a +:+ ".cwa") a.

Definition resolved a : Args Opts :=
  derive_paths (fix_inputFile (fix_useFilter a)).

(** The world after the sample-rate check: one warning when the filter is
    switched off. *)
Definition warned a (w : World Opts FS) : World Opts FS :=
  if sampleRate a <=? 40
  then mkWorld (fs w) (log w ++ [Warn filter_msg]) (atexit w)
  else w.

(** The folders the gate insists on, in the order it visits them. *)
Definition required_folders a : list string :=
  checked_folders a ++ (if processInputFile a then [epochFolder a] else []).

Definition first_unwritable (f : FS) (l : list string) : option string :=
  find (λ p, negb (access_W f p)) l.

(** The world [w] with the effects [l] appended to its log. *)
Definition logged (w : World Opts FS) (l : list (effect Opts))
  : World Opts FS :=
  mkWorld (fs w) (log w ++ l) (atexit w).

(** The world once the gate has let the configuration through. *)
Definition announced a w : World Opts FS :=
  mkWorld (fs w)
          (log w ++ [Print ("Processing file '" +:+ inputFile a
                            +:+ "' with these arguments:" +:+ nl);
                     PrintOptions a])
          (if deleteIntermediateFiles a
           then DeleteIntermediateFiles a :: atexit w else atexit w).

(** The world in which the time check runs. *)
Definition armed a w : World Opts FS :=
  if deleteIntermediateFiles a
  then mkWorld (fs w) (log w) (DeleteIntermediateFiles a :: atexit w)
  else w.

Definition times_ok a : bool :=
  match startTime a, endTime a with
  | Some s, Some e => dt_le s e
  | _, _ => true
  end.

(** The calls of the three stages. *)
Definition is_stage (e : effect Opts) : bool :=
  match e with
  | CallDecode _ _ _ | CallSummarise _ _ | CallWriteTimeSeries _ => true
  | _ => false
  end.

(** The stage calls together with [main]'s own writes to the summary. *)
Definition is_orchestration (e : effect Opts) : bool :=
  match e with
  | SummarySet _ _ => true
  | e => is_stage e
  end.

Definition orchestration (l : list (effect Opts)) : list (effect Opts) :=
  List.filter is_orchestration l.

(** The gate of lines 242-325 lets the run through to the stages. *)
Definition gate_passes a (f : FS) : bool :=
  (25 <=? sampleRate a)
  && (negb (processInputFile a) || isfile f (inputFile a))
  && match first_unwritable f (required_folders (resolved a)) with
     | None => true
     | Some _ => false
     end
  && times_ok a.

(** What follows once the summary is ready for the summariser: its call,
    and the time-series call if it returned. *)
Definition tail_shape a (s : summary) (l : list (effect Opts)) : Prop :=
  l = [CallSummarise a s]
  ∨ l = [CallSummarise a s; CallWriteTimeSeries (tsFile a)].

(** [list(map(int, l))] as a value: the first element [int] rejects
    decides. *)
Fixpoint int_list (l : list string) : exn + list Z :=
  match l with
  | [] => inr []
  | x :: l' =>
      match py_int x with
      | inl e => inl e
      | inr z => match int_list l' with
                 | inl e => inl e
                 | inr k => inr (z :: k)
                 end
      end
  end.

Definition cols_of a : exn + list Z :=
  int_list (Py.split ","%char (csvTimeXYZTempColsIndex a)).

(** The orchestration events of lines 336-373, by branch. *)
Definition stages_shape a (l : list (effect Opts)) : Prop :=
  if processInputFile a then
    let s0 : summary := {["file-name" := VStr (inputFile a)]} in
    match cols_of a with
    | inl _ => l = [SummarySet "file-name" (VStr (inputFile a))]
    | inr cols =>
        l = [SummarySet "file-name" (VStr (inputFile a));
             CallDecode a cols s0]
        ∨ (∃ s1 t,
             l = [SummarySet "file-name" (VStr (inputFile a));
                  CallDecode a cols s0] ++ t
             ∧ tail_shape a s1 t)
    end
  else
    ∃ t, l = SummarySet "file-name" (VStr (epochFile a)) :: t
         ∧ tail_shape a {["file-name" := VStr (epochFile a)]} t.

(** The headline: the values of [summaryVals], in that order. *)
Definition headline (s : summary) : list (string * pyval) :=
  map (λ k, (k, default VNone (s !! k))) summaryVals.

(** The summary file is opened for writing. *)
Definition is_write (e : effect Opts) : bool :=
  match e with WriteSummary _ _ => true | _ => false end.

Definition is_headline (e : effect Opts) : bool :=
  match e with PrintHeadline _ => true | _ => false end.

(** The first headline key the summary lacks. *)
Definition first_missing (s : summary) : option string :=
  find (λ k, match s !! k with None => true | Some _ => false end)
       summaryVals.

(** The file-name component of [p]: what follows its last separator. *)
Definition file_name_of (p name : string) : Prop :=
  ∃ dir, p = dir +:+ name
         ∧ Py.contains OsPath.sep name = false
         ∧ (dir = EmptyString ∨ Py.endswith OsPath.sep dir = true).

(** [stem] is [name] truncated at its first dot. *)
Definition truncated_at_first_dot (name stem : string) : Prop :=
  ∃ rest, name = stem +:+ rest
          ∧ Py.contains OsPath.dot stem = false
          ∧ (rest = EmptyString ∨ Py.startswith OsPath.dot rest = true).

(** A path has an extension when its file-name component has a dot. *)
Definition has_extension (p : string) : bool :=
  Py.contains OsPath.dot (OsPath.split p).2.

(** A folder option [given] resolves to [result]: the default when it was
    left empty, itself otherwise. *)
Definition defaults_to (given dflt result : string) : Prop :=
  (given = EmptyString → result = dflt)
  ∧ (given ≠ EmptyString → result = given).

(** [folder] and [name] put together with one separator between them,
    unless [folder] is empty or brings its own. *)
Definition joined (folder name : string) : string :=
  if negb (Py.nonempty folder) || Py.endswith OsPath.sep folder
  then folder +:+ name
  else folder +:+ "/" +:+ name.

(** The fixed suffix of each derived file. *)
Definition suffixes : list string :=
  ["-summary.json"; "-nonWearBouts.csv.gz"; "-epoch.csv.gz";
   "-stationaryPoints.csv.gz"; "-timeSeries.csv.gz"; ".csv.gz"; ".npy"].

(** [s] contains [x] and, after it, [y]. *)
Definition reports_both (s x y : string) : Prop :=
  ∃ pre mid post, s = pre +:+ x +:+ mid +:+ y +:+ post.

(** [x] occurs in [s]. *)
Definition mentions (s x : string) : Prop :=
  ∃ pre post, s = pre +:+ x +:+ post.

End Vocabulary.

(** ** Further vocabulary: the derived outputs as a table *)

Section Outputs.
Context {Opts : Type}.
Implicit Types a : Args Opts.

(** Folder, suffix and path of each of the seven outputs. *)
Definition outputs a : list (string * string * string) :=
  [(summaryFolder a, "-summary.json", summaryFile a);
   (nonWearFolder a, "-nonWearBouts.csv.gz", nonWearFile a);
   (epochFolder a, "-epoch.csv.gz", epochFile a);
   (stationaryFolder a, "-stationaryPoints.csv.gz", stationaryFile a);
   (timeSeriesFolder a, "-timeSeries.csv.gz", tsFile a);
   (rawFolder a, ".csv.gz", rawFile a);
   (npyFolder a, ".npy", npyFile a)].

Definition output_files a : list string := map snd (outputs a).

(** The eight folder options. *)
Definition folder_options a : list string :=
  [outputFolder a; summaryFolder a; epochFolder a; timeSeriesFolder a;
   nonWearFolder a; stationaryFolder a; rawFolder a; npyFolder a].

End Outputs.

Section RunVocabulary.
Context {Opts FS Table : Type} {H : Host Opts FS Table}.
Implicit Types a : Args Opts.

(** What lines 336-356 hand on from the file system [f]: the summary and
    the file system the summariser starts from, or the exception raised. *)
Definition decoded a (f : FS) : exn + (summary * FS) :=
  if processInputFile a then
    match cols_of a with
    | inl e => inl e
    | inr cols =>
        processInputFileToEpoch a cols
          {["file-name" := VStr (inputFile a)]} f
    end
  else inr ({["file-name" := VStr (epochFile a)]}, f).

(** The orchestration events of lines 336-356. *)
Definition epoch_events a : list (effect Opts) :=
  if processInputFile a then
    SummarySet "file-name" (VStr (inputFile a))
    :: match cols_of a with
       | inl _ => []
       | inr cols =>
           [CallDecode a cols {["file-name" := VStr (inputFile a)]}]
       end
  else [SummarySet "file-name" (VStr (epochFile a))].

Definition banner : effect Opts := ToScreen "=== Short summary ===".

Definition written_msg a : effect Opts :=
  Print ("Full summary written to: " +:+ summaryFile a).

(** A call of [os.remove]. *)
Definition is_remove (e : effect Opts) : bool :=
  match e with Remove _ => true | _ => false end.

(** The log of a run that goes through every stage, from the epoch stage
    on. *)
Definition full_run_events a (s0 s1 : summary) : list (effect Opts) :=
  epoch_events a
  ++ [CallSummarise a s0; CallWriteTimeSeries (tsFile a); banner;
      PrintHeadline (headline s1); WriteSummary (summaryFile a) s1;
      written_msg a; ReportTime].

End RunVocabulary.

(** ** Vocabulary for the converters *)

(** [c] is the capital of the ASCII letter [d]. *)
Definition capital_of (c d : ascii) : Prop :=
  (97 ≤ nat_of_ascii d ≤ 122)%nat
  ∧ (nat_of_ascii c + 32 = nat_of_ascii d)%nat.

(** [v] is [w] with some of its ASCII letters capitalised, and nothing
    else changed. *)
Fixpoint case_variant (v w : string) : Prop :=
  match v, w with
  | EmptyString, EmptyString => True
  | String c v', String d w' => (c = d ∨ capital_of c d) ∧ case_variant v' w'
  | _, _ => False
  end.

(** Every character of [w] is below 128. *)
Fixpoint ascii_only (w : string) : Prop :=
  match w with
  | EmptyString => True
  | String d w' => (nat_of_ascii d < 128)%nat ∧ ascii_only w'
  end.

(** The words [str2bool] takes for true. *)
Definition true_words : list string := ["yes"; "true"; "t"; "1"].

(** What [str2date] makes of the parser's answer. *)
Definition lifted (r : exn + datetime) : raised + datetime :=
  match r with
  | inl e => inl (Exn e)
  | inr t => inr t
  end.

(** The first lines [str2date] can print. *)
Definition error_lines : list string :=
  ["ERROR: Not enough dashes in date";
   "ERROR: No T seperator in date";
   "ERROR: No ':' seperator in date";
   "ERROR: Year in date must be 4 numbers";
   "ERROR: Month in date must be 1-2 numbers";
   "ERROR: Day in date must be 1-2 numbers"].

(** The shape [str2date] asks of its argument before it calls the parser:
    three dash-separated pieces, the first of four characters, the second
    of one or two, the third starting with one or two characters before a
    [T] or its end; one [T] and one colon in all. *)
Definition date_shaped (v : string) : Prop :=
  ∃ y m r,
    v = y +:+ "-" +:+ m +:+ "-" +:+ r
    ∧ Py.contains "-" y = false
    ∧ Py.contains "-" m = false
    ∧ Py.contains "-" r = false
    ∧ String.length y = 4%nat
    ∧ (String.length m = 1 ∨ String.length m = 2)%nat
    ∧ (String.length (hd EmptyString (Py.split "T" r)) = 1
       ∨ String.length (hd EmptyString (Py.split "T" r)) = 2)%nat
    ∧ PyText.count "T" v = 1%nat
    ∧ PyText.count ":" v = 1%nat.

(** ** Command lines of the closed examples *)

Module Scenario.

Definition mk (input : string) (process : bool) (rate : Z) (filter : bool)
  (st en : option datetime) (out summary epoch : string) : Args unit :=
  mkArgs input process rate filter st en "0,1,2,3,4" true
         out summary epoch EmptyString
         EmptyString EmptyString EmptyString EmptyString
         EmptyString EmptyString EmptyString EmptyString
         EmptyString EmptyString EmptyString tt.

(** [accProcess.py data/sample.cwa.gz --summaryFolder nowhere] *)
Definition bad_summary_folder : Args unit :=
  mk "data/sample.cwa.gz" true 100 true None None
     EmptyString "nowhere" EmptyString.

(** [accProcess.py data/sample.cwa.gz --sampleRate 30] *)
Definition slow : Args unit :=
  mk "data/sample.cwa.gz" true 30 true None None
     EmptyString EmptyString EmptyString.

(** [accProcess.py data/sample.cwa.gz --sampleRate 20] *)
Definition too_slow : Args unit :=
  mk "data/sample.cwa.gz" true 20 true None None
     EmptyString EmptyString EmptyString.

(** [accProcess.py data/sample.cwa.gz --outputFolder out] *)
Definition to_out : Args unit :=
  mk "data/sample.cwa.gz" true 100 true None None
     "out" EmptyString EmptyString.

(** [accProcess.py data/sample.cwa.gz] *)
Definition plain : Args unit := Sim.defaults "data/sample.cwa.gz".

(** [--startTime 2020-01-02T00:00 --endTime 2020-01-01T23:59] *)
Definition jan2 : datetime := mkDatetime 2020 1 2 0 0.
Definition jan1_late : datetime := mkDatetime 2020 1 1 23 59.
Definition inverted : Args unit :=
  mk "data/sample.cwa.gz" true 100 true (Some jan2) (Some jan1_late)
     EmptyString EmptyString EmptyString.

(** [accProcess.py ./sample --processInputFile False] *)
Definition dotted_folder : Args unit :=
  mk "./sample" false 100 true None None
     EmptyString EmptyString EmptyString.

(** [accProcess.py data/sample --processInputFile False] *)
Definition no_dot : Args unit :=
  mk "data/sample" false 100 true None None
     EmptyString EmptyString EmptyString.

(** [accProcess.py missing.cwa] *)
Definition missing : Args unit :=
  mk "missing.cwa" true 100 true None None
     EmptyString EmptyString EmptyString.

(** [accProcess.py data/sample.cwa.gz --processInputFile False
     --epochFolder epochs], with [epochs] absent from the disk. *)
Definition epochs_elsewhere : Args unit :=
  mk "data/sample.cwa.gz" false 100 true None None
     EmptyString EmptyString "epochs".

(** The stationary-points file of [plain] cannot be removed. *)
Definition sticky_disk : Sim.FS :=
  Sim.mkFS ["data/sample.cwa.gz"] ["data"; "out"]
           ["data/sample-stationaryPoints.csv.gz"].

(** [plain] run to the end on [sticky_disk]. *)
Definition sticky_run := run_process (H := Sim.full) plain sticky_disk.

End Scenario.

(** ** Further command lines and disks *)

Module ScenarioX.

(** [accProcess.py data/sample.csv.gz --processInputFile False] *)
Definition csv_input : Args unit :=
  Scenario.mk "data/sample.csv.gz" false 100 true None None
              EmptyString EmptyString EmptyString.

(** [accProcess.py sample.cwa --processInputFile False] *)
Definition bare : Args unit :=
  Scenario.mk "sample.cwa" false 100 true None None
              EmptyString EmptyString EmptyString.

(** A disk that already holds an epoch file for [sample]. *)
Definition disk_with_epoch : Sim.FS :=
  Sim.mkFS ["data/sample.cwa.gz"; "data/sample-epoch.csv.gz"]
           ["data"; "out"] [].

(** A parser for the fixed-width form [YYYY-MM-DDTHH:MM] only. *)
Definition field (i n : nat) (v : string) : option N :=
  match Sim.digits 0 (Py.take n (Py.drop i v)) with
  | Some z => Some (Z.to_N z)
  | None => None
  end.

Definition strptime (v : string) : exn + datetime :=
  match field 0 4 v, field 5 2 v, field 8 2 v, field 11 2 v, field 14 2 v
  with
  | Some y, Some m, Some d, Some h, Some mi =>
      if (String.length v =? 16)%nat then inr (mkDatetime y m d h mi)
      else inl (ValueError "unconverted data remains")
  | _, _, _, _, _ => inl (ValueError "time data does not match format")
  end.

End ScenarioX.

(** * Facts about the string and path primitives *)

Section StringFacts.
Implicit Types (c : ascii) (s t r : string).

Lemma contains_app c s t :
  Py.contains c (s +:+ t) = Py.contains c s || Py.contains c t.
Proof.
  induction s as [|a s IH]; simpl; [reflexivity|].
  rewrite IH. apply orb_assoc.
Qed.

Lemma split_nonempty c s : Py.split c s ≠ [].
Proof.
  destruct s as [|a s]; simpl; [discriminate|].
  destruct (Ascii.eqb a c); [discriminate|].
  destruct (Py.split c s); discriminate.
Qed.

Lemma split_no_sep c s : Py.contains c s = false → Py.split c s = [s].
Proof.
  induction s as [|a s IH]; simpl; [reflexivity|].
  intros [Ha Hs]%orb_false_elim. rewrite Ha, (IH Hs). reflexivity.
Qed.

(** [len(s.split(c)) < 2] says exactly that [c] does not occur in [s]. *)
Lemma split_length_lt2 c s :
  (length (Py.split c s) <? 2)%nat = negb (Py.contains c s).
Proof.
  induction s as [|a s IH]; simpl; [reflexivity|].
  destruct (Ascii.eqb a c); simpl.
  - pose proof (split_nonempty c s) as Hne.
    destruct (Py.split c s); [contradiction|reflexivity].
  - rewrite <- IH. pose proof (split_nonempty c s) as Hne.
    destruct (Py.split c s); [contradiction|reflexivity].
Qed.

(** The first piece of [s.split(c)] is [s] cut at its first [c]. *)
Lemma hd_split_cut c s :
  ∃ r, s = hd EmptyString (Py.split c s) +:+ r
       ∧ Py.contains c (hd EmptyString (Py.split c s)) = false
       ∧ (r = EmptyString ∨ Py.startswith c r = true).
Proof.
  induction s as [|a s (r & Hs & Hc & Hr)].
  - exists EmptyString. simpl. auto.
  - simpl. destruct (Ascii.eqb a c) eqn:Ha.
    + exists (String a s). simpl. rewrite Ha. auto.
    + pose proof (split_nonempty c s) as Hne.
      destruct (Py.split c s) as [|p ps]; [contradiction|].
      simpl in *. exists r. rewrite Ha, Hc.
      split; [change (String a s = String a (p +:+ r)); congruence|].
      split; [reflexivity|exact Hr].
Qed.

Lemma hd_split_app c s t :
  Py.contains c s = false →
  hd EmptyString (Py.split c (s +:+ String c t)) = s.
Proof.
  induction s as [|a s IH]; simpl.
  - intros _. rewrite Ascii.eqb_refl. reflexivity.
  - intros [Ha Hs]%orb_false_elim. rewrite Ha.
    specialize (IH Hs). pose proof (split_nonempty c (s +:+ String c t)).
    destruct (Py.split c (s +:+ String c t)); [contradiction|].
    simpl in *. congruence.
Qed.

Lemma take_drop i s : Py.take i s +:+ Py.drop i s = s.
Proof.
  revert s; induction i as [|i IH]; intros [|a s]; try reflexivity.
  change (String a (Py.take i s +:+ Py.drop i s) = String a s).
  rewrite IH. reflexivity.
Qed.

Lemma rfind_None c s : Py.rfind c s = None ↔ Py.contains c s = false.
Proof.
  induction s as [|a s IH]; simpl; [tauto|].
  destruct (Py.rfind c s) as [k|].
  - split; [discriminate|]. intros [_ Hs]%orb_false_elim.
    apply IH in Hs. discriminate.
  - destruct IH as [IH _]. rewrite (IH eq_refl), orb_false_r.
    destruct (Ascii.eqb a c); split; congruence.
Qed.

(** After the last separator there is none, and before it the string ends
    with one. *)
Lemma rfind_Some c s k :
  Py.rfind c s = Some k →
  Py.endswith c (Py.take (S k) s) = true
  ∧ Py.contains c (Py.drop (S k) s) = false.
Proof.
  revert k; induction s as [|a s IH]; intros k; simpl; [discriminate|].
  destruct (Py.rfind c s) as [j|] eqn:Hj.
  - intros [= <-]. destruct (IH j eq_refl) as [He Hc]. split; [|exact Hc].
    destruct s as [|b s]; [discriminate|]. simpl in *.
    destruct (Py.take j s); exact He.
  - destruct (Ascii.eqb a c) eqn:Ha; [|discriminate].
    intros [= <-]. split.
    + destruct s; simpl; rewrite ?Ha; reflexivity.
    + simpl. apply rfind_None. exact Hj.
Qed.

Lemma rfind_app c s t :
  Py.contains c t = false → Py.rfind c (s +:+ t) = Py.rfind c s.
Proof.
  intros Ht. induction s as [|a s IH]; simpl.
  - apply rfind_None. exact Ht.
  - rewrite IH. reflexivity.
Qed.

Lemma rfind_lt c s k : Py.rfind c s = Some k → (k < String.length s)%nat.
Proof.
  revert k; induction s as [|a s IH]; intros k; simpl; [discriminate|].
  destruct (Py.rfind c s) as [j|].
  - intros [= <-]. specialize (IH j eq_refl). lia.
  - destruct (Ascii.eqb a c); [intros [= <-]; lia|discriminate].
Qed.

Lemma take_app i s t :
  (i ≤ String.length s)%nat → Py.take i (s +:+ t) = Py.take i s.
Proof.
  revert s; induction i as [|i IH]; intros s Hi.
  - destruct s, t; reflexivity.
  - destruct s as [|a s]; simpl in Hi; [lia|].
    change (String a (Py.take i (s +:+ t)) = String a (Py.take i s)).
    rewrite IH by lia. reflexivity.
Qed.

Lemma drop_app i s t :
  (i ≤ String.length s)%nat → Py.drop i (s +:+ t) = Py.drop i s +:+ t.
Proof.
  revert s; induction i as [|i IH]; intros s Hi.
  - destruct s, t; reflexivity.
  - destruct s as [|a s]; simpl in Hi; [lia|].
    change (Py.drop i (s +:+ t) = Py.drop i s +:+ t).
    apply IH. lia.
Qed.

(** The file-name part of [p] has no separator, and what precedes it in [p]
    is empty or ends with one. *)
Lemma split_tail p :
  ∃ d, p = d +:+ (OsPath.split p).2
       ∧ Py.contains OsPath.sep (OsPath.split p).2 = false
       ∧ (d = EmptyString ∨ Py.endswith OsPath.sep d = true).
Proof.
  unfold OsPath.split. simpl.
  destruct (Py.rfind OsPath.sep p) as [k|] eqn:Hk.
  - exists (Py.take (S k) p). destruct (rfind_Some _ _ _ Hk) as [He Hc].
    rewrite take_drop. auto.
  - exists EmptyString. simpl. destruct p; simpl;
      (split; [reflexivity|]); split; auto;
      apply rfind_None in Hk; exact Hk.
Qed.

(** Appending a suffix without a separator leaves the folder alone and
    lands on the file name. *)
Lemma split_app p t :
  Py.contains OsPath.sep t = false →
  OsPath.split (p +:+ t) = ((OsPath.split p).1, (OsPath.split p).2 +:+ t).
Proof.
  intros Ht. unfold OsPath.split. rewrite (rfind_app _ _ _ Ht).
  destruct (Py.rfind OsPath.sep p) as [k|] eqn:Hk; simpl fst; simpl snd.
  - apply rfind_lt in Hk.
    rewrite take_app, drop_app by lia. reflexivity.
  - simpl. destruct (p +:+ t); destruct p; reflexivity.
Qed.

End StringFacts.

(** * The phases of [main], one equation each *)

Section Phases.
Context {Opts FS Table : Type} {H : Host Opts FS Table}.
Implicit Types (a : Args Opts) (w : World Opts FS).

Lemma bind_eq {A B} (m : M Opts FS A) (f : A → M Opts FS B) w :
  (m ≫= f) w = match m w with
               | (inr x, w') => f x w'
               | (inl e, w') => (inl e, w')
               end.
Proof. reflexivity. Qed.

Lemma world_eta w : mkWorld (fs w) (log w) (atexit w) = w.
Proof. destruct w; reflexivity. Qed.

Lemma check_sampleRate_eq a w :
  check_sampleRate a w =
  if sampleRate a <? 25 then (inl (AssertionError sampleRate_msg), w)
  else (inr (fix_useFilter a), warned a w).
Proof.
  unfold check_sampleRate, fix_useFilter, warned, assert_.
  rewrite bind_eq.
  destruct (Z.ltb_spec (sampleRate a) 25) as [Hlt|Hge].
  - destruct (Z.leb_spec 25 (sampleRate a)); [lia|reflexivity].
  - destruct (Z.leb_spec 25 (sampleRate a)); [|lia].
    destruct (sampleRate a <=? 40); reflexivity.
Qed.

Lemma check_inputFile_eq a w :
  check_inputFile a w =
  if processInputFile a && negb (isfile (fs w) (inputFile a))
  then (inl (AssertionError (missing_msg (inputFile a))), w)
  else (inr (fix_inputFile a), w).
Proof.
  unfold check_inputFile, fix_inputFile, assert_, query.
  destruct (processInputFile a); simpl.
  - rewrite !bind_eq. destruct (isfile (fs w) (inputFile a)); reflexivity.
  - rewrite split_length_lt2.
    destruct (Py.contains OsPath.dot (inputFile a)); reflexivity.
Qed.

Lemma fix_useFilter_keeps a :
  inputFile (fix_useFilter a) = inputFile a
  ∧ processInputFile (fix_useFilter a) = processInputFile a.
Proof. unfold fix_useFilter. destruct (sampleRate a <=? 40); auto. Qed.

(** Lines 242-289 in one equation. *)
Lemma resolve_eq a w :
  resolve a w =
  if sampleRate a <? 25 then (inl (AssertionError sampleRate_msg), w)
  else if processInputFile a && negb (isfile (fs w) (inputFile a))
       then (inl (AssertionError (missing_msg (inputFile a))), warned a w)
       else (inr (resolved a), warned a w).
Proof.
  unfold resolve. rewrite bind_eq, check_sampleRate_eq.
  destruct (sampleRate a <? 25); [reflexivity|].
  rewrite bind_eq, check_inputFile_eq.
  destruct (fix_useFilter_keeps a) as [-> ->].
  replace (fs (warned a w)) with (fs w)
    by (unfold warned; destruct (sampleRate a <=? 40); reflexivity).
  destruct (processInputFile a && negb (isfile (fs w) (inputFile a)));
    reflexivity.
Qed.

Lemma find_append {A} (f : A → bool) (l k : list A) :
  find f (l ++ k) = match find f l with Some x => Some x | None => find f k end.
Proof.
  induction l as [|x l IH]; [reflexivity|]. simpl.
  destruct (f x); [reflexivity|exact IH].
Qed.

Lemma for_each_check_writable (l : list string) w :
  for_each check_writable l w =
  match first_unwritable (fs w) l with
  | Some p => (inl (AssertionError (folder_msg p)), w)
  | None => (inr tt, w)
  end.
Proof.
  induction l as [|p l IH]; [reflexivity|].
  cbn [for_each]. rewrite bind_eq. unfold check_writable at 1.
  rewrite bind_eq. unfold query, first_unwritable. cbn [find].
  destruct (access_W (fs w) p); simpl; [exact IH|reflexivity].
Qed.

(** Lines 292-305 in one equation: the first folder without write access
    decides. *)
Lemma check_folders_eq a w :
  check_folders a w =
  match first_unwritable (fs w) (required_folders a) with
  | Some p => (inl (AssertionError (folder_msg p)), w)
  | None => (inr tt, w)
  end.
Proof.
  unfold check_folders, required_folders, first_unwritable.
  rewrite bind_eq, for_each_check_writable. unfold first_unwritable.
  rewrite find_append.
  destruct (find _ (checked_folders a)); [reflexivity|].
  destruct (processInputFile a); [|reflexivity].
  unfold check_writable. rewrite bind_eq. unfold query. cbn [find].
  destruct (access_W (fs w) (epochFolder a)); reflexivity.
Qed.

Lemma first_unwritable_Some (f : FS) l p :
  first_unwritable f l = Some p → In p l ∧ access_W f p = false.
Proof.
  intros Hf. apply find_some in Hf as [Hin Hp]. simpl in Hp.
  split; [exact Hin|]. destruct (access_W f p); [discriminate|reflexivity].
Qed.

Lemma first_unwritable_None (f : FS) l :
  first_unwritable f l = None ↔ ∀ p, In p l → access_W f p = true.
Proof.
  split.
  - intros Hf p Hin. pose proof (find_none _ _ Hf p Hin) as Hp.
    simpl in Hp. destruct (access_W f p); [reflexivity|discriminate].
  - intros Hall. unfold first_unwritable.
    induction l as [|p l IH]; [reflexivity|]. cbn [find].
    rewrite (Hall p) by (left; reflexivity). simpl.
    apply IH. intros q Hq. apply Hall. right; exact Hq.
Qed.

Lemma check_times_eq a w :
  check_times a w =
  match startTime a, endTime a with
  | Some s, Some e =>
      if dt_le s e then (inr tt, w)
      else (inl (AssertionError (time_msg s e)), w)
  | _, _ => (inr tt, w)
  end.
Proof.
  unfold check_times, assert_.
  destruct (startTime a) as [s|], (endTime a) as [e|]; try reflexivity.
  destruct (dt_le s e); reflexivity.
Qed.

(** Lines 292-331 in one equation. *)
Lemma validate_eq a w :
  validate a w =
  match first_unwritable (fs w) (required_folders a) with
  | Some p => (inl (AssertionError (folder_msg p)), w)
  | None =>
      match startTime a, endTime a with
      | Some s, Some e =>
          if dt_le s e then (inr tt, announced a w)
          else (inl (AssertionError (time_msg s e)), armed a w)
      | _, _ => (inr tt, announced a w)
      end
  end.
Proof.
  unfold validate. rewrite bind_eq, check_folders_eq.
  destruct (first_unwritable _ _); [reflexivity|].
  rewrite bind_eq.
  assert ((if deleteIntermediateFiles a
           then atexit_register (DeleteIntermediateFiles a)
           else mret tt) w = (inr tt, armed a w)) as ->.
  { unfold armed. destruct (deleteIntermediateFiles a); [reflexivity|].
    reflexivity. }
  rewrite bind_eq, check_times_eq.
  assert (print_options a (armed a w) = (inr tt, announced a w)) as Hp.
  { unfold print_options, announced, armed, emit. rewrite bind_eq.
    destruct (deleteIntermediateFiles a); simpl; rewrite <- app_assoc;
      reflexivity. }
  destruct (startTime a) as [s|], (endTime a) as [e|]; try exact Hp.
  destruct (dt_le s e); [exact Hp|reflexivity].
Qed.

End Phases.

(** * The stages and the finalisation *)

Section Stages.
Context {Opts FS Table : Type} {H : Host Opts FS Table}.
Implicit Types (a : Args Opts) (w : World Opts FS) (s : summary).

Lemma emit_eq (e : effect Opts) w : emit e w = (inr tt, logged w [e]).
Proof. reflexivity. Qed.

Lemma ret_eq {A} (x : A) w : (mret x : M Opts FS A) w = (inr x, w).
Proof. reflexivity. Qed.

Lemma call_eq {A} (op : FS → exn + (A * FS)) w :
  call op w = match op (fs w) with
              | inr (x, fs') => (inr x, mkWorld fs' (log w) (atexit w))
              | inl e => (inl e, w)
              end.
Proof. reflexivity. Qed.

Lemma syscall_eq (op : FS → exn + FS) w :
  syscall op w = match op (fs w) with
                 | inr fs' => (inr tt, mkWorld fs' (log w) (atexit w))
                 | inl e => (inl e, w)
                 end.
Proof. reflexivity. Qed.

Ltac mstep :=
  repeat (rewrite bind_eq || rewrite emit_eq || rewrite ret_eq
          || rewrite call_eq || rewrite syscall_eq);
  cbn beta iota.

Ltac wnorm :=
  unfold logged; cbn [fs log atexit]; rewrite <- ?app_assoc; cbn [app].

Ltac mrun := repeat (mstep; cbn [fs log atexit]).

Lemma logged_logged w l k : logged (logged w l) k = logged w (l ++ k).
Proof. unfold logged. simpl. rewrite app_assoc. reflexivity. Qed.

Lemma mapM_cons {A B} (f : A → M Opts FS B) (x : A) (l : list A) :
  mapM f (x :: l) = (y ← f x; k ← mapM f l; mret (y :: k)).
Proof. reflexivity. Qed.

(** Converting the column indexes touches nothing. *)
Lemma parse_cols_eq (t : string) w :
  parse_cols t w = (int_list (Py.split ","%char t), w).
Proof.
  unfold parse_cols. induction (Py.split ","%char t) as [|x l IH];
    [reflexivity|].
  rewrite mapM_cons, bind_eq. cbn [int_list].
  destruct (py_int x) as [e|z]; [reflexivity|]. cbn [mret M_ret].
  rewrite bind_eq, IH. destruct (int_list l); reflexivity.
Qed.

(** Reading the headline keys: the first missing one raises. *)
Lemma read_headline_eq s (l : list string) w :
  mapM (λ i, v ← getitem s i; mret (i, v)) l w =
  match find (λ k, match s !! k with None => true | Some _ => false end) l
  with
  | Some k => (inl (KeyError k), w)
  | None => (inr (map (λ k, (k, default VNone (s !! k))) l), w)
  end.
Proof.
  induction l as [|k l IH]; [reflexivity|].
  rewrite mapM_cons. cbn [find map]. rewrite bind_eq, bind_eq.
  unfold getitem at 1.
  destruct (s !! k) as [v|]; [|reflexivity]. cbn [mret M_ret default].
  rewrite bind_eq, IH. destruct (find _ l); reflexivity.
Qed.

(** Lines 376-395 in one equation. *)
Lemma finalize_eq a s w :
  finalize a s w =
  match first_missing s with
  | Some k => (inl (KeyError k), logged w [ToScreen "=== Short summary ==="])
  | None =>
      let l := [ToScreen "=== Short summary ==="; PrintHeadline (headline s);
                WriteSummary (summaryFile a) s] in
      match dump_json (summaryFile a) s (fs w) with
      | inl e => (inl e, logged w l)
      | inr fs' =>
          (inr tt,
           mkWorld fs'
             (log w ++ l ++ [Print ("Full summary written to: "
                                    +:+ summaryFile a); ReportTime])
             (atexit w))
      end
  end.
Proof.
  unfold finalize, first_missing, headline.
  rewrite bind_eq, emit_eq, bind_eq, read_headline_eq.
  destruct (find _ summaryVals); [reflexivity|].
  rewrite bind_eq, emit_eq, bind_eq, emit_eq, bind_eq. unfold syscall.
  cbn [fs logged].
  destruct (dump_json (summaryFile a) s (fs w)) as [e|fs'].
  - unfold logged. cbn. rewrite <- !app_assoc. reflexivity.
  - rewrite bind_eq, emit_eq. unfold emit, logged. cbn.
    rewrite <- !app_assoc. reflexivity.
Qed.


(** Lines 359-373: the summariser is called, then the time-series writer if
    it returned. *)
Lemma summary_stage_trace a s w :
  ∃ t r fs', summary_stage a s w = (r, mkWorld fs' (log w ++ t) (atexit w))
             ∧ tail_shape a s t.
Proof.
  unfold summary_stage. mrun. wnorm.
  destruct (getActivitySummary a s (fs w)) as [e|[[table s'] fs']].
  - exists [CallSummarise a s]. do 2 eexists. split; [reflexivity|].
    unfold tail_shape. auto.
  - mrun. wnorm.
    exists [CallSummarise a s; CallWriteTimeSeries (tsFile a)].
    unfold tail_shape.
    destruct (writeTimeSeries table (tsFile a) fs'); mrun; wnorm;
      do 2 eexists; (split; [reflexivity|auto]).
Qed.

(** Lines 336-373: what the stages add to the log. *)
Lemma run_stages_trace a w :
  ∃ l r fs', run_stages a w = (r, mkWorld fs' (log w ++ l) (atexit w))
             ∧ stages_shape a l.
Proof.
  unfold run_stages, stages_shape, epoch_stage, summary_set.
  rewrite bind_eq. destruct (processInputFile a).
  - mrun. rewrite insert_empty, parse_cols_eq. unfold cols_of.
    destruct (int_list _) as [e|cols].
    + do 3 eexists. split; reflexivity.
    + mrun. wnorm.
      destruct (processInputFileToEpoch a cols _ (fs w)) as [e|[s1 fs1]].
      * do 3 eexists. split; [reflexivity|]. left. reflexivity.
      * cbn beta iota.
        match goal with |- context [summary_stage a s1 ?w1] =>
          destruct (summary_stage_trace a s1 w1) as (t & r & fs' & -> & Ht)
        end.
        cbn [fs log atexit]. rewrite <- app_assoc.
        do 3 eexists. split; [reflexivity|].
        right. exists s1, t. auto.
  - mrun. rewrite insert_empty. cbn beta iota.
    match goal with |- context [summary_stage a ?s1 ?w1] =>
      destruct (summary_stage_trace a s1 w1) as (t & r & fs' & -> & Ht)
    end.
    wnorm. do 3 eexists. split; [reflexivity|]. exists t. auto.
Qed.

End Stages.

(** * [main] as a whole *)

Section Whole.
Context {Opts FS Table : Type} {H : Host Opts FS Table}.
Implicit Types (a : Args Opts) (w : World Opts FS) (s : summary).

Lemma main_eq a w :
  main a w =
  match resolve a w with
  | (inl e, w1) => (inl e, w1)
  | (inr a1, w1) =>
      match validate a1 w1 with
      | (inl e, w2) => (inl e, w2)
      | (inr _, w2) =>
          match run_stages a1 w2 with
          | (inl e, w3) => (inl e, w3)
          | (inr s, w3) => finalize a1 s w3
          end
      end
  end.
Proof. reflexivity. Qed.

(** What resolution leaves as the user gave it. *)
Lemma resolved_keeps a :
  processInputFile (resolved a) = processInputFile a
  ∧ startTime (resolved a) = startTime a
  ∧ endTime (resolved a) = endTime a
  ∧ deleteIntermediateFiles (resolved a) = deleteIntermediateFiles a
  ∧ sampleRate (resolved a) = sampleRate a
  ∧ inputFile (resolved a) = inputFile (fix_inputFile a).
Proof.
  unfold resolved, derive_paths, fix_inputFile, fix_useFilter.
  destruct (sampleRate a <=? 40), (processInputFile a) eqn:Hp;
    cbn; rewrite ?Hp; try (destruct (Py.contains OsPath.dot (inputFile a)));
    cbn; auto 10.
Qed.

Lemma times_ok_resolved a : times_ok (resolved a) = times_ok a.
Proof.
  unfold times_ok. destruct (resolved_keeps a) as (_ & -> & -> & _).
  reflexivity.
Qed.

Lemma fs_warned a w : fs (warned a w) = fs w.
Proof. unfold warned. destruct (sampleRate a <=? 40); reflexivity. Qed.

Lemma atexit_warned a w : atexit (warned a w) = atexit w.
Proof. unfold warned. destruct (sampleRate a <=? 40); reflexivity. Qed.

Lemma orchestration_app (l k : list (effect Opts)) :
  orchestration (l ++ k) = orchestration l ++ orchestration k.
Proof. unfold orchestration. apply List.filter_app. Qed.

Lemma orchestration_warned a (f : FS) :
  orchestration (log (warned a (initial f))) = [].
Proof. unfold warned. destruct (sampleRate a <=? 40); reflexivity. Qed.

Lemma orchestration_tail a s t :
  tail_shape a s t → orchestration t = t.
Proof. intros [-> | ->]; reflexivity. Qed.

Lemma orchestration_stages a l : stages_shape a l → orchestration l = l.
Proof.
  unfold stages_shape. destruct (processInputFile a).
  - destruct (cols_of a) as [e|cols]; [intros ->; reflexivity|].
    intros [-> | (s1 & t & -> & Ht)]; [reflexivity|].
    rewrite orchestration_app, (orchestration_tail _ _ _ Ht). reflexivity.
  - intros (t & -> & Ht). pose proof (orchestration_tail _ _ _ Ht) as E.
    unfold orchestration in *. cbn [List.filter is_orchestration].
    rewrite E. reflexivity.
Qed.

(** The finalisation adds no orchestration event. *)
Lemma finalize_trace a s w :
  ∃ l r f, finalize a s w = (r, mkWorld f (log w ++ l) (atexit w))
           ∧ orchestration l = [].
Proof.
  rewrite finalize_eq. destruct (first_missing s).
  - do 3 eexists. split; reflexivity.
  - cbn zeta. destruct (dump_json _ _ _); do 3 eexists; split;
      reflexivity.
Qed.

(** A run the gate stops: an exception, and the world as resolution left
    it, except that the cleanup may have been registered. *)
Lemma main_stopped a (f : FS) :
  gate_passes a f = false →
  ∃ e hs, main a (initial f)
          = (inl e, mkWorld f (log (warned a (initial f))) hs)
          ∨ main a (initial f) = (inl e, initial f).
Proof.
  unfold gate_passes. intros Hg. rewrite main_eq, resolve_eq.
  destruct (Z.ltb_spec (sampleRate a) 25) as [Hlt|Hge].
  { exists (AssertionError sampleRate_msg), []. right. reflexivity. }
  destruct (Z.leb_spec 25 (sampleRate a)) as [_|]; [|lia].
  cbn [andb] in Hg. cbn [fs initial].
  destruct (processInputFile a) eqn:Hp; cbn [negb orb andb] in *.
  - destruct (isfile f (inputFile a)); cbn [negb andb] in *.
    2:{ do 2 eexists. left. unfold warned.
        destruct (sampleRate a <=? 40); reflexivity. }
    rewrite validate_eq, fs_warned. cbn [fs initial].
    destruct (first_unwritable f _).
    { do 2 eexists. left. unfold warned.
      destruct (sampleRate a <=? 40); reflexivity. }
    cbn [andb] in Hg. unfold times_ok in Hg.
    destruct (resolved_keeps a) as (_ & -> & -> & _).
    destruct (startTime a), (endTime a); try discriminate.
    rewrite Hg. unfold armed, warned.
    destruct (deleteIntermediateFiles (resolved a)),
      (sampleRate a <=? 40); do 2 eexists; left; reflexivity.
  - rewrite validate_eq, fs_warned. cbn [fs initial].
    destruct (first_unwritable f _).
    { do 2 eexists. left. unfold warned.
      destruct (sampleRate a <=? 40); reflexivity. }
    cbn [andb] in Hg. unfold times_ok in Hg.
    destruct (resolved_keeps a) as (_ & -> & -> & _).
    destruct (startTime a), (endTime a); try discriminate.
    rewrite Hg. unfold armed, warned.
    destruct (deleteIntermediateFiles (resolved a)),
      (sampleRate a <=? 40); do 2 eexists; left; reflexivity.
Qed.

(** A run the gate lets through: the log is what resolution and the gate
    printed, then the orchestration events, then the finalisation. *)
Lemma main_through a (f : FS) :
  gate_passes a f = true →
  ∃ l k r f',
    main a (initial f)
    = (r, mkWorld f'
            (log (announced (resolved a) (warned a (initial f))) ++ l ++ k)
            (atexit (announced (resolved a) (warned a (initial f)))))
    ∧ stages_shape (resolved a) l
    ∧ orchestration k = [].
Proof.
  unfold gate_passes. intros Hg.
  apply andb_prop in Hg as [Hg Ht]. apply andb_prop in Hg as [Hg Hw].
  apply andb_prop in Hg as [Hr Hi].
  rewrite main_eq, resolve_eq.
  destruct (Z.leb_spec 25 (sampleRate a)) as [Hge|]; [|discriminate].
  destruct (Z.ltb_spec (sampleRate a) 25) as [|_]; [lia|].
  cbn [fs initial].
  assert (processInputFile a && negb (isfile f (inputFile a)) = false) as ->.
  { destruct (processInputFile a), (isfile f (inputFile a));
      try reflexivity; discriminate. }
  rewrite validate_eq, fs_warned. cbn [fs initial].
  destruct (first_unwritable f _); [discriminate|].
  rewrite <- times_ok_resolved in Ht. unfold times_ok in Ht.
  set (w2 := announced (resolved a) (warned a (initial f))).
  assert (match startTime (resolved a), endTime (resolved a) with
          | Some s, Some e =>
              if dt_le s e then (inr tt, w2)
              else (inl (AssertionError (time_msg s e)),
                    armed (resolved a) (warned a (initial f)))
          | _, _ => (inr tt, w2)
          end = (inr tt, w2)) as ->.
  { destruct (startTime (resolved a)), (endTime (resolved a));
      try reflexivity. rewrite Ht. reflexivity. }
  destruct (run_stages_trace (resolved a) w2) as (l & r & f1 & -> & Hl).
  destruct r as [e|s].
  - exists l, [], (inl e), f1. rewrite app_nil_r. auto.
  - destruct (finalize_trace (resolved a) s
                (mkWorld f1 (log w2 ++ l) (atexit w2)))
      as (k & r & f2 & -> & Hk).
    cbn [log atexit]. rewrite <- app_assoc.
    exists l, k, r, f2. auto.
Qed.

(** The orchestration events of a whole run. *)
Lemma main_orchestration a (f : FS) :
  if gate_passes a f
  then stages_shape (resolved a)
         (orchestration (log (main a (initial f)).2))
  else orchestration (log (main a (initial f)).2) = [].
Proof.
  destruct (gate_passes a f) eqn:Hg.
  - destruct (main_through a f Hg) as (l & k & r & f' & -> & Hl & Hk).
    cbn [snd log]. rewrite !orchestration_app, Hk, app_nil_r.
    rewrite (orchestration_stages _ _ Hl).
    assert (orchestration
              (log (announced (resolved a) (warned a (initial f)))) = [])
      as ->; [|exact Hl].
    unfold announced. cbn [log]. rewrite orchestration_app.
    rewrite orchestration_warned. reflexivity.
  - destruct (main_stopped a f Hg) as (e & hs & [-> | ->]).
    + cbn [snd log]. apply orchestration_warned.
    + reflexivity.
Qed.

End Whole.

(** * The claims *)

Section Claims.
Context {Opts FS Table : Type} {H : Host Opts FS Table}.
Implicit Types (a : Args Opts) (w : World Opts FS) (s : summary).

Lemma folder_msg_mentions (p : string) : mentions (folder_msg p) p.
Proof.
  exists "Either folder '",
         "' does not exist or you do not have write permission".
  reflexivity.
Qed.

Lemma stage_is_orchestration (e : effect Opts) :
  is_stage e = true → is_orchestration e = true.
Proof. destruct e; simpl; congruence. Qed.

Lemma stages_of_warned a (f : FS) :
  List.filter is_stage (log (warned a (initial f))) = [].
Proof. unfold warned. destruct (sampleRate a <=? 40); reflexivity. Qed.

(** C1: for every configuration that resolves (sample rate at least 25,
    input file present when it is to be processed), the folders the gate
    insists on are the summary, non-wear, stationary, time-series, raw, npy
    and output folders, plus the epoch folder when the input file is to be
    processed.  If all of them grant write access the folder check passes;
    if one does not, [main] raises the assertion whose message names the
    first such folder, in the world resolution left: no stage has been
    called and no exit function registered. *)
Theorem C1_output_folders_gate a (f : FS) :
  25 ≤ sampleRate a →
  (processInputFile a = true → isfile f (inputFile a) = true) →
  resolve a (initial f) = (inr (resolved a), warned a (initial f))
  ∧ required_folders (resolved a)
    = [summaryFolder (resolved a); nonWearFolder (resolved a);
       stationaryFolder (resolved a); timeSeriesFolder (resolved a);
       rawFolder (resolved a); npyFolder (resolved a);
       outputFolder (resolved a)]
      ++ (if processInputFile a then [epochFolder (resolved a)] else [])
  ∧ ((∀ p, In p (required_folders (resolved a)) → access_W f p = true) →
     check_folders (resolved a) (warned a (initial f))
     = (inr tt, warned a (initial f)))
  ∧ (∀ q, In q (required_folders (resolved a)) → access_W f q = false →
     ∃ p, first_unwritable f (required_folders (resolved a)) = Some p
          ∧ In p (required_folders (resolved a))
          ∧ access_W f p = false
          ∧ main a (initial f)
            = (inl (AssertionError (folder_msg p)), warned a (initial f))
          ∧ mentions (folder_msg p) p
          ∧ List.filter is_stage (log (warned a (initial f))) = []
          ∧ atexit (warned a (initial f)) = []).
Proof.
  intros Hrate Hfile.
  set (cfg := resolved a). set (w1 := warned a (initial f)).
  assert (resolve a (initial f) = (inr cfg, w1)) as Hres.
  { rewrite resolve_eq.
    destruct (Z.ltb_spec (sampleRate a) 25); [lia|]. cbn [fs initial].
    destruct (processInputFile a); [|reflexivity].
    rewrite Hfile by reflexivity. reflexivity. }
  split; [exact Hres|]. split.
  { unfold required_folders, checked_folders, cfg.
    destruct (resolved_keeps a) as (-> & _). reflexivity. }
  split.
  { intros Hall. rewrite check_folders_eq.
    unfold w1. rewrite fs_warned. cbn [fs initial].
    apply first_unwritable_None in Hall. rewrite Hall. reflexivity. }
  intros q Hq Hno.
  destruct (first_unwritable f (required_folders cfg)) as [p|] eqn:Hp.
  - exists p. destruct (first_unwritable_Some _ _ _ Hp) as [Hin Hw].
    repeat split; auto using folder_msg_mentions.
    + rewrite main_eq, Hres, validate_eq. unfold w1. rewrite fs_warned.
      cbn [fs initial]. fold cfg. rewrite Hp. reflexivity.
    + apply stages_of_warned.
    + unfold w1. rewrite atexit_warned. reflexivity.
  - rewrite first_unwritable_None in Hp. rewrite (Hp q Hq) in Hno.
    discriminate.
Qed.

(** C2: a sample rate below 25 makes [main] raise before anything else
    happens; from 25 to 40 the filter flag is forced to false, above 40 it
    is the user's; and every call of the decode stage carries the flag so
    resolved. *)
Theorem C2_sample_rate_filter a (f : FS) :
  (sampleRate a < 25 →
   main a (initial f) = (inl (AssertionError sampleRate_msg), initial f))
  ∧ (25 ≤ sampleRate a ≤ 40 →
     check_sampleRate a (initial f)
     = (inr (set_useFilter false a), logged (initial f) [Warn filter_msg])
     ∧ useFilter (resolved a) = false)
  ∧ (40 < sampleRate a →
     check_sampleRate a (initial f) = (inr a, initial f)
     ∧ useFilter (resolved a) = useFilter a)
  ∧ (∀ a' cols s,
       In (CallDecode a' cols s) (log (main a (initial f)).2) →
       a' = resolved a).
Proof.
  assert (useFilter (resolved a) = useFilter (fix_useFilter a)) as Hu.
  { unfold resolved, derive_paths, fix_inputFile.
    destruct (processInputFile _); [reflexivity|].
    destruct (Py.contains _ _); reflexivity. }
  split; [|split; [|split]].
  - intros Hlt. rewrite main_eq, resolve_eq.
    destruct (Z.ltb_spec (sampleRate a) 25); [reflexivity|lia].
  - intros [Hlo Hhi]. rewrite check_sampleRate_eq, Hu.
    unfold fix_useFilter, warned.
    destruct (Z.ltb_spec (sampleRate a) 25); [lia|].
    destruct (Z.leb_spec (sampleRate a) 40); [|lia]. split; reflexivity.
  - intros Hhi. rewrite check_sampleRate_eq, Hu.
    unfold fix_useFilter, warned.
    destruct (Z.ltb_spec (sampleRate a) 25); [lia|].
    destruct (Z.leb_spec (sampleRate a) 40); [lia|]. split; reflexivity.
  - intros a' cols s Hin.
    assert (In (CallDecode a' cols s)
               (orchestration (log (main a (initial f)).2))) as Ho.
    { apply filter_In. split; [exact Hin|reflexivity]. }
    pose proof (main_orchestration a f) as Hm.
    destruct (gate_passes a f); [|rewrite Hm in Ho; contradiction].
    revert Ho. generalize dependent (orchestration (log (main a (initial f)).2)).
    intros l. unfold stages_shape.
    destruct (processInputFile (resolved a)).
    + destruct (cols_of (resolved a)) as [e|cols0].
      * intros -> [Heq|[]]. discriminate.
      * intros [-> | (s1 & t & -> & [-> | ->])] Ho; cbn in Ho;
          repeat (destruct Ho as [Ho|Ho]; [try discriminate; congruence|]);
          contradiction.
    + intros (t & -> & [-> | ->]) Ho; cbn in Ho;
        repeat (destruct Ho as [Ho|Ho]; [try discriminate; congruence|]);
        contradiction.
Qed.


Lemma resolve_inr a w cfg w' :
  resolve a w = (inr cfg, w') → cfg = resolved a ∧ w' = warned a w.
Proof.
  rewrite resolve_eq. destruct (sampleRate a <? 25); [discriminate|].
  destruct (processInputFile a && negb (isfile (fs w) (inputFile a)));
    [discriminate|].
  intros [= <- <-]. auto.
Qed.

(** The name and folder are taken after the default extension went on, and
    come out as if it had not. *)
Lemma name_after_cwa (p : string) :
  Py.contains OsPath.dot p = false →
  inputFileName (p +:+ ".cwa") = inputFileName p
  ∧ inputFileFolder (p +:+ ".cwa") = inputFileFolder p.
Proof.
  intros Hp. unfold inputFileName, inputFileFolder.
  rewrite (split_app p ".cwa") by reflexivity. cbn [fst snd].
  split; [|reflexivity].
  destruct (split_tail p) as (d & Hd & _ & _).
  assert (Py.contains OsPath.dot (OsPath.split p).2 = false) as Hn.
  { rewrite Hd, contains_app in Hp. apply orb_false_elim in Hp as [_ Hp].
    exact Hp. }
  change ".cwa" with (String OsPath.dot "cwa").
  rewrite (hd_split_app _ _ _ Hn), (split_no_sep _ _ Hn). reflexivity.
Qed.

Lemma fixed_input a :
  inputFileName (inputFile (fix_inputFile (fix_useFilter a)))
  = inputFileName (inputFile a)
  ∧ inputFileFolder (inputFile (fix_inputFile (fix_useFilter a)))
    = inputFileFolder (inputFile a).
Proof.
  unfold fix_inputFile.
  destruct (fix_useFilter_keeps a) as [Hi ->].
  destruct (processInputFile a); [rewrite Hi; auto|]. rewrite Hi.
  destruct (Py.contains OsPath.dot (inputFile a)) eqn:Hc; [rewrite ?Hi; auto|].
  cbn [inputFile set_inputFile]. rewrite ?Hi. apply name_after_cwa, Hc.
Qed.

(** The folder options reach [derive_paths] as the user gave them. *)
Lemma fixed_folders a :
  let a' := fix_inputFile (fix_useFilter a) in
  outputFolder a' = outputFolder a ∧ summaryFolder a' = summaryFolder a
  ∧ epochFolder a' = epochFolder a
  ∧ timeSeriesFolder a' = timeSeriesFolder a
  ∧ nonWearFolder a' = nonWearFolder a
  ∧ stationaryFolder a' = stationaryFolder a
  ∧ rawFolder a' = rawFolder a ∧ npyFolder a' = npyFolder a.
Proof.
  unfold fix_inputFile, fix_useFilter.
  destruct (sampleRate a <=? 40); cbn;
    destruct (processInputFile a); cbn;
    try destruct (Py.contains OsPath.dot (inputFile a)); cbn; auto 10.
Qed.

Lemma inputFileName_spec (p : string) :
  ∃ name, file_name_of p name
          ∧ truncated_at_first_dot name (inputFileName p).
Proof.
  exists (OsPath.split p).2. split.
  - exact (split_tail p).
  - exact (hd_split_cut OsPath.dot (OsPath.split p).2).
Qed.

Lemma contains_startswith (c : ascii) (t : string) :
  Py.contains c t = false → Py.startswith c t = false.
Proof.
  destruct t as [|x t]; [reflexivity|]. simpl.
  intros [Hx _]%orb_false_elim. exact Hx.
Qed.

(** A stem never holds a separator, so the joined name keeps its folder. *)
Lemma stem_no_sep (p : string) :
  Py.contains OsPath.sep (inputFileName p) = false.
Proof.
  destruct (inputFileName_spec p) as (name & (d & _ & Hn & _) & (r & Hr & _)).
  rewrite Hr, contains_app in Hn. apply orb_false_elim in Hn as [Hn _].
  exact Hn.
Qed.

Lemma join_stem (folder p sfx : string) :
  In sfx suffixes →
  OsPath.join folder (inputFileName p +:+ sfx)
  = joined folder (inputFileName p +:+ sfx).
Proof.
  intros Hs. unfold OsPath.join, joined.
  assert (Py.startswith OsPath.sep (inputFileName p +:+ sfx) = false) as ->;
    [|reflexivity].
  pose proof (stem_no_sep p) as Hn.
  destruct (inputFileName p) as [|x t].
  - cbn in Hs. repeat (destruct Hs as [<- | Hs]; [reflexivity|]).
    contradiction.
  - simpl in *. apply orb_false_elim in Hn as [Hx _]. exact Hx.
Qed.

(** The files of the resolved configuration: the stem of the path the user
    gave, the suffix, the resolved folder. *)
Lemma resolved_files a :
  let cfg := resolved a in
  let stem := inputFileName (inputFile a) in
  summaryFile cfg = OsPath.join (summaryFolder cfg) (stem +:+ "-summary.json")
  ∧ nonWearFile cfg
    = OsPath.join (nonWearFolder cfg) (stem +:+ "-nonWearBouts.csv.gz")
  ∧ epochFile cfg = OsPath.join (epochFolder cfg) (stem +:+ "-epoch.csv.gz")
  ∧ stationaryFile cfg
    = OsPath.join (stationaryFolder cfg)
                  (stem +:+ "-stationaryPoints.csv.gz")
  ∧ tsFile cfg
    = OsPath.join (timeSeriesFolder cfg) (stem +:+ "-timeSeries.csv.gz")
  ∧ rawFile cfg = OsPath.join (rawFolder cfg) (stem +:+ ".csv.gz")
  ∧ npyFile cfg = OsPath.join (npyFolder cfg) (stem +:+ ".npy").
Proof.
  destruct (fixed_input a) as [Hn _].
  unfold resolved, derive_paths.
  cbn [summaryFile nonWearFile epochFile stationaryFile tsFile rawFile
       npyFile default_filenames summaryFolder nonWearFolder epochFolder
       stationaryFolder timeSeriesFolder rawFolder npyFolder].
  rewrite Hn. repeat split; reflexivity.
Qed.

(** C3: the stem of every derived file is the file-name component of the
    input path as the user gave it, cut at its first dot, and each of the
    seven files is that stem followed by its own suffix, joined onto its
    resolved folder; the join never drops the folder. *)
Theorem C3_stem_and_suffixes a w cfg w' :
  resolve a w = (inr cfg, w') →
  ∃ name stem,
    file_name_of (inputFile a) name
    ∧ truncated_at_first_dot name stem
    ∧ summaryFile cfg
      = OsPath.join (summaryFolder cfg) (stem +:+ "-summary.json")
    ∧ nonWearFile cfg
      = OsPath.join (nonWearFolder cfg) (stem +:+ "-nonWearBouts.csv.gz")
    ∧ epochFile cfg
      = OsPath.join (epochFolder cfg) (stem +:+ "-epoch.csv.gz")
    ∧ stationaryFile cfg
      = OsPath.join (stationaryFolder cfg)
                    (stem +:+ "-stationaryPoints.csv.gz")
    ∧ tsFile cfg
      = OsPath.join (timeSeriesFolder cfg) (stem +:+ "-timeSeries.csv.gz")
    ∧ rawFile cfg = OsPath.join (rawFolder cfg) (stem +:+ ".csv.gz")
    ∧ npyFile cfg = OsPath.join (npyFolder cfg) (stem +:+ ".npy")
    ∧ (∀ folder sfx, In sfx suffixes →
         OsPath.join folder (stem +:+ sfx) = joined folder (stem +:+ sfx)).
Proof.
  intros [-> _]%resolve_inr.
  destruct (inputFileName_spec (inputFile a)) as (name & Hname & Hstem).
  exists name, (inputFileName (inputFile a)).
  split; [exact Hname|]. split; [exact Hstem|].
  destruct (resolved_files a) as (H1 & H2 & H3 & H4 & H5 & H6 & H7).
  repeat (split; [assumption|]).
  intros folder sfx Hs. apply join_stem, Hs.
Qed.

(** The folders of the resolved configuration, by the defaulting rule. *)
Lemma resolved_folders a :
  let cfg := resolved a in
  outputFolder cfg
  = or_default (outputFolder a) (inputFileFolder (inputFile a))
  ∧ summaryFolder cfg = or_default (summaryFolder a) (outputFolder cfg)
  ∧ nonWearFolder cfg = or_default (nonWearFolder a) (outputFolder cfg)
  ∧ epochFolder cfg = or_default (epochFolder a) (outputFolder cfg)
  ∧ stationaryFolder cfg = or_default (stationaryFolder a) (outputFolder cfg)
  ∧ timeSeriesFolder cfg = or_default (timeSeriesFolder a) (outputFolder cfg)
  ∧ rawFolder cfg = or_default (rawFolder a) (outputFolder cfg)
  ∧ npyFolder cfg = or_default (npyFolder a) (outputFolder cfg).
Proof.
  destruct (fixed_input a) as [_ Hf].
  destruct (fixed_folders a) as (Ho & Hs & He & Ht & Hn & Hst & Hr & Hnp).
  unfold resolved, derive_paths.
  cbn [outputFolder summaryFolder nonWearFolder epochFolder stationaryFolder
       timeSeriesFolder rawFolder npyFolder default_filenames
       default_folders].
  rewrite Hf, Ho, Hs, He, Ht, Hn, Hst, Hr, Hnp.
  repeat split; reflexivity.
Qed.

Lemma or_default_defaults (given dflt : string) :
  defaults_to given dflt (or_default given dflt).
Proof.
  unfold defaults_to, or_default.
  destruct (String.eqb_spec given EmptyString); split; congruence.
Qed.

(** C4: each of the seven per-artifact folders left empty resolves to the
    general output folder, which itself resolves to the folder of the input
    path when left empty; a folder the user gave is kept. *)
Theorem C4_folder_defaults a w cfg w' :
  resolve a w = (inr cfg, w') →
  defaults_to (outputFolder a) (inputFileFolder (inputFile a))
              (outputFolder cfg)
  ∧ defaults_to (summaryFolder a) (outputFolder cfg) (summaryFolder cfg)
  ∧ defaults_to (nonWearFolder a) (outputFolder cfg) (nonWearFolder cfg)
  ∧ defaults_to (epochFolder a) (outputFolder cfg) (epochFolder cfg)
  ∧ defaults_to (stationaryFolder a) (outputFolder cfg)
                (stationaryFolder cfg)
  ∧ defaults_to (timeSeriesFolder a) (outputFolder cfg)
                (timeSeriesFolder cfg)
  ∧ defaults_to (rawFolder a) (outputFolder cfg) (rawFolder cfg)
  ∧ defaults_to (npyFolder a) (outputFolder cfg) (npyFolder cfg).
Proof.
  intros [-> _]%resolve_inr.
  destruct (resolved_folders a)
    as (Ho & Hs & Hn & He & Hst & Ht & Hr & Hnp).
  rewrite Hs, Hn, He, Hst, Ht, Hr, Hnp. rewrite Ho at 1.
  repeat split; apply or_default_defaults.
Qed.

Lemma dt_gt_not_le (s e : datetime) : dt_gt s e = true → dt_le s e = false.
Proof. unfold dt_gt, dt_le. destruct (dt_cmp s e); congruence. Qed.

Lemma dt_eq_lt_le (s e : datetime) :
  dt_eq s e = true ∨ dt_lt s e = true → dt_le s e = true.
Proof.
  unfold dt_eq, dt_lt, dt_le. destruct (dt_cmp s e); intros [|]; congruence.
Qed.

Lemma time_msg_reports (s e : datetime) :
  reports_both (time_msg s e) (strftime s) (strftime e).
Proof.
  exists ("startTime and endTime arguments are invalid!" +:+ nl
          +:+ "startTime: "),
         (nl +:+ "endTime:, "), nl.
  reflexivity.
Qed.

(** C5: with both timestamps given and the start after the end, the
    time-order check raises an assertion whose message shows both; with the
    start equal to or before the end, or a timestamp missing, it passes.
    In [main], once the earlier checks have passed, the inverted window is
    the error of the run and no stage is called. *)
Theorem C5_time_order a w :
  (∀ st en : datetime, startTime a = Some st → endTime a = Some en → dt_gt st en = true →
     check_times a w = (inl (AssertionError (time_msg st en)), w)
     ∧ reports_both (time_msg st en) (strftime st) (strftime en))
  ∧ (∀ st en : datetime, startTime a = Some st → endTime a = Some en →
       dt_eq st en = true ∨ dt_lt st en = true →
       check_times a w = (inr tt, w))
  ∧ (startTime a = None ∨ endTime a = None → check_times a w = (inr tt, w))
  ∧ (∀ (f : FS) (st en : datetime),
       startTime a = Some st → endTime a = Some en → dt_gt st en = true →
       25 ≤ sampleRate a →
       (processInputFile a = true → isfile f (inputFile a) = true) →
       (∀ p, In p (required_folders (resolved a)) → access_W f p = true) →
       ∃ w', main a (initial f) = (inl (AssertionError (time_msg st en)), w')
             ∧ List.filter is_stage (log w') = []).
Proof.
  split; [|split; [|split]].
  - intros st en Hs He Hgt. rewrite check_times_eq, Hs, He.
    rewrite (dt_gt_not_le _ _ Hgt). split; [reflexivity|].
    apply time_msg_reports.
  - intros st en Hs He Hle. rewrite check_times_eq, Hs, He.
    rewrite (dt_eq_lt_le _ _ Hle). reflexivity.
  - intros Hnone. rewrite check_times_eq.
    destruct Hnone as [-> | ->]; [reflexivity|].
    destruct (startTime a); reflexivity.
  - intros f st en Hs He Hgt Hrate Hfile Hall.
    exists (armed (resolved a) (warned a (initial f))).
    rewrite main_eq, resolve_eq.
    destruct (Z.ltb_spec (sampleRate a) 25); [lia|]. cbn [fs initial].
    assert (processInputFile a && negb (isfile f (inputFile a)) = false)
      as ->.
    { destruct (processInputFile a); [|reflexivity].
      rewrite Hfile by reflexivity. reflexivity. }
    rewrite validate_eq, fs_warned. cbn [fs initial].
    apply first_unwritable_None in Hall. rewrite Hall.
    destruct (resolved_keeps a) as (_ & -> & -> & _).
    rewrite Hs, He, (dt_gt_not_le _ _ Hgt). split; [reflexivity|].
    unfold armed, warned.
    destruct (deleteIntermediateFiles _), (sampleRate a <=? 40); reflexivity.
Qed.

(** C6, as the code has it: when the input file is to be processed and is
    not a file, the input check raises the assertion naming the path, and so
    do [resolve] and [main] once the sample rate is accepted; when
    processing is skipped the check succeeds on every file system, appends
    [.cwa] exactly when the path holds no dot anywhere, folder components
    included, and the names are derived from the path so completed, with
    the stem the path had before. *)
Theorem C6_input_file a w :
  (processInputFile a = true → isfile (fs w) (inputFile a) = false →
     check_inputFile a w
     = (inl (AssertionError (missing_msg (inputFile a))), w)
     ∧ mentions (missing_msg (inputFile a)) (inputFile a)
     ∧ (25 ≤ sampleRate a →
        resolve a w
        = (inl (AssertionError (missing_msg (inputFile a))), warned a w)
        ∧ main a w
          = (inl (AssertionError (missing_msg (inputFile a))), warned a w)))
  ∧ (processInputFile a = true → isfile (fs w) (inputFile a) = true →
       check_inputFile a w = (inr a, w))
  ∧ (processInputFile a = false →
       ∃ a', check_inputFile a w = (inr a', w)
             ∧ (Py.contains OsPath.dot (inputFile a) = false →
                inputFile a' = inputFile a +:+ ".cwa")
             ∧ (Py.contains OsPath.dot (inputFile a) = true →
                inputFile a' = inputFile a)
             ∧ inputFileName (inputFile a') = inputFileName (inputFile a)
             ∧ (25 ≤ sampleRate a →
                ∃ a'', resolve a w = (inr (derive_paths a''), warned a w)
                       ∧ inputFile a'' = inputFile a')).
Proof.
  split; [|split].
  - intros Hp Hf. rewrite check_inputFile_eq, Hp, Hf. split; [reflexivity|].
    split; [exists "File '", "' does not exist"; reflexivity|].
    intros Hrate. rewrite main_eq, resolve_eq, Hp, Hf.
    destruct (Z.ltb_spec (sampleRate a) 25); [lia|]. split; reflexivity.
  - intros Hp Hf. rewrite check_inputFile_eq, Hp, Hf.
    unfold fix_inputFile. rewrite Hp. reflexivity.
  - intros Hp. exists (fix_inputFile a).
    rewrite check_inputFile_eq, Hp. split; [reflexivity|].
    unfold fix_inputFile. rewrite Hp.
    destruct (Py.contains OsPath.dot (inputFile a)) eqn:Hc.
    + split; [discriminate|]. split; [reflexivity|]. split; [reflexivity|].
      intros Hrate. exists (fix_inputFile (fix_useFilter a)).
      rewrite resolve_eq, Hp.
      destruct (Z.ltb_spec (sampleRate a) 25); [lia|].
      split; [reflexivity|]. unfold fix_inputFile.
      destruct (fix_useFilter_keeps a) as [-> ->]. rewrite Hp, Hc.
      apply fix_useFilter_keeps.
    + split; [reflexivity|]. split; [discriminate|].
      split; [apply name_after_cwa, Hc|].
      intros Hrate. exists (fix_inputFile (fix_useFilter a)).
      rewrite resolve_eq, Hp.
      destruct (Z.ltb_spec (sampleRate a) 25); [lia|].
      split; [reflexivity|]. unfold fix_inputFile.
      destruct (fix_useFilter_keeps a) as [Hi ->]. rewrite Hi, Hp, Hc.
      cbn [inputFile set_inputFile]. rewrite ?Hi. reflexivity.
Qed.

(** C7: in every run in which the summariser is called, [main] has written
    the summary exactly once before that call, under the key [file-name]:
    with the input path when the input file is processed, the decode stage
    having been called in between with a summary holding just that key; with
    the epoch file path when processing is skipped, the summariser then
    receiving a summary holding just that key and the decode stage not being
    called at all.  A run the gate lets through always makes that write
    first; a run the gate stops writes nothing and calls no stage. *)
Theorem C7_file_name_key a (f : FS) :
  (gate_passes a f = false →
   orchestration (log (main a (initial f)).2) = [])
  ∧ (gate_passes a f = true → processInputFile a = true →
     inputFile (resolved a) = inputFile a
     ∧ match cols_of (resolved a) with
       | inl _ =>
           orchestration (log (main a (initial f)).2)
           = [SummarySet "file-name" (VStr (inputFile a))]
       | inr cols =>
           ∃ rest,
             orchestration (log (main a (initial f)).2)
             = SummarySet "file-name" (VStr (inputFile a))
               :: CallDecode (resolved a) cols
                    {["file-name" := VStr (inputFile a)]}
               :: rest
             ∧ (rest = []
                ∨ ∃ s1, rest = [CallSummarise (resolved a) s1]
                        ∨ rest = [CallSummarise (resolved a) s1;
                                  CallWriteTimeSeries
                                    (tsFile (resolved a))])
       end)
  ∧ (gate_passes a f = true → processInputFile a = false →
     ∃ rest,
       orchestration (log (main a (initial f)).2)
       = SummarySet "file-name" (VStr (epochFile (resolved a)))
         :: CallSummarise (resolved a)
              {["file-name" := VStr (epochFile (resolved a))]}
         :: rest
       ∧ (rest = [] ∨ rest = [CallWriteTimeSeries (tsFile (resolved a))]))
  ∧ (∀ a' s,
       In (CallSummarise a' s) (log (main a (initial f)).2) →
       a' = resolved a
       ∧ ∃ rest,
           (rest = [] ∨ rest = [CallWriteTimeSeries (tsFile (resolved a))])
           ∧ if processInputFile a
             then ∃ cols,
                 orchestration (log (main a (initial f)).2)
                 = [SummarySet "file-name" (VStr (inputFile a));
                    CallDecode (resolved a) cols
                      {["file-name" := VStr (inputFile a)]};
                    CallSummarise (resolved a) s] ++ rest
             else s = {["file-name" := VStr (epochFile (resolved a))]}
                  ∧ orchestration (log (main a (initial f)).2)
                    = [SummarySet "file-name"
                         (VStr (epochFile (resolved a)));
                       CallSummarise (resolved a) s] ++ rest).
Proof.
  pose proof (main_orchestration a f) as Hm.
  destruct (resolved_keeps a) as (Hp & _ & _ & _ & _ & Hi).
  assert (processInputFile a = true → inputFile (resolved a) = inputFile a)
    as Hin.
  { intros Hproc. rewrite Hi. unfold fix_inputFile. rewrite Hproc.
    reflexivity. }
  unfold stages_shape in Hm. rewrite Hp in Hm.
  split; [|split; [|split]].
  - intros Hg. rewrite Hg in Hm. exact Hm.
  - intros Hg Hproc. rewrite Hg, Hproc, (Hin Hproc) in Hm.
    split; [exact (Hin Hproc)|]. cbn zeta in Hm.
    destruct (cols_of (resolved a)) as [e|cols]; [exact Hm|].
    destruct Hm as [-> | (s1 & t & -> & [-> | ->])].
    + exists []. auto.
    + eexists. split; [reflexivity|]. right. exists s1. auto.
    + eexists. split; [reflexivity|]. right. exists s1. auto.
  - intros Hg Hproc. rewrite Hg, Hproc in Hm.
    destruct Hm as (t & -> & [-> | ->]).
    + exists []. auto.
    + eexists. split; [reflexivity|]. auto.
  - intros a' s Hcall.
    assert (In (CallSummarise a' s)
               (orchestration (log (main a (initial f)).2))) as Ho.
    { apply filter_In. split; [exact Hcall|reflexivity]. }
    destruct (gate_passes a f); [|rewrite Hm in Ho; contradiction].
    destruct (processInputFile a) eqn:Hproc.
    + rewrite (Hin eq_refl) in Hm. cbn zeta in Hm.
      destruct (cols_of (resolved a)) as [e|cols].
      * rewrite Hm in Ho. destruct Ho as [Ho|[]]. discriminate.
      * destruct Hm as [Hm | (s1 & t & Hm & [-> | ->])];
          rewrite Hm in Ho |- *; cbn in Ho;
          repeat (destruct Ho as [Ho|Ho]; [try discriminate|]);
          try contradiction; injection Ho as <- <-;
          (split; [reflexivity|]).
        -- exists []. split; [auto|]. exists cols. reflexivity.
        -- exists [CallWriteTimeSeries (tsFile (resolved a))].
           split; [auto|]. exists cols. reflexivity.
    + destruct Hm as (t & Hm & [-> | ->]);
        rewrite Hm in Ho |- *; cbn in Ho;
        repeat (destruct Ho as [Ho|Ho]; [try discriminate|]);
        try contradiction; injection Ho as <- <-;
        (split; [reflexivity|]).
      * exists []. auto.
      * exists [CallWriteTimeSeries (tsFile (resolved a))]. auto.
Qed.

(** C8: the headline is the seven keys of [summaryVals], read in that
    order.  If the summary lacks one of them the finalisation raises
    [KeyError] for the first one missing, having printed only the banner:
    no headline is printed, the summary file is not opened and the file
    system is as it was.  If it has them all, the headline printed is their
    values in order, and the file is opened afterwards. *)
Theorem C8_headline_or_fail a s w :
  summaryVals
  = ["file-name"; "file-startTime"; "file-endTime"; "acc-overall-avg";
     "wearTime-overall(days)"; "nonWearTime-overall(days)";
     "quality-goodWearTime"]
  ∧ (∀ k, In k summaryVals → s !! k = None →
       ∃ k', first_missing s = Some k'
             ∧ In k' summaryVals ∧ s !! k' = None
             ∧ finalize a s w
               = (inl (KeyError k'),
                  mkWorld (fs w)
                          (log w ++ [ToScreen "=== Short summary ==="])
                          (atexit w)))
  ∧ ((∀ k, In k summaryVals → is_Some (s !! k)) →
       map fst (headline s) = summaryVals
       ∧ (∀ k v, In (k, v) (headline s) → s !! k = Some v)
       ∧ ∃ r f' rest,
           finalize a s w
           = (r, mkWorld f'
                   (log w ++ ToScreen "=== Short summary ==="
                          :: PrintHeadline (headline s)
                          :: WriteSummary (summaryFile a) s :: rest)
                   (atexit w))).
Proof.
  split; [reflexivity|]. split.
  - intros k Hk Hnone.
    destruct (first_missing s) as [k'|] eqn:Hm.
    + exists k'. unfold first_missing in Hm.
      apply find_some in Hm as Hm'. destruct Hm' as [Hin Hk'].
      simpl in Hk'.
      split; [reflexivity|]. split; [exact Hin|].
      split; [destruct (s !! k'); [discriminate|reflexivity]|].
      rewrite finalize_eq. unfold first_missing. rewrite Hm. reflexivity.
    + unfold first_missing in Hm.
      pose proof (find_none _ _ Hm k Hk) as Hc. simpl in Hc.
      rewrite Hnone in Hc. discriminate.
  - intros Hall. split; [|split].
    + unfold headline. rewrite map_map. cbn [fst]. apply map_id.
    + intros k v Hin. unfold headline in Hin. apply in_map_iff in Hin.
      destruct Hin as (k0 & [= <- <-] & Hk0).
      destruct (Hall k0 Hk0) as [v Hv]. rewrite Hv. reflexivity.
    + rewrite finalize_eq.
      destruct (first_missing s) as [k|] eqn:Hm.
      * unfold first_missing in Hm. apply find_some in Hm as [Hin Hk].
        simpl in Hk. destruct (Hall k Hin) as [v Hv]. rewrite Hv in Hk.
        discriminate.
      * cbn zeta. destruct (dump_json _ _ _); do 3 eexists; reflexivity.
Qed.

Lemma atexit_announced a w :
  atexit (announced a w)
  = if deleteIntermediateFiles a
    then DeleteIntermediateFiles a :: atexit w else atexit w.
Proof. reflexivity. Qed.

Lemma remove_if_exists_eq (p : string) w :
  remove_if_exists p w =
  if path_exists (fs w) p
  then match remove p (fs w) with
       | inr f' => (inr tt, mkWorld f' (log w ++ [Remove p]) (atexit w))
       | inl e => (inl e, logged w [Remove p])
       end
  else (inr tt, w).
Proof.
  unfold remove_if_exists, os_remove. rewrite bind_eq. unfold query.
  destruct (path_exists (fs w) p); [|reflexivity].
  rewrite bind_eq, emit_eq, syscall_eq. cbn [fs logged].
  destruct (remove p (fs w)); reflexivity.
Qed.

(** Lines 310-317 in one equation. *)
Lemma cleanup_eq a w :
  deleteIntermediateFiles_atexit a w =
  match remove_if_exists (stationaryFile a) w with
  | (inl e, w1) =>
      if is_OSError e then (inr tt, logged w1 [ToScreen cleanup_msg])
      else (inl e, w1)
  | (inr _, w1) =>
      match remove_if_exists (epochFile a) w1 with
      | (inl e, w2) =>
          if is_OSError e then (inr tt, logged w2 [ToScreen cleanup_msg])
          else (inl e, w2)
      | (inr _, w2) => (inr tt, w2)
      end
  end.
Proof.
  unfold deleteIntermediateFiles_atexit, try_except_OSError.
  rewrite bind_eq.
  destruct (remove_if_exists (stationaryFile a) w) as [[e|[]] w1];
    [reflexivity|].
  destruct (remove_if_exists (epochFile a) w1) as [[e|[]] w2]; reflexivity.
Qed.

Lemma remove_if_exists_raises (p : string) w e w' :
  remove_if_exists p w = (inl e, w') → is_OSError e = true.
Proof.
  rewrite remove_if_exists_eq. destruct (path_exists (fs w) p);
    [|discriminate].
  destruct (remove p (fs w)) as [e'|f'] eqn:Hr; [|discriminate].
  intros [= <- _]. exact (remove_raises _ _ _ Hr).
Qed.

(** The cleanup returns normally whatever the file system does. *)
Lemma cleanup_returns a w : (deleteIntermediateFiles_atexit a w).1 = inr tt.
Proof.
  rewrite cleanup_eq.
  destruct (remove_if_exists (stationaryFile a) w) as [[e|[]] w1] eqn:H1.
  - rewrite (remove_if_exists_raises _ _ _ _ H1). reflexivity.
  - destruct (remove_if_exists (epochFile a) w1) as [[e|[]] w2] eqn:H2;
      [|reflexivity].
    rewrite (remove_if_exists_raises _ _ _ _ H2). reflexivity.
Qed.

Lemma run_exitfuncs_quiet (hs : list (handler Opts)) w :
  (run_exitfuncs hs w).1 = [].
Proof.
  revert w; induction hs as [|[a] hs IH]; intros w; [reflexivity|].
  cbn [run_exitfuncs run_handler].
  pose proof (cleanup_returns a w) as Hc.
  destruct (deleteIntermediateFiles_atexit a w) as [r w1].
  cbn in Hc. subst r. specialize (IH w1).
  destruct (run_exitfuncs hs w1) as [es w2]. exact IH.
Qed.

(** C9, as the code has it: the cleanup never raises.  With neither file
    present it does nothing.  A stationary-points file that is present is
    the first thing it tries to remove; if that removal fails the warning is
    printed and the epoch file is not tried.  Otherwise an epoch file that
    is present is tried next, and a failure there prints the same warning.
    At process exit no error comes out of the exit functions, the result of
    the run is that of [main], and when the gate let the run through with
    cleanup enabled the world the process ends in is the one this cleanup
    leaves. *)
Theorem C9_cleanup_best_effort a w :
  (deleteIntermediateFiles_atexit a w).1 = inr tt
  ∧ (path_exists (fs w) (stationaryFile a) = false →
     path_exists (fs w) (epochFile a) = false →
     deleteIntermediateFiles_atexit a w = (inr tt, w))
  ∧ (path_exists (fs w) (stationaryFile a) = true →
     ∀ e, remove (stationaryFile a) (fs w) = inl e →
     deleteIntermediateFiles_atexit a w
     = (inr tt,
        logged w [Remove (stationaryFile a); ToScreen cleanup_msg]))
  ∧ (∀ f1 pre,
       (path_exists (fs w) (stationaryFile a) = false
        ∧ f1 = fs w ∧ pre = [])
       ∨ (path_exists (fs w) (stationaryFile a) = true
          ∧ remove (stationaryFile a) (fs w) = inr f1
          ∧ pre = [Remove (stationaryFile a)]) →
       (path_exists f1 (epochFile a) = false →
        deleteIntermediateFiles_atexit a w
        = (inr tt, mkWorld f1 (log w ++ pre) (atexit w)))
       ∧ (path_exists f1 (epochFile a) = true →
          (∀ f2, remove (epochFile a) f1 = inr f2 →
             deleteIntermediateFiles_atexit a w
             = (inr tt,
                mkWorld f2 (log w ++ pre ++ [Remove (epochFile a)])
                        (atexit w)))
          ∧ (∀ e, remove (epochFile a) f1 = inl e →
               deleteIntermediateFiles_atexit a w
               = (inr tt,
                  mkWorld f1
                    (log w ++ pre ++ [Remove (epochFile a);
                                      ToScreen cleanup_msg])
                    (atexit w)))))
  ∧ (∀ f : FS,
       exit_errors (run_process a f) = []
       ∧ result (run_process a f) = (main a (initial f)).1
       ∧ (gate_passes a f = true → deleteIntermediateFiles a = true →
          final (run_process a f)
          = (deleteIntermediateFiles_atexit (resolved a)
               (main a (initial f)).2).2)).
Proof.
  split; [apply cleanup_returns|]. split; [|split; [|split]].
  - intros Hs He. rewrite cleanup_eq, remove_if_exists_eq, Hs.
    rewrite remove_if_exists_eq, He. reflexivity.
  - intros Hs e Hr. rewrite cleanup_eq, remove_if_exists_eq, Hs, Hr.
    rewrite (remove_raises _ _ _ Hr). unfold logged. cbn [fs log atexit].
    rewrite <- app_assoc. reflexivity.
  - intros f1 pre Hcase.
    assert (remove_if_exists (stationaryFile a) w
            = (inr tt, mkWorld f1 (log w ++ pre) (atexit w))) as H1.
    { rewrite remove_if_exists_eq.
      destruct Hcase as [(-> & -> & ->) | (-> & -> & ->)];
        [|reflexivity].
      rewrite app_nil_r, world_eta. reflexivity. }
    rewrite cleanup_eq, H1, remove_if_exists_eq. cbn [fs log atexit].
    split; [intros ->; reflexivity|]. intros ->. split.
    + intros f2 ->. rewrite <- app_assoc. reflexivity.
    + intros e Hr. rewrite Hr, (remove_raises _ _ _ Hr).
      unfold logged. cbn [fs log atexit]. rewrite <- !app_assoc.
      reflexivity.
  - intros f. unfold run_process.
    destruct (main a (initial f)) as [r w1] eqn:Hmain.
    pose proof (run_exitfuncs_quiet (atexit w1) w1) as Hq.
    destruct (run_exitfuncs (atexit w1) w1) as [es w2] eqn:Hx.
    cbn [exit_errors result final fst snd] in *.
    split; [exact Hq|]. split; [reflexivity|].
    intros Hg Hd.
    destruct (main_through a f Hg) as (l & k & r' & f' & Hm & _).
    rewrite Hmain in Hm.
    assert (atexit w1 = [DeleteIntermediateFiles (resolved a)]) as Ha.
    { injection Hm as _ ->.
      change (atexit (announced (resolved a) (warned a (initial f)))
              = [DeleteIntermediateFiles (resolved a)]).
      rewrite atexit_announced.
      destruct (resolved_keeps a) as (_ & _ & _ & -> & _).
      rewrite Hd, atexit_warned. reflexivity. }
    rewrite Ha in Hx. cbn [run_exitfuncs run_handler] in Hx.
    destruct (deleteIntermediateFiles_atexit (resolved a) w1) as [r2 w3].
    injection Hx as _ <-. reflexivity.
Qed.

(** C10: with processing skipped, an epoch folder the user left empty is
    the output folder and is checked as such; one the user gave, different
    from the seven checked folders, is kept and is none of the folders the
    gate looks at.  Whatever the access to it, when the seven grant write
    access and the time window is in order the gate lets the run through,
    and the summariser is called on the epoch file of that folder. *)
Theorem C10_epoch_folder_unchecked a (f : FS) :
  processInputFile a = false →
  25 ≤ sampleRate a →
  (epochFolder a = EmptyString →
   epochFolder (resolved a) = outputFolder (resolved a)
   ∧ In (epochFolder (resolved a)) (required_folders (resolved a)))
  ∧ (epochFolder a ≠ EmptyString →
     ¬ In (epochFolder a) (checked_folders (resolved a)) →
     epochFolder (resolved a) = epochFolder a
     ∧ ¬ In (epochFolder (resolved a)) (required_folders (resolved a))
     ∧ ((∀ p, In p (checked_folders (resolved a)) → access_W f p = true) →
        times_ok a = true →
        gate_passes a f = true
        ∧ validate (resolved a) (warned a (initial f))
          = (inr tt, announced (resolved a) (warned a (initial f)))
        ∧ epochFile (resolved a)
          = OsPath.join (epochFolder a)
                        (inputFileName (inputFile a) +:+ "-epoch.csv.gz")
        ∧ ∃ rest,
            orchestration (log (main a (initial f)).2)
            = SummarySet "file-name" (VStr (epochFile (resolved a)))
              :: CallSummarise (resolved a)
                   {["file-name" := VStr (epochFile (resolved a))]}
              :: rest)).
Proof.
  intros Hp Hrate. set (cfg := resolved a).
  destruct (resolved_folders a) as (_ & _ & _ & He & _). fold cfg in He.
  assert (required_folders cfg = checked_folders cfg) as Hreq.
  { unfold required_folders, cfg.
    destruct (resolved_keeps a) as (-> & _). rewrite Hp. apply app_nil_r. }
  split.
  - intros Hempty. rewrite He, Hempty. split; [reflexivity|].
    rewrite Hreq. unfold checked_folders. cbn [or_default String.eqb].
    apply in_or_app with (l := [_; _; _; _; _; _]). right. left. reflexivity.
  - intros Hgiven Hdistinct.
    assert (epochFolder cfg = epochFolder a) as Hkeep.
    { rewrite He. apply or_default_defaults, Hgiven. }
    split; [exact Hkeep|]. split; [rewrite Hreq, Hkeep; exact Hdistinct|].
    intros Hall Htimes.
    assert (first_unwritable f (required_folders cfg) = None) as Hnone.
    { apply first_unwritable_None. rewrite Hreq. exact Hall. }
    assert (gate_passes a f = true) as Hg.
    { unfold gate_passes. fold cfg. rewrite Hnone, Htimes, Hp.
      destruct (Z.leb_spec 25 (sampleRate a)); [reflexivity|lia]. }
    split; [exact Hg|]. split; [|split].
    + rewrite validate_eq, fs_warned. cbn [fs initial]. rewrite Hnone.
      rewrite <- times_ok_resolved in Htimes. unfold times_ok in Htimes.
      fold cfg in Htimes.
      destruct (startTime cfg), (endTime cfg); try reflexivity.
      rewrite Htimes. reflexivity.
    + destruct (resolved_files a) as (_ & _ & Hf & _). fold cfg in Hf.
      rewrite Hf, Hkeep. reflexivity.
    + pose proof (main_orchestration a f) as Hm. rewrite Hg in Hm.
      unfold stages_shape in Hm. fold cfg in Hm.
      assert (processInputFile cfg = false) as Hpc.
      { unfold cfg. destruct (resolved_keeps a) as (-> & _). exact Hp. }
      rewrite Hpc in Hm. destruct Hm as (t & -> & Ht).
      destruct Ht as [-> | ->]; eexists; reflexivity.
Qed.
End Claims.

(** * Closed instances on the concrete host *)


Lemma C1_witness :
  main (H := Sim.full) Scenario.bad_summary_folder (initial Sim.disk)
  = (inl (AssertionError (folder_msg "nowhere")), initial Sim.disk).
Proof.
  destruct (C1_output_folders_gate (H := Sim.full)
              Scenario.bad_summary_folder Sim.disk)
    as (_ & _ & _ & Hbad).
  - vm_compute. discriminate.
  - reflexivity.
  - destruct (Hbad "nowhere") as (p & Hp & _ & _ & Hmain & _).
    + vm_compute. auto.
    + reflexivity.
    + vm_compute in Hp. injection Hp as <-. exact Hmain.
Defined.

Lemma C2_witness :
  main (H := Sim.full) Scenario.too_slow (initial Sim.disk)
  = (inl (AssertionError sampleRate_msg), initial Sim.disk)
  ∧ useFilter (resolved Scenario.slow) = false
  ∧ useFilter (resolved Scenario.plain) = true.
Proof.
  split; [|split].
  - apply (C2_sample_rate_filter (H := Sim.full) Scenario.too_slow Sim.disk).
    vm_compute. reflexivity.
  - apply (C2_sample_rate_filter (H := Sim.full) Scenario.slow Sim.disk).
    vm_compute. split; discriminate.
  - apply (C2_sample_rate_filter (H := Sim.full) Scenario.plain Sim.disk).
    vm_compute. reflexivity.
Defined.

Lemma C3_witness :
  ∃ name stem,
    file_name_of "data/sample.cwa.gz" name
    ∧ truncated_at_first_dot name stem
    ∧ epochFile (resolved Scenario.to_out)
      = OsPath.join "out" (stem +:+ "-epoch.csv.gz").
Proof.
  destruct (C3_stem_and_suffixes (H := Sim.full) Scenario.to_out
              (initial Sim.disk) (resolved Scenario.to_out)
              (initial Sim.disk) eq_refl)
    as (name & stem & Hn & Hs & _ & _ & He & _).
  exists name, stem. auto.
Defined.

Lemma C4_witness :
  defaults_to EmptyString "out" (epochFolder (resolved Scenario.to_out))
  ∧ defaults_to EmptyString "data" (outputFolder (resolved Scenario.plain)).
Proof.
  split.
  - apply (C4_folder_defaults (H := Sim.full) Scenario.to_out
             (initial Sim.disk) (resolved Scenario.to_out)
             (initial Sim.disk) eq_refl).
  - apply (C4_folder_defaults (H := Sim.full) Scenario.plain
             (initial Sim.disk) (resolved Scenario.plain)
             (initial Sim.disk) eq_refl).
Defined.

Lemma C5_witness :
  check_times Scenario.inverted (initial Sim.disk)
  = (inl (AssertionError (time_msg Scenario.jan2 Scenario.jan1_late)),
     initial Sim.disk)
  ∧ check_times Scenario.plain (initial Sim.disk)
    = (inr tt, initial Sim.disk)
  ∧ ∃ w', main (H := Sim.full) Scenario.inverted (initial Sim.disk)
          = (inl (AssertionError
                    (time_msg Scenario.jan2 Scenario.jan1_late)), w').
Proof.
  destruct (C5_time_order (H := Sim.full) Scenario.inverted
              (initial Sim.disk)) as (Hgt & _ & _ & Hmain).
  destruct (C5_time_order (H := Sim.full) Scenario.plain
              (initial Sim.disk)) as (_ & _ & Hnone & _).
  split; [|split].
  - apply (Hgt Scenario.jan2 Scenario.jan1_late); reflexivity.
  - apply Hnone. left. reflexivity.
  - destruct (Hmain Sim.disk Scenario.jan2 Scenario.jan1_late)
      as (w' & Hw & _); try reflexivity.
    + vm_compute. discriminate.
    + intros p Hp. vm_compute in Hp.
      destruct Hp as [<- | Hp]; [reflexivity|].
      repeat (destruct Hp as [<- | Hp]; [reflexivity|]). contradiction.
    + exists w'. exact Hw.
Defined.

(** The path [./sample] has no extension, processing is skipped, and the
    input check returns it as it came. *)
Lemma C6_counterexample :
  processInputFile Scenario.dotted_folder = false
  ∧ has_extension (inputFile Scenario.dotted_folder) = false
  ∧ (check_inputFile (H := Sim.full) Scenario.dotted_folder
       (initial Sim.disk)).1
    = inr Scenario.dotted_folder
  ∧ inputFile (resolved Scenario.dotted_folder) = "./sample"
  ∧ inputFile (resolved Scenario.dotted_folder)
    ≠ inputFile Scenario.dotted_folder +:+ ".cwa".
Proof. repeat split; try reflexivity. vm_compute. discriminate. Qed.

Lemma C6_witness :
  main (H := Sim.full) Scenario.missing (initial Sim.disk)
  = (inl (AssertionError (missing_msg "missing.cwa")), initial Sim.disk)
  ∧ ∃ a', check_inputFile (H := Sim.full) Scenario.no_dot (initial Sim.disk)
          = (inr a', initial Sim.disk)
          ∧ inputFile a' = "data/sample.cwa".
Proof.
  destruct (C6_input_file (H := Sim.full) Scenario.missing
              (initial Sim.disk)) as (Hmiss & _ & _).
  destruct (C6_input_file (H := Sim.full) Scenario.no_dot
              (initial Sim.disk)) as (_ & _ & Hskip).
  split.
  - destruct Hmiss as (_ & _ & Hm); [reflexivity|reflexivity|].
    destruct Hm as [_ Hm]; [vm_compute; discriminate|]. exact Hm.
  - destruct Hskip as (a' & Hc & Happ & _); [reflexivity|].
    exists a'. split; [exact Hc|]. apply Happ. reflexivity.
Defined.

Lemma C7_witness :
  (∃ rest,
     orchestration
       (log (main (H := Sim.full) Scenario.plain (initial Sim.disk)).2)
     = SummarySet "file-name" (VStr "data/sample.cwa.gz")
       :: CallDecode (resolved Scenario.plain) [0; 1; 2; 3; 4]
            {["file-name" := VStr "data/sample.cwa.gz"]}
       :: rest)
  ∧ (∃ rest,
       orchestration
         (log (main (H := Sim.full) Scenario.epochs_elsewhere
                 (initial Sim.disk)).2)
       = SummarySet "file-name" (VStr "epochs/sample-epoch.csv.gz")
         :: CallSummarise (resolved Scenario.epochs_elsewhere)
              {["file-name" := VStr "epochs/sample-epoch.csv.gz"]}
         :: rest)
  ∧ (∃ cols rest,
       orchestration
         (log (main (H := Sim.full) Scenario.plain (initial Sim.disk)).2)
       = [SummarySet "file-name" (VStr "data/sample.cwa.gz");
          CallDecode (resolved Scenario.plain) cols
            {["file-name" := VStr "data/sample.cwa.gz"]};
          CallSummarise (resolved Scenario.plain)
            (Sim.add_keys Sim.decode_keys
               {["file-name" := VStr "data/sample.cwa.gz"]})] ++ rest).
Proof.
  split; [|split].
  - destruct (C7_file_name_key (H := Sim.full) Scenario.plain Sim.disk)
      as (_ & Hproc & _ & _).
    destruct Hproc as (_ & rest & Htr & _); [reflexivity|reflexivity|].
    exists rest. exact Htr.
  - destruct (C7_file_name_key (H := Sim.full) Scenario.epochs_elsewhere
                Sim.disk) as (_ & _ & Hskip & _).
    destruct Hskip as (rest & Htr & _); [reflexivity|reflexivity|].
    exists rest. exact Htr.
  - destruct (C7_file_name_key (H := Sim.full) Scenario.plain Sim.disk)
      as (_ & _ & _ & Hcall).
    destruct (Hcall (resolved Scenario.plain)
                (Sim.add_keys Sim.decode_keys
                   {["file-name" := VStr "data/sample.cwa.gz"]}))
      as (_ & rest & _ & cols & Htr).
    + vm_compute. auto 10.
    + exists cols, rest. exact Htr.
Defined.

Lemma C8_witness :
  ∃ k, finalize (H := Sim.full) (resolved Scenario.plain)
         {["file-name" := VStr "data/sample.cwa.gz"]} (initial Sim.disk)
       = (inl (KeyError k),
          mkWorld Sim.disk [ToScreen "=== Short summary ==="] []).
Proof.
  destruct (C8_headline_or_fail (H := Sim.full) (resolved Scenario.plain)
              {["file-name" := VStr "data/sample.cwa.gz"]}
              (initial Sim.disk)) as (_ & Hfail & _).
  destruct (Hfail "file-startTime") as (k & _ & _ & _ & Hk).
  - right. left. reflexivity.
  - reflexivity.
  - exists k. exact Hk.
Defined.

(** The stationary-points file cannot be removed: the process ends with the
    epoch file still there and its removal never tried. *)
Lemma C9_counterexample :
  deleteIntermediateFiles (resolved Scenario.plain) = true
  ∧ result Scenario.sticky_run = inr tt
  ∧ In (Remove (stationaryFile (resolved Scenario.plain)))
       (log (final Scenario.sticky_run))
  ∧ In (ToScreen cleanup_msg) (log (final Scenario.sticky_run))
  ∧ path_exists (Host := Sim.full) (fs (final Scenario.sticky_run))
      (epochFile (resolved Scenario.plain)) = true
  ∧ ¬ In (Remove (epochFile (resolved Scenario.plain)))
         (log (final Scenario.sticky_run)).
Proof.
  vm_compute. repeat split; auto 20.
  intros Hin. repeat (destruct Hin as [Hin | Hin]; [discriminate|]).
  contradiction.
Qed.

Lemma C9_witness :
  deleteIntermediateFiles_atexit (H := Sim.full) (resolved Scenario.plain)
    (initial Sim.disk)
  = (inr tt, initial Sim.disk)
  ∧ exit_errors (run_process (H := Sim.full) Scenario.plain
                   Scenario.sticky_disk) = [].
Proof.
  destruct (C9_cleanup_best_effort (H := Sim.full) (resolved Scenario.plain)
              (initial Sim.disk)) as (_ & Hnone & _ & _ & _).
  destruct (C9_cleanup_best_effort (H := Sim.full) Scenario.plain
              (initial Sim.disk)) as (_ & _ & _ & _ & Hexit).
  split.
  - apply Hnone; reflexivity.
  - apply (Hexit Scenario.sticky_disk).
Defined.

Lemma C10_witness :
  access_W (Host := Sim.full) Sim.disk "epochs" = false
  ∧ gate_passes (H := Sim.full) Scenario.epochs_elsewhere Sim.disk = true
  ∧ epochFile (resolved Scenario.epochs_elsewhere)
    = "epochs/sample-epoch.csv.gz".
Proof.
  split; [reflexivity|].
  destruct (C10_epoch_folder_unchecked (H := Sim.full)
              Scenario.epochs_elsewhere Sim.disk) as (_ & Hgiven).
  - reflexivity.
  - vm_compute. discriminate.
  - destruct Hgiven as (_ & _ & Hrun).
    + discriminate.
    + vm_compute. intros Hin.
      repeat (destruct Hin as [Hin | Hin]; [discriminate|]). contradiction.
    + destruct Hrun as (Hg & _ & Hf & _).
      * intros p Hp. vm_compute in Hp.
        repeat (destruct Hp as [<- | Hp]; [reflexivity|]). contradiction.
      * reflexivity.
      * split; [exact Hg|]. rewrite Hf. reflexivity.
Defined.

(** ** Runs of the concrete host *)

Example stem_of_sample : inputFileName "sample.cwa.gz" = "sample".
Proof. reflexivity. Qed.

Example stem_of_nested :
  inputFileName "/data/run.1/sample.cwa.gz" = "sample"
  ∧ inputFileFolder "/data/run.1/sample.cwa.gz" = "/data/run.1".
Proof. split; reflexivity. Qed.

Example run_plain :
  let o := run_process (H := Sim.full) Scenario.plain Sim.disk in
  result o = inr tt
  ∧ exit_errors o = []
  ∧ Sim.files (fs (final o))
    = ["data/sample-summary.json"; "data/sample-timeSeries.csv.gz";
       "data/sample-nonWearBouts.csv.gz"; "data/sample.cwa.gz"].
Proof. vm_compute. auto. Qed.

Example run_partial :
  let o := run_process (H := Sim.partial) Scenario.plain Sim.disk in
  result o = inl (KeyError "quality-goodWearTime")
  ∧ List.filter is_write (log (final o)) = []
  ∧ List.filter is_headline (log (final o)) = []
  ∧ Sim.mem "data/sample-summary.json" (Sim.files (fs (final o))) = false.
Proof. vm_compute. auto. Qed.

(** * Beyond the claims: the derived paths *)

Section PathFacts.
Implicit Types (c : ascii) (s t d n : string).

Lemma append_assoc' s t r : (s +:+ t) +:+ r = s +:+ (t +:+ r).
Proof.
  induction s as [|a s IH]; [reflexivity|].
  change (String a ((s +:+ t) +:+ r) = String a (s +:+ t +:+ r)).
  rewrite IH. reflexivity.
Qed.

Lemma append_inj_l s t r : s +:+ t = s +:+ r → t = r.
Proof.
  induction s as [|a s IH]; [auto|].
  intros [= Heq]. auto.
Qed.

Lemma append_nil_r s : s +:+ EmptyString = s.
Proof.
  induction s as [|a s IH]; [reflexivity|].
  change (String a (s +:+ EmptyString) = String a s). rewrite IH.
  reflexivity.
Qed.

Lemma endswith_snoc c s : Py.endswith c (s +:+ String c EmptyString) = true.
Proof.
  induction s as [|a s IH]; simpl; [apply Ascii.eqb_refl|].
  destruct (s +:+ String c EmptyString) eqn:Hs; [|exact IH].
  destruct s; discriminate.
Qed.

Lemma length_snoc c s :
  String.length (s +:+ String c EmptyString) = S (String.length s).
Proof. induction s as [|a s IH]; simpl; [reflexivity|]. rewrite IH; lia. Qed.

(** A string that ends with [c] has its last [c] at its last position. *)
Lemma rfind_endswith c s :
  Py.endswith c s = true → Py.rfind c s = Some (pred (String.length s)).
Proof.
  induction s as [|a s IH]; [discriminate|].
  destruct s as [|b s].
  - simpl. intros ->. reflexivity.
  - intros He. change (Py.endswith c (String b s) = true) in He.
    specialize (IH He). cbn [Py.rfind] in IH |- *. rewrite IH. reflexivity.
Qed.

Lemma drop_all s : Py.drop (String.length s) s = EmptyString.
Proof. induction s as [|a s IH]; [reflexivity|exact IH]. Qed.

Lemma take_all s : Py.take (String.length s) s = s.
Proof.
  induction s as [|a s IH]; [reflexivity|].
  change (String a (Py.take (String.length s) s) = String a s).
  rewrite IH. reflexivity.
Qed.

(** Nothing follows the last separator of a path that ends with one. *)
Lemma split_tail_endswith d :
  Py.endswith OsPath.sep d = true → (OsPath.split d).2 = EmptyString.
Proof.
  intros He. unfold OsPath.split. rewrite (rfind_endswith _ _ He). cbn [snd].
  destruct d as [|a d]; [discriminate|]. cbn [String.length pred].
  apply (drop_all (String a d)).
Qed.

Lemma rstrip_snoc c s :
  Py.rstrip c (s +:+ String c EmptyString) = Py.rstrip c s.
Proof.
  induction s as [|a s IH].
  - simpl. rewrite Ascii.eqb_refl. reflexivity.
  - change (Py.rstrip c (String a (s +:+ String c EmptyString))
            = Py.rstrip c (String a s)).
    cbn [Py.rstrip]. rewrite IH. reflexivity.
Qed.

Lemma rstrip_id c s : Py.endswith c s = false → Py.rstrip c s = s.
Proof.
  induction s as [|a s IH]; [reflexivity|].
  destruct s as [|b s].
  - simpl. intros ->. reflexivity.
  - intros He. change (Py.endswith c (String b s) = false) in He.
    cbn [Py.rstrip] in IH |- *. rewrite (IH He). reflexivity.
Qed.

Lemma all_char_endswith c s :
  Py.all_char c s = true → s = EmptyString ∨ Py.endswith c s = true.
Proof.
  induction s as [|a s IH]; [auto|]. simpl.
  intros [Ha Hs]%andb_prop. right.
  destruct (IH Hs) as [-> | He]; [exact Ha|].
  destruct s; [discriminate|exact He].
Qed.

Lemma all_char_snoc c s :
  Py.all_char c (s +:+ String c EmptyString) = Py.all_char c s.
Proof.
  induction s as [|a s IH]; simpl.
  - rewrite Ascii.eqb_refl. reflexivity.
  - rewrite IH. reflexivity.
Qed.

(** [os.path.split] of a folder followed by one separator gives the folder
    back, when the folder is not empty and does not end with one. *)
Lemma split_snoc_sep d :
  d ≠ EmptyString → Py.endswith OsPath.sep d = false →
  OsPath.split (d +:+ String OsPath.sep EmptyString) = (d, EmptyString).
Proof.
  intros Hne He. unfold OsPath.split.
  rewrite (rfind_endswith _ _ (endswith_snoc OsPath.sep d)).
  rewrite length_snoc. cbn [pred].
  replace (S (String.length d))
    with (String.length (d +:+ String OsPath.sep EmptyString))
    by apply length_snoc.
  rewrite take_all, drop_all, all_char_snoc, rstrip_snoc, (rstrip_id _ _ He).
  assert (Py.all_char OsPath.sep d = false) as ->.
  { destruct (Py.all_char OsPath.sep d) eqn:Ha; [|reflexivity].
    destruct (all_char_endswith _ _ Ha); congruence. }
  destruct d; [contradiction|reflexivity].
Qed.

(** [os.path.split] undoes [os.path.join] on the file name, for a name
    without separator. *)
Lemma split_join_tail d n :
  Py.contains OsPath.sep n = false → (OsPath.split (OsPath.join d n)).2 = n.
Proof.
  intros Hn. unfold OsPath.join.
  rewrite (contains_startswith _ _ Hn).
  destruct (negb (Py.nonempty d) || Py.endswith OsPath.sep d) eqn:Hd.
  - rewrite (split_app d n Hn). cbn [snd].
    destruct d as [|a d]; [reflexivity|]. cbn [Py.nonempty negb orb] in Hd.
    rewrite (split_tail_endswith _ Hd). reflexivity.
  - rewrite <- append_assoc', (split_app _ n Hn). cbn [snd].
    rewrite (split_tail_endswith _ (endswith_snoc OsPath.sep d)).
    reflexivity.
Qed.

(** ... and on the folder, when it is not empty and brings no separator of
    its own at the end. *)
Lemma split_join_head d n :
  d ≠ EmptyString → Py.endswith OsPath.sep d = false →
  Py.contains OsPath.sep n = false →
  (OsPath.split (OsPath.join d n)).1 = d.
Proof.
  intros Hne He Hn. unfold OsPath.join.
  rewrite (contains_startswith _ _ Hn), He.
  destruct d as [|a d]; [contradiction|]. cbn [Py.nonempty negb orb].
  rewrite <- append_assoc', (split_app _ n Hn). cbn [fst].
  rewrite (split_snoc_sep (String a d)) by assumption. reflexivity.
Qed.

Lemma stem_no_dot (p : string) :
  Py.contains OsPath.dot (inputFileName p) = false.
Proof.
  unfold inputFileName.
  destruct (hd_split_cut OsPath.dot (OsPath.split p).2) as (r & _ & Hc & _).
  exact Hc.
Qed.

Lemma suffix_no_sep (sfx : string) :
  In sfx suffixes → Py.contains OsPath.sep sfx = false.
Proof.
  intros Hs. cbn in Hs.
  repeat (destruct Hs as [<- | Hs]; [reflexivity|]). contradiction.
Qed.

Lemma name_no_sep (p sfx : string) :
  In sfx suffixes →
  Py.contains OsPath.sep (inputFileName p +:+ sfx) = false.
Proof.
  intros Hs. rewrite contains_app, stem_no_sep, (suffix_no_sep _ Hs).
  reflexivity.
Qed.

End PathFacts.

Section DerivedPaths.
Context {Opts FS Table : Type} {H : Host Opts FS Table}.
Implicit Types (a cfg : Args Opts) (w : World Opts FS).

Lemma outputs_joined a (folder sfx file : string) :
  In (folder, sfx, file) (outputs (resolved a)) →
  In sfx suffixes
  ∧ file = OsPath.join folder (inputFileName (inputFile a) +:+ sfx).
Proof.
  destruct (resolved_files a) as (H1 & H2 & H3 & H4 & H5 & H6 & H7).
  unfold outputs. cbn [In].
  intros [Hx|[Hx|[Hx|[Hx|[Hx|[Hx|[Hx|[]]]]]]]]; injection Hx as <- <- <-;
    (split; [cbn; auto 10|assumption]).
Qed.

Lemma split_plain (n : string) :
  Py.contains OsPath.sep n = false → OsPath.split n = (EmptyString, n).
Proof.
  intros Hn. unfold OsPath.split.
  apply rfind_None in Hn. rewrite Hn. destruct n; reflexivity.
Qed.

Lemma hd_split_prefix (c : ascii) (s t : string) :
  Py.contains c s = false →
  hd EmptyString (Py.split c (s +:+ t))
  = s +:+ hd EmptyString (Py.split c t).
Proof.
  induction s as [|x s IH]; [reflexivity|]. simpl.
  intros [Hx Hs]%orb_false_elim. rewrite Hx. specialize (IH Hs).
  pose proof (split_nonempty c (s +:+ t)).
  destruct (Py.split c (s +:+ t)) as [|s0 l]; [contradiction|].
  cbn [hd] in *.
  change (String x s0 = String x (s +:+ hd EmptyString (Py.split c t))).
  rewrite IH. reflexivity.
Qed.

Lemma NoDup_map_by {A B C : Type} (f : A → B) (g : A → C) (l : list A) :
  (∀ x y, In x l → In y l → f x = f y → g x = g y) →
  List.NoDup (map g l) → List.NoDup (map f l).
Proof.
  induction l as [|x l IH]; intros Hfg Hg; [constructor|].
  cbn [map] in *. apply NoDup_cons_iff in Hg as [Hx Hl].
  apply NoDup_cons_iff. split.
  - intros Hin. apply in_map_iff in Hin as (y & Hy & Hyl).
    apply Hx. apply in_map_iff. exists y. split; [|exact Hyl].
    apply Hfg; [right; exact Hyl|left; reflexivity|exact Hy].
  - apply IH; [|exact Hl]. intros y z Hy Hz. apply Hfg; right; assumption.
Qed.

(** X1: every output path splits back into its file name, the stem
    followed by the output's suffix, and into its resolved folder when that
    folder is not empty and does not end with a separator. *)
Theorem X1_outputs_split_back a w cfg w' :
  resolve a w = (inr cfg, w') →
  ∀ folder sfx file, In (folder, sfx, file) (outputs cfg) →
    (OsPath.split file).2 = inputFileName (inputFile a) +:+ sfx
    ∧ (folder ≠ EmptyString → Py.endswith OsPath.sep folder = false →
       (OsPath.split file).1 = folder).
Proof.
  intros [-> _]%resolve_inr folder sfx file Hin.
  destruct (outputs_joined a _ _ _ Hin) as [Hs ->].
  pose proof (name_no_sep (inputFile a) sfx Hs) as Hn. split.
  - apply split_join_tail, Hn.
  - intros Hne He. apply split_join_head; assumption.
Qed.

(** Two outputs with the same path have the same suffix. *)
Lemma outputs_inj a (f1 s1 p1 f2 s2 p2 : string) :
  In (f1, s1, p1) (outputs (resolved a)) →
  In (f2, s2, p2) (outputs (resolved a)) →
  p1 = p2 → s1 = s2.
Proof.
  intros H1 H2 Heq.
  destruct (outputs_joined a _ _ _ H1) as [Hs1 ->].
  destruct (outputs_joined a _ _ _ H2) as [Hs2 ->].
  apply (f_equal (λ p, (OsPath.split p).2)) in Heq. cbn beta in Heq.
  rewrite !split_join_tail in Heq by (apply name_no_sep; assumption).
  exact (append_inj_l _ _ _ Heq).
Qed.

(** X2: the seven output paths are pairwise different, whatever folders
    they were sent to. *)
Theorem X2_outputs_distinct a w cfg w' :
  resolve a w = (inr cfg, w') → List.NoDup (output_files cfg).
Proof.
  intros [-> _]%resolve_inr. unfold output_files.
  apply NoDup_map_by with (g := λ x, x.1.2).
  - intros [[f1 s1] p1] [[f2 s2] p2] H1 H2 Heq. cbn [fst snd] in *.
    exact (outputs_inj a _ _ _ _ _ _ H1 H2 Heq).
  - cbn. repeat (apply NoDup_cons_iff; split;
                 [cbn; intuition discriminate|]).
    constructor.
Qed.

(** X3: the stem holds neither a separator nor a dot, deriving a stem from
    it changes nothing, and the stem derived from an output path is the
    stem followed by the output's suffix up to its first dot: [-epoch] for
    the epoch file, nothing for the raw and npy files. *)
Theorem X3_stem_of_outputs a w cfg w' :
  resolve a w = (inr cfg, w') →
  Py.contains OsPath.sep (inputFileName (inputFile a)) = false
  ∧ Py.contains OsPath.dot (inputFileName (inputFile a)) = false
  ∧ inputFileName (inputFileName (inputFile a)) = inputFileName (inputFile a)
  ∧ (∀ folder sfx file, In (folder, sfx, file) (outputs cfg) →
       inputFileName file
       = inputFileName (inputFile a)
         +:+ hd EmptyString (Py.split OsPath.dot sfx))
  ∧ inputFileName (epochFile cfg) = inputFileName (inputFile a) +:+ "-epoch"
  ∧ inputFileName (rawFile cfg) = inputFileName (inputFile a).
Proof.
  intros [-> _]%resolve_inr.
  pose proof (stem_no_sep (inputFile a)) as Hsep.
  pose proof (stem_no_dot (inputFile a)) as Hdot.
  assert (∀ folder sfx file, In (folder, sfx, file) (outputs (resolved a)) →
            inputFileName file
            = inputFileName (inputFile a)
              +:+ hd EmptyString (Py.split OsPath.dot sfx)) as Hall.
  { intros folder sfx file Hin.
    destruct (outputs_joined a _ _ _ Hin) as [Hs ->].
    unfold inputFileName at 1.
    rewrite split_join_tail by (apply name_no_sep, Hs).
    apply hd_split_prefix, Hdot. }
  split; [exact Hsep|]. split; [exact Hdot|]. split; [|split; [exact Hall|]].
  - unfold inputFileName at 1. rewrite (split_plain _ Hsep). cbn [snd].
    rewrite (split_no_sep _ _ Hdot). reflexivity.
  - split.
    + rewrite (Hall (epochFolder (resolved a)) "-epoch.csv.gz");
        [reflexivity|]. unfold outputs. cbn [In]. auto.
    + rewrite (Hall (rawFolder (resolved a)) ".csv.gz").
      * apply append_nil_r.
      * unfold outputs. cbn [In]. auto 10.
Qed.

(** X4: a run on [d/s.csv.gz] with the output and raw folders left empty
    derives, for its raw output, the path of its own input. *)
Theorem X4_raw_output_is_input a w cfg w' (d s : string) :
  d ≠ EmptyString → Py.endswith OsPath.sep d = false →
  Py.contains OsPath.sep s = false → Py.contains OsPath.dot s = false →
  inputFile a = d +:+ "/" +:+ s +:+ ".csv.gz" →
  outputFolder a = EmptyString → rawFolder a = EmptyString →
  resolve a w = (inr cfg, w') →
  rawFile cfg = inputFile a.
Proof.
  intros Hne He Hs Hd Hin Hout Hraw [-> _]%resolve_inr.
  assert (Py.contains OsPath.sep (s +:+ ".csv.gz") = false) as Hn
    by (rewrite contains_app, Hs; reflexivity).
  assert (OsPath.split (inputFile a) = (d, s +:+ ".csv.gz")) as Hsp.
  { rewrite Hin.
    change (d +:+ "/" +:+ s +:+ ".csv.gz")
      with (d +:+ String OsPath.sep EmptyString +:+ (s +:+ ".csv.gz")).
    rewrite <- append_assoc', (split_app _ _ Hn).
    rewrite (split_snoc_sep d Hne He). reflexivity. }
  assert (inputFileName (inputFile a) = s) as Hstem.
  { unfold inputFileName. rewrite Hsp. cbn [snd].
    change ".csv.gz" with (String OsPath.dot "csv.gz").
    apply hd_split_app, Hd. }
  destruct (resolved_files a) as (_ & _ & _ & _ & _ & -> & _).
  destruct (resolved_folders a) as (Ho & _ & _ & _ & _ & _ & -> & _).
  rewrite Ho, Hout, Hraw, Hstem. unfold inputFileFolder. rewrite Hsp.
  cbn [or_default String.eqb fst]. unfold OsPath.join.
  rewrite (contains_startswith _ _ Hn), He.
  destruct d; [contradiction|]. cbn [Py.nonempty negb orb]. rewrite Hin.
  reflexivity.
Qed.

(** X5: for an input path without folder and with all eight folder options
    left empty, every resolved folder is the empty string and every output
    path is the bare file name; on a host that refuses write access to the
    empty path, [main] then stops at the folder check, naming the empty
    folder. *)
Theorem X5_bare_input_name a w cfg w' :
  Py.contains OsPath.sep (inputFile a) = false →
  (∀ x, In x (folder_options a) → x = EmptyString) →
  resolve a w = (inr cfg, w') →
  (∀ x, In x (folder_options cfg) → x = EmptyString)
  ∧ (∀ folder sfx file, In (folder, sfx, file) (outputs cfg) →
       file = inputFileName (inputFile a) +:+ sfx)
  ∧ (access_W (fs w) EmptyString = false →
     main a w = (inl (AssertionError (folder_msg EmptyString)), w')).
Proof.
  intros Hsep Hempty Hres.
  destruct (resolve_inr _ _ _ _ Hres) as [-> ->].
  assert (∀ x, In x (folder_options (resolved a)) → x = EmptyString) as Hall.
  { destruct (resolved_folders a)
      as (Ho & Hs & Hn & He & Hst & Ht & Hr & Hnp).
    assert (outputFolder (resolved a) = EmptyString) as Hout.
    { rewrite Ho, (Hempty (outputFolder a)) by (cbn; auto).
      unfold inputFileFolder. rewrite (split_plain _ Hsep). reflexivity. }
    unfold folder_options. cbn [In].
    rewrite Hs, Hn, He, Hst, Ht, Hr, Hnp, Hout.
    rewrite (Hempty (summaryFolder a)), (Hempty (nonWearFolder a)),
      (Hempty (epochFolder a)), (Hempty (stationaryFolder a)),
      (Hempty (timeSeriesFolder a)), (Hempty (rawFolder a)),
      (Hempty (npyFolder a)) by (cbn; auto 10).
    cbn [or_default String.eqb]. intuition. }
  split; [exact Hall|]. split.
  - intros folder sfx file Hin.
    destruct (outputs_joined a _ _ _ Hin) as [Hs ->].
    assert (folder = EmptyString) as ->.
    { apply Hall. unfold outputs in Hin. unfold folder_options. cbn [In] in *.
      destruct Hin as [Hx|[Hx|[Hx|[Hx|[Hx|[Hx|[Hx|[]]]]]]]];
        injection Hx as <- _ _; auto 10. }
    unfold OsPath.join.
    rewrite (contains_startswith _ _ (name_no_sep _ _ Hs)). reflexivity.
  - intros Hw. rewrite main_eq, Hres, validate_eq, fs_warned.
    assert (first_unwritable (fs w) (required_folders (resolved a))
            = Some EmptyString) as ->; [|reflexivity].
    unfold first_unwritable, required_folders, checked_folders.
    rewrite (Hall (summaryFolder (resolved a)))
      by (unfold folder_options; cbn; auto).
    cbn [app find]. rewrite Hw. reflexivity.
Qed.

End DerivedPaths.

(** * Beyond the claims: whole runs *)

Section Runs.
Context {Opts FS Table : Type} {H : Host Opts FS Table}.
Implicit Types (a cfg : Args Opts) (w : World Opts FS) (f : FS).

Ltac mrun' :=
  repeat (rewrite bind_eq || rewrite emit_eq || rewrite ret_eq
          || rewrite call_eq || rewrite syscall_eq);
  cbn beta iota.

Ltac wnorm' :=
  unfold logged; cbn [fs log atexit]; rewrite <- ?app_assoc; cbn [app].

(** Lines 336-356 in one equation. *)
Lemma epoch_stage_eq a w :
  epoch_stage a w =
  match decoded a (fs w) with
  | inl e => (inl e, logged w (epoch_events a))
  | inr (s0, f1) => (inr s0, mkWorld f1 (log w ++ epoch_events a) (atexit w))
  end.
Proof.
  unfold epoch_stage, decoded, epoch_events, summary_set.
  destruct (processInputFile a).
  - repeat (mrun'; cbn [fs log atexit]). rewrite insert_empty, parse_cols_eq.
    unfold cols_of. destruct (int_list _) as [e|cols]; [reflexivity|].
    repeat (mrun'; cbn [fs log atexit]). wnorm'.
    destruct (processInputFileToEpoch a cols _ (fs w)) as [e|[s1 f1]];
      reflexivity.
  - repeat (mrun'; cbn [fs log atexit]). rewrite insert_empty. reflexivity.
Qed.

(** Lines 359-373 in one equation. *)
Lemma summary_stage_eq a (s0 : summary) w :
  summary_stage a s0 w =
  match getActivitySummary a s0 (fs w) with
  | inl e => (inl e, logged w [CallSummarise a s0])
  | inr (t, s1, f2) =>
      match writeTimeSeries t (tsFile a) f2 with
      | inl e =>
          (inl e,
           mkWorld f2
             (log w ++ [CallSummarise a s0; CallWriteTimeSeries (tsFile a)])
             (atexit w))
      | inr f3 =>
          (inr s1,
           mkWorld f3
             (log w ++ [CallSummarise a s0; CallWriteTimeSeries (tsFile a)])
             (atexit w))
      end
  end.
Proof.
  unfold summary_stage. repeat (mrun'; cbn [fs log atexit]). wnorm'.
  destruct (getActivitySummary a s0 (fs w)) as [e|[[t s1] f2]];
    [reflexivity|].
  repeat (mrun'; cbn [fs log atexit]). wnorm'.
  destruct (writeTimeSeries t (tsFile a) f2); reflexivity.
Qed.

(** Lines 336-395 in one equation: every way the stages and the
    finalisation can end. *)
Lemma after_gate_eq a w :
  (run_stages a ≫= finalize a) w =
  match decoded a (fs w) with
  | inl e => (inl e, logged w (epoch_events a))
  | inr (s0, f1) =>
    match getActivitySummary a s0 f1 with
    | inl e =>
        (inl e,
         mkWorld f1 (log w ++ epoch_events a ++ [CallSummarise a s0])
                 (atexit w))
    | inr (t, s1, f2) =>
      match writeTimeSeries t (tsFile a) f2 with
      | inl e =>
          (inl e,
           mkWorld f2
             (log w ++ epoch_events a
                    ++ [CallSummarise a s0; CallWriteTimeSeries (tsFile a)])
             (atexit w))
      | inr f3 =>
        match first_missing s1 with
        | Some k =>
            (inl (KeyError k),
             mkWorld f3
               (log w ++ epoch_events a
                      ++ [CallSummarise a s0;
                          CallWriteTimeSeries (tsFile a); banner])
               (atexit w))
        | None =>
          match dump_json (summaryFile a) s1 f3 with
          | inl e =>
              (inl e,
               mkWorld f3
                 (log w ++ epoch_events a
                        ++ [CallSummarise a s0;
                            CallWriteTimeSeries (tsFile a); banner;
                            PrintHeadline (headline s1);
                            WriteSummary (summaryFile a) s1])
                 (atexit w))
          | inr f4 =>
              (inr tt,
               mkWorld f4 (log w ++ full_run_events a s0 s1) (atexit w))
          end
        end
      end
    end
  end.
Proof.
  rewrite bind_eq. unfold run_stages. rewrite bind_eq, epoch_stage_eq.
  destruct (decoded a (fs w)) as [e|[s0 f1]]; [reflexivity|].
  rewrite summary_stage_eq. cbn [fs log atexit].
  destruct (getActivitySummary a s0 f1) as [e|[[t s1] f2]].
  { unfold logged. cbn [fs log atexit]. rewrite <- app_assoc. reflexivity. }
  destruct (writeTimeSeries t (tsFile a) f2) as [e|f3].
  { rewrite <- app_assoc. reflexivity. }
  rewrite finalize_eq. cbn [fs log atexit].
  destruct (first_missing s1) as [k|].
  { unfold logged, banner. cbn [fs log atexit]. rewrite <- !app_assoc.
    reflexivity. }
  cbn zeta.
  destruct (dump_json (summaryFile a) s1 f3) as [e|f4].
  - unfold logged, banner. cbn [fs log atexit]. rewrite <- !app_assoc.
    reflexivity.
  - unfold full_run_events, banner, written_msg. rewrite <- !app_assoc.
    reflexivity.
Qed.

(** [main] in one equation, from the first check to the hand-over to the
    stages. *)
Lemma main_gate_eq a f :
  main a (initial f) =
  if sampleRate a <? 25
  then (inl (AssertionError sampleRate_msg), initial f)
  else if processInputFile a && negb (isfile f (inputFile a))
  then (inl (AssertionError (missing_msg (inputFile a))),
        warned a (initial f))
  else
    match first_unwritable f (required_folders (resolved a)) with
    | Some p => (inl (AssertionError (folder_msg p)), warned a (initial f))
    | None =>
        match startTime a, endTime a with
        | Some st, Some en =>
            if dt_le st en
            then (run_stages (resolved a) ≫= finalize (resolved a))
                   (announced (resolved a) (warned a (initial f)))
            else (inl (AssertionError (time_msg st en)),
                  armed (resolved a) (warned a (initial f)))
        | _, _ =>
            (run_stages (resolved a) ≫= finalize (resolved a))
              (announced (resolved a) (warned a (initial f)))
        end
    end.
Proof.
  rewrite main_eq, resolve_eq. cbn [fs initial].
  destruct (sampleRate a <? 25); [reflexivity|].
  destruct (processInputFile a && negb (isfile f (inputFile a)));
    [reflexivity|].
  rewrite validate_eq, fs_warned. cbn [fs initial].
  destruct (first_unwritable f _); [reflexivity|].
  destruct (resolved_keeps a) as (_ & -> & -> & _).
  destruct (startTime a) as [st|], (endTime a) as [en|];
    try (rewrite bind_eq; reflexivity).
  destruct (dt_le st en); [rewrite bind_eq|]; reflexivity.
Qed.

(** A run the gate lets through is the stages and the finalisation, from
    the world the gate leaves. *)
Lemma main_passed_eq a f :
  gate_passes a f = true →
  main a (initial f)
  = (run_stages (resolved a) ≫= finalize (resolved a))
      (announced (resolved a) (warned a (initial f))).
Proof.
  unfold gate_passes. intros Hg.
  apply andb_prop in Hg as [Hg Ht]. apply andb_prop in Hg as [Hg Hw].
  apply andb_prop in Hg as [Hr Hi].
  rewrite main_gate_eq.
  destruct (Z.leb_spec 25 (sampleRate a)) as [Hge|]; [|discriminate].
  destruct (Z.ltb_spec (sampleRate a) 25) as [|_]; [lia|].
  assert (processInputFile a && negb (isfile f (inputFile a)) = false) as ->.
  { destruct (processInputFile a), (isfile f (inputFile a));
      try reflexivity; discriminate. }
  destruct (first_unwritable f _); [discriminate|].
  unfold times_ok in Ht.
  destruct (startTime a), (endTime a); try reflexivity.
  rewrite Ht. reflexivity.
Qed.

Lemma fs_announced a w : fs (announced a w) = fs w.
Proof. reflexivity. Qed.

End Runs.

Section RunProperties.
Context {Opts FS Table : Type} {H : Host Opts FS Table}.
Implicit Types (a cfg : Args Opts) (w : World Opts FS) (f : FS).

(** What the log holds when the stages start. *)
Lemma in_gate_log a cfg f (e : effect Opts) :
  In e (log (announced cfg (warned a (initial f)))) →
  e = Warn filter_msg
  ∨ e = Print ("Processing file '" +:+ inputFile cfg
               +:+ "' with these arguments:" +:+ nl)
  ∨ e = PrintOptions cfg.
Proof.
  unfold announced, warned. cbn [log].
  destruct (sampleRate a <=? 40); cbn; intuition.
Qed.

Lemma in_warned_log a f (e : effect Opts) :
  In e (log (warned a (initial f))) → e = Warn filter_msg.
Proof.
  unfold warned. destruct (sampleRate a <=? 40); cbn; intuition.
Qed.

Lemma in_epoch_events a (e : effect Opts) :
  In e (epoch_events a) →
  (∃ v, e = SummarySet "file-name" v) ∨ (∃ cols s, e = CallDecode a cols s).
Proof.
  unfold epoch_events. destruct (processInputFile a).
  - destruct (cols_of a); cbn; intros [<- | Hin]; eauto.
    + contradiction.
    + destruct Hin as [<- | []]. eauto.
  - cbn. intros [<- | []]. eauto.
Qed.

(** Neither the gate nor the epoch stage logs anything a later phase
    logs. *)
Lemma early_log a f (e : effect Opts) :
  In e (log (announced (resolved a) (warned a (initial f)))
        ++ epoch_events (resolved a)) →
  e = Warn filter_msg
  ∨ e = Print ("Processing file '" +:+ inputFile (resolved a)
               +:+ "' with these arguments:" +:+ nl)
  ∨ e = PrintOptions (resolved a)
  ∨ (∃ v, e = SummarySet "file-name" v)
  ∨ (∃ cols s, e = CallDecode (resolved a) cols s).
Proof.
  intros [Hin | Hin]%in_app_or.
  - apply in_gate_log in Hin. intuition.
  - apply in_epoch_events in Hin. intuition.
Qed.

Lemma filter_none {A} (P : A → bool) (l : list A) :
  (∀ x, In x l → P x = false) → List.filter P l = [].
Proof.
  induction l as [|x l IH]; intros Hall; [reflexivity|]. cbn [List.filter].
  rewrite (Hall x) by (left; reflexivity).
  apply IH. intros y Hy. apply Hall. right. exact Hy.
Qed.

Lemma early_no_write a f :
  List.filter is_write
    (log (announced (resolved a) (warned a (initial f)))
     ++ epoch_events (resolved a)) = [].
Proof.
  apply filter_none. intros e Hin. apply early_log in Hin.
  destruct Hin as [-> | [-> | [-> | [(v & ->) | (c & s & ->)]]]];
    reflexivity.
Qed.

Lemma gate_stopped a f :
  gate_passes a f = false → ∃ e, (main a (initial f)).1 = inl e.
Proof.
  intros Hg. destruct (main_stopped a f Hg) as (e & hs & [-> | ->]);
    exists e; reflexivity.
Qed.

(** X6: [main] returns normally exactly when the gate lets the run through
    and the epoch stage, the summariser, the time-series writer, the
    headline lookup and the write of the summary file all succeed, each
    starting from the file system and summary its predecessor left; the
    log is then the full sequence of events and the file system the one the
    last write left. *)
Theorem X6_success_chain a f :
  ((main a (initial f)).1 = inr tt →
   gate_passes a f = true
   ∧ ∃ s0 f1 t s1 f2 f3 f4,
       decoded (resolved a) f = inr (s0, f1)
       ∧ getActivitySummary (resolved a) s0 f1 = inr (t, s1, f2)
       ∧ writeTimeSeries t (tsFile (resolved a)) f2 = inr f3
       ∧ first_missing s1 = None
       ∧ dump_json (summaryFile (resolved a)) s1 f3 = inr f4
       ∧ main a (initial f)
         = (inr tt,
            mkWorld f4
              (log (announced (resolved a) (warned a (initial f)))
               ++ full_run_events (resolved a) s0 s1)
              (atexit (announced (resolved a) (warned a (initial f))))))
  ∧ (gate_passes a f = true →
     ∀ s0 f1 t s1 f2 f3 f4,
       decoded (resolved a) f = inr (s0, f1) →
       getActivitySummary (resolved a) s0 f1 = inr (t, s1, f2) →
       writeTimeSeries t (tsFile (resolved a)) f2 = inr f3 →
       first_missing s1 = None →
       dump_json (summaryFile (resolved a)) s1 f3 = inr f4 →
       main a (initial f)
       = (inr tt,
          mkWorld f4
            (log (announced (resolved a) (warned a (initial f)))
             ++ full_run_events (resolved a) s0 s1)
            (atexit (announced (resolved a) (warned a (initial f)))))).
Proof.
  split.
  - intros Hok. destruct (gate_passes a f) eqn:Hg.
    2:{ destruct (gate_stopped a f Hg) as [e He]. congruence. }
    split; [reflexivity|].
    pose proof (main_passed_eq a f Hg) as Heq.
    rewrite after_gate_eq, fs_announced, fs_warned in Heq.
    cbn [fs initial] in Heq.
    destruct (decoded (resolved a) f) as [e|[s0 f1]] eqn:Hd;
      [rewrite Heq in Hok; discriminate|].
    destruct (getActivitySummary (resolved a) s0 f1) as [e|[[t s1] f2]]
      eqn:Hs; [rewrite Heq in Hok; discriminate|].
    destruct (writeTimeSeries t (tsFile (resolved a)) f2) as [e|f3] eqn:Ht;
      [rewrite Heq in Hok; discriminate|].
    destruct (first_missing s1) as [k|] eqn:Hm;
      [rewrite Heq in Hok; discriminate|].
    destruct (dump_json (summaryFile (resolved a)) s1 f3) as [e|f4] eqn:Hj;
      [rewrite Heq in Hok; discriminate|].
    exists s0, f1, t, s1, f2, f3, f4.
    repeat (split; [first [assumption | reflexivity]|]). exact Heq.
  - intros Hg s0 f1 t s1 f2 f3 f4 Hd Hs Ht Hm Hj.
    rewrite (main_passed_eq a f Hg), after_gate_eq, fs_announced, fs_warned.
    cbn [fs initial]. rewrite Hd, Hs, Ht, Hm, Hj. reflexivity.
Qed.


Lemma stopped_log a f (e : effect Opts) :
  gate_passes a f = false →
  In e (log (main a (initial f)).2) → e = Warn filter_msg.
Proof.
  intros Hg. destruct (main_stopped a f Hg) as (x & hs & [-> | ->]).
  - cbn [snd log]. apply in_warned_log.
  - intros [].
Qed.

Ltac early_cases Hin :=
  apply early_log in Hin;
  destruct Hin as [Hin | [Hin | [Hin | [(? & Hin) | (? & ? & Hin)]]]];
  try discriminate Hin;
  try (unfold written_msg in Hin; cbn in Hin; discriminate Hin).

Ltac tail_cases Hin :=
  cbn [In] in Hin;
  repeat (destruct Hin as [Hin | Hin];
          [try discriminate Hin;
           try (unfold banner, written_msg in Hin; discriminate Hin)|]);
  try contradiction.

(** X8: the line [Full summary written to: ...] and the closing report of
    the processing time are printed exactly in the runs from which [main]
    returns normally. *)
Theorem X8_success_reported a f :
  ((main a (initial f)).1 = inr tt
   ↔ In (written_msg (resolved a)) (log (main a (initial f)).2))
  ∧ ((main a (initial f)).1 = inr tt
     ↔ In ReportTime (log (main a (initial f)).2)).
Proof.
  destruct (gate_passes a f) eqn:Hg.
  2:{ destruct (gate_stopped a f Hg) as [x Hx].
      split; (split; [congruence|]); intros Hin;
        apply (stopped_log a f _ Hg) in Hin; discriminate. }
  rewrite (main_passed_eq a f Hg), after_gate_eq, fs_announced, fs_warned.
  cbn [fs initial].
  destruct (decoded (resolved a) f) as [x|[s0 f1]].
  { unfold logged. cbn [fst snd log].
    split; (split; [discriminate|]); intros Hin; early_cases Hin. }
  destruct (getActivitySummary (resolved a) s0 f1) as [x|[[t s1] f2]].
  { cbn [fst snd log]. rewrite app_assoc.
    split; (split; [discriminate|]);
      (intros [Hin | Hin]%in_app_or; [early_cases Hin|tail_cases Hin]). }
  destruct (writeTimeSeries t (tsFile (resolved a)) f2) as [x|f3].
  { cbn [fst snd log]. rewrite app_assoc.
    split; (split; [discriminate|]);
      (intros [Hin | Hin]%in_app_or; [early_cases Hin|tail_cases Hin]). }
  destruct (first_missing s1) as [k|].
  { cbn [fst snd log]. rewrite app_assoc.
    split; (split; [discriminate|]);
      (intros [Hin | Hin]%in_app_or; [early_cases Hin|tail_cases Hin]). }
  destruct (dump_json (summaryFile (resolved a)) s1 f3) as [x|f4].
  { cbn [fst snd log]. rewrite app_assoc.
    split; (split; [discriminate|]);
      (intros [Hin | Hin]%in_app_or; [early_cases Hin|tail_cases Hin]). }
  cbn [fst snd log]. unfold full_run_events.
  split; (split; [intros _|reflexivity]);
    apply in_or_app; right; apply in_or_app; right; cbn; auto 10.
Qed.

(** X9: the summary file is opened for writing at most once in a run, at
    the path derived for it, and what is written is the summary the
    summariser returned, with every headline key present, after the
    time-series writer has returned. *)
Theorem X9_summary_written_once a f :
  (length (List.filter is_write (log (main a (initial f)).2)) ≤ 1)%nat
  ∧ (∀ p s1, In (WriteSummary p s1) (log (main a (initial f)).2) →
       gate_passes a f = true
       ∧ p = summaryFile (resolved a)
       ∧ first_missing s1 = None
       ∧ ∃ s0 f1 t f2 f3,
           decoded (resolved a) f = inr (s0, f1)
           ∧ getActivitySummary (resolved a) s0 f1 = inr (t, s1, f2)
           ∧ writeTimeSeries t (tsFile (resolved a)) f2 = inr f3).
Proof.
  destruct (gate_passes a f) eqn:Hg.
  2:{ split.
      - rewrite filter_none; [cbn; lia|].
        intros e Hin. apply (stopped_log a f _ Hg) in Hin. subst e.
        reflexivity.
      - intros p s1 Hin. apply (stopped_log a f _ Hg) in Hin.
        discriminate. }
  rewrite (main_passed_eq a f Hg), after_gate_eq, fs_announced, fs_warned.
  cbn [fs initial].
  destruct (decoded (resolved a) f) as [x|[s0 f1]] eqn:Hd.
  { unfold logged. cbn [fst snd log]. split.
    - rewrite early_no_write. cbn; lia.
    - intros p s1 Hin. early_cases Hin. }
  destruct (getActivitySummary (resolved a) s0 f1) as [x|[[t s1] f2]]
    eqn:Hs.
  { cbn [fst snd log]. rewrite app_assoc. split.
    - rewrite List.filter_app, early_no_write. cbn; lia.
    - intros p s Hin. apply in_app_or in Hin as [Hin | Hin];
        [early_cases Hin|tail_cases Hin]. }
  destruct (writeTimeSeries t (tsFile (resolved a)) f2) as [x|f3] eqn:Ht.
  { cbn [fst snd log]. rewrite app_assoc. split.
    - rewrite List.filter_app, early_no_write. cbn; lia.
    - intros p s Hin. apply in_app_or in Hin as [Hin | Hin];
        [early_cases Hin|tail_cases Hin]. }
  destruct (first_missing s1) as [k|] eqn:Hm.
  { cbn [fst snd log]. rewrite app_assoc. split.
    - rewrite List.filter_app, early_no_write. cbn; lia.
    - intros p s Hin. apply in_app_or in Hin as [Hin | Hin];
        [early_cases Hin|tail_cases Hin]. }
  assert (∀ p s (l : list (effect Opts)),
            (∀ e, In e l → is_write e = false) →
            In (WriteSummary p s)
              ([CallSummarise (resolved a) s0;
                CallWriteTimeSeries (tsFile (resolved a)); banner;
                PrintHeadline (headline s1);
                WriteSummary (summaryFile (resolved a)) s1] ++ l) →
            p = summaryFile (resolved a) ∧ s = s1) as Hone.
  { intros p s l Hl Hin. cbn [app In] in Hin.
    destruct Hin as [Hin|[Hin|[Hin|[Hin|[Hin|Hin]]]]];
      try discriminate Hin.
    - injection Hin as <- <-. auto.
    - apply Hl in Hin. discriminate. }
  destruct (dump_json (summaryFile (resolved a)) s1 f3) as [x|f4].
  - cbn [fst snd log]. rewrite app_assoc. split.
    + rewrite List.filter_app, early_no_write. cbn; lia.
    + intros p s Hin. apply in_app_or in Hin as [Hin | Hin];
        [early_cases Hin|].
      destruct (Hone p s [] (λ e (F : In e []), match F with end))
        as [-> ->]; [rewrite app_nil_r; exact Hin|].
      repeat (split; [reflexivity|]). split; [exact Hm|].
      exists s0, f1, t, f2, f3. auto.
  - cbn [fst snd log]. unfold full_run_events. rewrite app_assoc. split.
    + rewrite List.filter_app, early_no_write. cbn; lia.
    + intros p s Hin. apply in_app_or in Hin as [Hin | Hin];
        [early_cases Hin|].
      destruct (Hone p s [written_msg (resolved a); ReportTime])
        as [-> ->]; [|exact Hin|].
      { intros e [<- | [<- | []]]; reflexivity. }
      repeat (split; [reflexivity|]). split; [exact Hm|].
      exists s0, f1, t, f2, f3. auto.
Qed.

(** X10: resolution hands every option on as the user gave it, except the
    filter flag, which it may only switch off and only for a sample rate of
    at most 40, the input path, to which it may only append [.cwa] and only
    when processing is skipped, and the folders and files it derives. *)
Theorem X10_options_pass_through a w cfg w' :
  resolve a w = (inr cfg, w') →
  forwarded cfg = forwarded a
  ∧ sampleRate cfg = sampleRate a
  ∧ processInputFile cfg = processInputFile a
  ∧ startTime cfg = startTime a
  ∧ endTime cfg = endTime a
  ∧ csvTimeXYZTempColsIndex cfg = csvTimeXYZTempColsIndex a
  ∧ deleteIntermediateFiles cfg = deleteIntermediateFiles a
  ∧ (useFilter cfg = useFilter a
     ∨ useFilter cfg = false ∧ sampleRate a ≤ 40)
  ∧ (inputFile cfg = inputFile a
     ∨ inputFile cfg = inputFile a +:+ ".cwa" ∧ processInputFile a = false).
Proof.
  intros [-> _]%resolve_inr.
  unfold resolved, derive_paths, fix_inputFile, fix_useFilter.
  destruct (Z.leb_spec (sampleRate a) 40) as [Hr|Hr];
    destruct (processInputFile a) eqn:Hp; cbn; rewrite ?Hp;
    try destruct (Py.contains OsPath.dot (inputFile a)); cbn;
    repeat split; try reflexivity; try assumption;
    first [left; reflexivity
          | right; split; first [reflexivity | assumption]].
Qed.

End RunProperties.

(** * Beyond the claims: the exit function *)

Section ExitProperties.
Context {Opts FS Table : Type} {H : Host Opts FS Table}.
Implicit Types (a cfg : Args Opts) (w : World Opts FS) (f : FS).

Lemma run_process_eq a f :
  run_process a f
  = mkOutcome (main a (initial f)).1
      (run_exitfuncs (atexit (main a (initial f)).2)
         (main a (initial f)).2).1
      (run_exitfuncs (atexit (main a (initial f)).2)
         (main a (initial f)).2).2.
Proof.
  unfold run_process. destruct (main a (initial f)) as [r w].
  cbn [fst snd]. destruct (run_exitfuncs (atexit w) w). reflexivity.
Qed.

Lemma run_one_handler a w :
  (run_exitfuncs [DeleteIntermediateFiles a] w).2
  = (deleteIntermediateFiles_atexit a w).2.
Proof.
  cbn [run_exitfuncs run_handler].
  destruct (deleteIntermediateFiles_atexit a w). reflexivity.
Qed.

(** X11: a run stopped by the sample-rate check, by the input-file check or
    by the folder check ends with an assertion error and without any exit
    function registered, whatever the cleanup option says: the process ends
    in the world [main] left, on the file system it started from, and no
    removal is tried. *)
Theorem X11_early_stop_no_cleanup a f :
  sampleRate a < 25
  ∨ (processInputFile a = true ∧ isfile f (inputFile a) = false)
  ∨ first_unwritable f (required_folders (resolved a)) ≠ None →
  (∃ m, result (run_process a f) = inl (AssertionError m))
  ∧ exit_errors (run_process a f) = []
  ∧ final (run_process a f) = (main a (initial f)).2
  ∧ fs (final (run_process a f)) = f
  ∧ atexit (final (run_process a f)) = []
  ∧ List.filter is_remove (log (final (run_process a f))) = [].
Proof.
  intros Hstop.
  assert (∃ m, main a (initial f) = (inl (AssertionError m), initial f)
               ∨ main a (initial f)
                 = (inl (AssertionError m), warned a (initial f)))
    as (m & Hm).
  { rewrite main_gate_eq.
    destruct (Z.ltb_spec (sampleRate a) 25) as [Hlt|Hge]; [eauto|].
    destruct (processInputFile a && negb (isfile f (inputFile a))) eqn:Hi;
      [eauto|].
    destruct (first_unwritable f _) as [p|]; [eauto|].
    exfalso. destruct Hstop as [Hs | [[Hp Hf] | Hn]]; [lia| |congruence].
    rewrite Hp, Hf in Hi. discriminate. }
  rewrite run_process_eq. cbn [result exit_errors final].
  assert (atexit (main a (initial f)).2 = []) as Ha.
  { destruct Hm as [-> | ->]; [reflexivity|]. apply atexit_warned. }
  rewrite Ha. cbn [run_exitfuncs fst snd].
  split; [exists m; destruct Hm as [-> | ->]; reflexivity|].
  split; [reflexivity|]. split; [reflexivity|].
  split; [destruct Hm as [-> | ->]; [reflexivity|apply fs_warned]|].
  split; [exact Ha|].
  apply filter_none. intros e Hin.
  destruct Hm as [Hm | Hm]; rewrite Hm in Hin; cbn [snd] in Hin.
  - destruct Hin.
  - apply in_warned_log in Hin. subst e. reflexivity.
Qed.

(** X12: a run stopped by the time-order check has passed the folder check,
    so with cleanup enabled the exit function is registered and runs: the
    process ends in the world the cleanup leaves.  In particular, when no
    stationary-points file is there and an epoch file is, the epoch file is
    removed although no stage ran. *)
Theorem X12_time_stop_cleans_up a f (st en : datetime) :
  25 ≤ sampleRate a →
  (processInputFile a = true → isfile f (inputFile a) = true) →
  first_unwritable f (required_folders (resolved a)) = None →
  startTime a = Some st → endTime a = Some en → dt_le st en = false →
  deleteIntermediateFiles a = true →
  result (run_process a f) = inl (AssertionError (time_msg st en))
  ∧ final (run_process a f)
    = (deleteIntermediateFiles_atexit (resolved a)
         (mkWorld f (log (warned a (initial f)))
                  [DeleteIntermediateFiles (resolved a)])).2
  ∧ (path_exists f (stationaryFile (resolved a)) = false →
     path_exists f (epochFile (resolved a)) = true →
     ∀ f2, remove (epochFile (resolved a)) f = inr f2 →
       fs (final (run_process a f)) = f2
       ∧ log (final (run_process a f))
         = log (warned a (initial f)) ++ [Remove (epochFile (resolved a))]).
Proof.
  intros Hrate Hfile Hw Hs He Hle Hd.
  assert (main a (initial f)
          = (inl (AssertionError (time_msg st en)),
             mkWorld f (log (warned a (initial f)))
                     [DeleteIntermediateFiles (resolved a)])) as Hm.
  { rewrite main_gate_eq.
    destruct (Z.ltb_spec (sampleRate a) 25); [lia|].
    assert (processInputFile a && negb (isfile f (inputFile a)) = false)
      as ->.
    { destruct (processInputFile a); [|reflexivity].
      rewrite Hfile by reflexivity. reflexivity. }
    rewrite Hw, Hs, He, Hle. unfold armed.
    destruct (resolved_keeps a) as (_ & _ & _ & -> & _). rewrite Hd.
    rewrite fs_warned, atexit_warned. reflexivity. }
  rewrite run_process_eq, Hm. cbn [result final fst snd atexit].
  rewrite run_one_handler.
  split; [reflexivity|]. split; [reflexivity|].
  intros Hst Hep f2 Hrm.
  rewrite cleanup_eq, remove_if_exists_eq. cbn [fs]. rewrite Hst.
  rewrite remove_if_exists_eq. cbn [fs]. rewrite Hep, Hrm.
  split; reflexivity.
Qed.

(** What the cleanup adds to the log. *)
Lemma cleanup_log a w :
  ∃ l, log (deleteIntermediateFiles_atexit a w).2 = log w ++ l
       ∧ ∀ e, In e l →
           e = Remove (stationaryFile a) ∨ e = Remove (epochFile a)
           ∨ e = ToScreen cleanup_msg.
Proof.
  rewrite cleanup_eq, remove_if_exists_eq.
  destruct (path_exists (fs w) (stationaryFile a)).
  - destruct (remove (stationaryFile a) (fs w)) as [e|f1] eqn:Hr.
    + rewrite (remove_raises _ _ _ Hr). unfold logged. cbn [snd log].
      rewrite <- app_assoc. eexists. split; [reflexivity|].
      cbn. intuition.
    + rewrite remove_if_exists_eq. cbn [fs log atexit].
      destruct (path_exists f1 (epochFile a)).
      * destruct (remove (epochFile a) f1) as [e|f2] eqn:Hr2.
        -- rewrite (remove_raises _ _ _ Hr2). unfold logged.
           cbn [snd log]. rewrite <- !app_assoc. eexists.
           split; [reflexivity|]. cbn. intuition.
        -- cbn [snd log]. rewrite <- app_assoc. eexists.
           split; [reflexivity|]. cbn. intuition.
      * cbn [snd log]. eexists. split; [reflexivity|]. cbn. intuition.
  - rewrite remove_if_exists_eq.
    destruct (path_exists (fs w) (epochFile a)).
    + destruct (remove (epochFile a) (fs w)) as [e|f2] eqn:Hr2.
      * rewrite (remove_raises _ _ _ Hr2). unfold logged.
        cbn [snd log]. rewrite <- !app_assoc. eexists.
        split; [reflexivity|]. cbn. intuition.
      * cbn [snd log]. eexists. split; [reflexivity|]. cbn. intuition.
    + exists []. rewrite app_nil_r. split; [reflexivity|]. intros e [].
Qed.

(** Where [main] leaves the world: nothing removed, and at most the one
    exit function, registered only with cleanup enabled. *)
Lemma main_final_form a f :
  (∀ e, In e (log (main a (initial f)).2) → is_remove e = false)
  ∧ (atexit (main a (initial f)).2 = []
     ∨ deleteIntermediateFiles a = true
       ∧ atexit (main a (initial f)).2
         = [DeleteIntermediateFiles (resolved a)]).
Proof.
  assert (∀ e, In e (log (warned a (initial f))) → is_remove e = false)
    as Hwarn.
  { intros e Hin. apply in_warned_log in Hin. subst e. reflexivity. }
  assert (atexit (armed (resolved a) (warned a (initial f))) = []
          ∨ deleteIntermediateFiles a = true
            ∧ atexit (armed (resolved a) (warned a (initial f)))
              = [DeleteIntermediateFiles (resolved a)]) as Harmed.
  { unfold armed. destruct (resolved_keeps a) as (_ & _ & _ & -> & _).
    destruct (deleteIntermediateFiles a); cbn [atexit];
      rewrite atexit_warned; auto. }
  assert (atexit (announced (resolved a) (warned a (initial f))) = []
          ∨ deleteIntermediateFiles a = true
            ∧ atexit (announced (resolved a) (warned a (initial f)))
              = [DeleteIntermediateFiles (resolved a)]) as Hann.
  { rewrite atexit_announced.
    destruct (resolved_keeps a) as (_ & _ & _ & -> & _).
    destruct (deleteIntermediateFiles a); rewrite atexit_warned; auto. }
  assert (let r := (run_stages (resolved a) ≫= finalize (resolved a))
                     (announced (resolved a) (warned a (initial f))) in
          (∀ e, In e (log r.2) → is_remove e = false)
          ∧ (atexit r.2 = []
             ∨ deleteIntermediateFiles a = true
               ∧ atexit r.2 = [DeleteIntermediateFiles (resolved a)]))
    as Hpass.
  { cbn zeta. rewrite after_gate_eq, fs_announced, fs_warned.
    cbn [fs initial].
    assert (∀ e, In e (log (announced (resolved a) (warned a (initial f)))
                       ++ epoch_events (resolved a)) →
                 is_remove e = false) as Hearly.
    { intros e Hin. apply early_log in Hin.
      destruct Hin as [-> | [-> | [-> | [(v & ->) | (c & s & ->)]]]];
        reflexivity. }
    assert (∀ (l : list (effect Opts)) e,
              (∀ x, In x l → is_remove x = false) →
              In e (log (announced (resolved a) (warned a (initial f)))
                    ++ epoch_events (resolved a) ++ l) →
              is_remove e = false) as Hlog.
    { intros l e Hl Hin. rewrite app_assoc in Hin.
      apply in_app_or in Hin as [Hin | Hin]; auto. }
    destruct (decoded (resolved a) f) as [x|[s0 f1]].
    { unfold logged. cbn [snd log atexit]. split; [exact Hearly|].
      exact Hann. }
    destruct (getActivitySummary (resolved a) s0 f1) as [x|[[t s1] f2]];
      [|destruct (writeTimeSeries t (tsFile (resolved a)) f2) as [x|f3];
        [|destruct (first_missing s1) as [k|];
          [|destruct (dump_json (summaryFile (resolved a)) s1 f3)
              as [x|f4]]]];
      cbn [snd log atexit]; (split; [|exact Hann]);
      intros e Hin; unfold full_run_events in Hin;
      rewrite <- ?app_assoc in Hin;
      (eapply Hlog; [|exact Hin]);
      intros y Hy; cbn [In app] in Hy;
      repeat (destruct Hy as [<- | Hy]; [reflexivity|]);
      contradiction. }
  cbn zeta in Hpass. rewrite main_gate_eq.
  destruct (sampleRate a <? 25).
  { cbn [snd log atexit initial]. split; [intros e []|auto]. }
  destruct (processInputFile a && negb (isfile f (inputFile a))).
  { cbn [snd]. rewrite atexit_warned. split; [exact Hwarn|auto]. }
  destruct (first_unwritable f _).
  { cbn [snd]. rewrite atexit_warned. split; [exact Hwarn|auto]. }
  destruct (startTime a) as [st|], (endTime a) as [en|]; try exact Hpass.
  destruct (dt_le st en); [exact Hpass|].
  cbn [snd]. split; [|exact Harmed].
  unfold armed. destruct (deleteIntermediateFiles (resolved a)); exact Hwarn.
Qed.

(** X13: the only paths whose removal a process ever tries are the derived
    stationary-points and epoch paths, and only with cleanup enabled; they
    differ from the summary, non-wear, time-series, raw and npy paths, so
    none of those outputs is removed. *)
Theorem X13_only_intermediates_removed a f (p : string) :
  In (Remove p) (log (final (run_process a f))) →
  deleteIntermediateFiles a = true
  ∧ (p = stationaryFile (resolved a) ∨ p = epochFile (resolved a))
  ∧ p ≠ summaryFile (resolved a)
  ∧ p ≠ nonWearFile (resolved a)
  ∧ p ≠ tsFile (resolved a)
  ∧ p ≠ rawFile (resolved a)
  ∧ p ≠ npyFile (resolved a).
Proof.
  rewrite run_process_eq. cbn [final].
  destruct (main_final_form a f) as [Hlog Hat].
  intros Hin.
  assert (deleteIntermediateFiles a = true
          ∧ (p = stationaryFile (resolved a) ∨ p = epochFile (resolved a)))
    as [Hd Hp].
  { destruct Hat as [Ha | [Hd Ha]]; rewrite Ha in Hin.
    - cbn [run_exitfuncs snd] in Hin. apply Hlog in Hin. discriminate.
    - rewrite run_one_handler in Hin.
      destruct (cleanup_log (resolved a) (main a (initial f)).2)
        as (l & Hl & Hkinds).
      rewrite Hl in Hin. apply in_app_or in Hin as [Hin | Hin].
      + apply Hlog in Hin. discriminate.
      + split; [exact Hd|].
        destruct (Hkinds _ Hin) as [Heq | [Heq | Heq]];
          [injection Heq as ->; auto..|discriminate]. }
  split; [exact Hd|]. split; [exact Hp|].
  assert (∀ fo sfx file,
            In (fo, sfx, file) (outputs (resolved a)) →
            sfx ≠ "-stationaryPoints.csv.gz" → sfx ≠ "-epoch.csv.gz" →
            p ≠ file) as Hdiff.
  { intros fo sfx file Hout Hs He ->.
    destruct Hp as [Hp | Hp].
    - apply Hs.
      apply (outputs_inj a fo sfx (stationaryFile (resolved a))
               (stationaryFolder (resolved a)) "-stationaryPoints.csv.gz"
               (stationaryFile (resolved a)));
        [rewrite <- Hp; exact Hout| |reflexivity].
      unfold outputs. cbn [In]. auto 10.
    - apply He.
      apply (outputs_inj a fo sfx (epochFile (resolved a))
               (epochFolder (resolved a)) "-epoch.csv.gz"
               (epochFile (resolved a)));
        [rewrite <- Hp; exact Hout| |reflexivity].
      unfold outputs. cbn [In]. auto 10. }
  repeat split.
  - apply (Hdiff (summaryFolder (resolved a)) "-summary.json");
      [unfold outputs; cbn [In]; auto 10|discriminate..].
  - apply (Hdiff (nonWearFolder (resolved a)) "-nonWearBouts.csv.gz");
      [unfold outputs; cbn [In]; auto 10|discriminate..].
  - apply (Hdiff (timeSeriesFolder (resolved a)) "-timeSeries.csv.gz");
      [unfold outputs; cbn [In]; auto 10|discriminate..].
  - apply (Hdiff (rawFolder (resolved a)) ".csv.gz");
      [unfold outputs; cbn [In]; auto 10|discriminate..].
  - apply (Hdiff (npyFolder (resolved a)) ".npy");
      [unfold outputs; cbn [In]; auto 10|discriminate..].
Qed.

End ExitProperties.

(** * Beyond the claims: the converters *)

Section Converters.
Implicit Types (c d : ascii) (v w s t : string).

Lemma lower_char_inv c d :
  PyText.lower_char c = d → (nat_of_ascii d < 128)%nat →
  c = d ∨ capital_of c d.
Proof.
  unfold PyText.lower_char, capital_of.
  pose proof (nat_ascii_bounded c) as Hb.
  set (n := nat_of_ascii c) in *.
  destruct ((65 <=? n) && (n <=? 90)
            || (192 <=? n) && (n <=? 222) && negb (n =? 215))%nat eqn:Hc;
    [|auto].
  intros <- Hd. right.
  assert (n + 32 < 256)%nat as Hlt.
  { apply orb_prop in Hc as [Hc | Hc].
    - apply andb_prop in Hc as [_ Hc]. apply Nat.leb_le in Hc. lia.
    - apply andb_prop in Hc as [Hc _]. apply andb_prop in Hc as [_ Hc].
      apply Nat.leb_le in Hc. lia. }
  rewrite (nat_ascii_embedding _ Hlt) in Hd |- *.
  apply orb_prop in Hc as [Hc | Hc].
  - apply andb_prop in Hc as [H1 H2].
    apply Nat.leb_le in H1. apply Nat.leb_le in H2. lia.
  - apply andb_prop in Hc as [Hc _]. apply andb_prop in Hc as [H1 _].
    apply Nat.leb_le in H1. lia.
Qed.

Lemma lower_char_capital c d : capital_of c d → PyText.lower_char c = d.
Proof.
  unfold capital_of, PyText.lower_char. intros [[Hlo Hhi] Hn].
  assert ((65 <=? nat_of_ascii c) && (nat_of_ascii c <=? 90) = true)%nat
    as ->.
  { apply andb_true_intro. split; apply Nat.leb_le; lia. }
  cbn [orb]. rewrite Hn. apply ascii_nat_embedding.
Qed.

Lemma lower_inv v w :
  PyText.lower v = w → ascii_only w → case_variant v w.
Proof.
  revert w. induction v as [|c v IH]; intros w.
  - intros <- _. exact I.
  - cbn [PyText.lower]. intros <- [Hd Hw]. cbn [case_variant]. split.
    + apply lower_char_inv; [reflexivity|exact Hd].
    + apply IH; [reflexivity|exact Hw].
Qed.

Lemma lower_variant v w :
  case_variant v w → PyText.lower w = w → PyText.lower v = w.
Proof.
  revert w. induction v as [|c v IH]; intros [|d w] Hcv Hw;
    cbn [case_variant] in Hcv; try contradiction; [reflexivity|].
  destruct Hcv as [Hc Hv]. cbn [PyText.lower] in *. injection Hw as Hd Hw.
  rewrite (IH w Hv Hw). f_equal.
  destruct Hc as [-> | Hc]; [exact Hd|apply lower_char_capital, Hc].
Qed.

(** X14: [str2bool] takes for true exactly the words [yes], [true], [t]
    and [1] with any of their letters capitalised; every other string,
    the empty one included, is false. *)
Theorem X14_str2bool_words v :
  str2bool v = true ↔ ∃ w, In w true_words ∧ case_variant v w.
Proof.
  unfold str2bool, PyText.in_tuple. rewrite existsb_exists. split.
  - intros (w & Hin & Heq). apply String.eqb_eq in Heq.
    exists w. split; [exact Hin|]. apply lower_inv; [exact Heq|].
    cbn in Hin.
    repeat (destruct Hin as [<- | Hin];
            [cbn [ascii_only]; repeat split;
             try (apply Nat.ltb_lt; reflexivity)|]).
    contradiction.
  - intros (w & Hin & Hv). exists w. split; [exact Hin|].
    apply String.eqb_eq. apply lower_variant; [exact Hv|].
    cbn in Hin. repeat (destruct Hin as [<- | Hin]; [reflexivity|]).
    contradiction.
Qed.

Lemma count_zero c s : PyText.count c s = 0%nat ↔ Py.contains c s = false.
Proof.
  induction s as [|a s IH]; simpl; [tauto|].
  destruct (Ascii.eqb a c); simpl; [split; discriminate|exact IH].
Qed.

Lemma count_app c s t :
  PyText.count c (s +:+ t) = (PyText.count c s + PyText.count c t)%nat.
Proof.
  induction s as [|a s IH]; [reflexivity|].
  change (PyText.count c (String a (s +:+ t))
          = (PyText.count c (String a s) + PyText.count c t)%nat).
  cbn [PyText.count]. rewrite IH. lia.
Qed.

(** [len(s.split(c)) == s.count(c) + 1] *)
Lemma split_length c s :
  length (Py.split c s) = S (PyText.count c s).
Proof.
  induction s as [|a s IH]; [reflexivity|]. cbn [Py.split PyText.count].
  destruct (Ascii.eqb a c); cbn [length]; [rewrite IH; reflexivity|].
  pose proof (split_nonempty c s).
  destruct (Py.split c s); [contradiction|]. cbn [length] in *. lia.
Qed.

Lemma split_cons_sep c s t :
  Py.contains c s = false →
  Py.split c (s +:+ String c t) = s :: Py.split c t.
Proof.
  induction s as [|a s IH]; intros Hs.
  - change (Py.split c (String c t) = EmptyString :: Py.split c t).
    cbn [Py.split]. rewrite Ascii.eqb_refl. reflexivity.
  - simpl in Hs. apply orb_false_elim in Hs as [Ha Hs].
    change (Py.split c (String a (s +:+ String c t))
            = String a s :: Py.split c t).
    cbn [Py.split]. rewrite Ha, (IH Hs). reflexivity.
Qed.

(** A string with two separators is its three pieces put back together. *)
Lemma split_three c s :
  PyText.count c s = 2%nat →
  ∃ y m r, Py.split c s = [y; m; r]
           ∧ s = y +:+ String c (m +:+ String c r)
           ∧ Py.contains c y = false ∧ Py.contains c m = false
           ∧ Py.contains c r = false.
Proof.
  assert (∀ n s, PyText.count c s = S n →
            ∃ y t, s = y +:+ String c t ∧ Py.contains c y = false
                   ∧ PyText.count c t = n) as Hstep.
  { intros n. induction s0 as [|a s0 IH]; [discriminate|].
    cbn [PyText.count]. destruct (Ascii.eqb a c) eqn:Ha.
    - apply Ascii.eqb_eq in Ha as ->. intros [= Hn].
      exists EmptyString, s0. auto.
    - cbn [Nat.add]. intros Hn. destruct (IH Hn) as (y & t & -> & Hy & Ht).
      exists (String a y), t. split; [reflexivity|]. split; [|exact Ht].
      simpl. rewrite Ha, Hy. reflexivity. }
  intros H2. destruct (Hstep 1%nat s H2) as (y & t & -> & Hy & Ht).
  destruct (Hstep 0%nat t Ht) as (m & r & -> & Hm & Hr).
  apply count_zero in Hr. exists y, m, r.
  rewrite (split_cons_sep _ _ _ Hy), (split_cons_sep _ _ _ Hm),
    (split_no_sep _ _ Hr). auto 10.
Qed.

Section WithParser.
Variable strptime : string → exn + datetime.

(** The shape is enough for the argument to reach the parser. *)
Lemma shaped_accepted v :
  date_shaped v → str2date strptime v = ([], lifted (strptime v)).
Proof.
  intros (y & m & r & -> & Hy & Hm & Hr & Hly & Hlm & Hld & HT & Hc).
  assert (Py.split "-" (y +:+ "-" +:+ m +:+ "-" +:+ r) = [y; m; r]) as Hsp.
  { change (y +:+ "-" +:+ m +:+ "-" +:+ r)
      with (y +:+ String "-" (m +:+ String "-" r)).
    rewrite (split_cons_sep _ _ _ Hy), (split_cons_sep _ _ _ Hm),
      (split_no_sep _ _ Hr). reflexivity. }
  unfold str2date.
  assert (PyText.count "-" (y +:+ "-" +:+ m +:+ "-" +:+ r) = 2%nat) as ->.
  { pose proof (split_length "-" (y +:+ "-" +:+ m +:+ "-" +:+ r)) as Hl.
    rewrite Hsp in Hl. cbn [length] in Hl. lia. }
  rewrite HT, Hc, Hsp. cbn [negb Nat.eqb PyText.count eg].
  cbn. rewrite Hly. cbn.
  assert ((negb (String.length m =? 2) && negb (String.length m =? 1))%nat
          = false) as ->.
  { destruct Hlm as [-> | ->]; reflexivity. }
  pose proof (split_nonempty "T" r) as Hne.
  destruct (Py.split "T" r) as [|d ds]; [contradiction|].
  cbn. cbn [hd] in Hld.
  assert ((negb (String.length d =? 2) && negb (String.length d =? 1))%nat
          = false) as ->.
  { destruct Hld as [-> | ->]; reflexivity. }
  unfold lifted. reflexivity.
Qed.

(** Every call either reaches the parser, with a shaped argument, or is
    rejected with one of the six first lines. *)
Lemma str2date_cases v :
  (date_shaped v ∧ str2date strptime v = ([], lifted (strptime v)))
  ∨ (¬ date_shaped v
     ∧ ∃ line, In line error_lines ∧ str2date strptime v = reject line v).
Proof.
  destruct (Nat.eq_dec (PyText.count "-" v) 2%nat) as [Hd|Hd].
  2:{ right. split.
      - intros (y & m & r & -> & Hy & Hm & Hr & _). apply Hd.
        change (y +:+ "-" +:+ m +:+ "-" +:+ r)
          with (y +:+ String "-" (m +:+ String "-" r)).
        pose proof (split_length "-"
                      (y +:+ String "-" (m +:+ String "-" r))) as Hl.
        rewrite (split_cons_sep _ _ _ Hy), (split_cons_sep _ _ _ Hm),
          (split_no_sep _ _ Hr) in Hl. cbn [length] in Hl. lia.
      - eexists. split; [left; reflexivity|]. unfold str2date.
        apply Nat.eqb_neq in Hd. change (PyText.count "-" eg) with 2%nat.
        rewrite Hd. reflexivity. }
  destruct (Nat.eq_dec (PyText.count "T" v) 1%nat) as [HT|HT].
  2:{ right. split.
      - intros (y & m & r & _ & _ & _ & _ & _ & _ & _ & H1 & _).
        contradiction.
      - eexists. split; [right; left; reflexivity|]. unfold str2date.
        change (PyText.count "-" eg) with 2%nat.
        change (PyText.count "T" eg) with 1%nat.
        rewrite Hd. apply Nat.eqb_neq in HT. rewrite HT. reflexivity. }
  destruct (Nat.eq_dec (PyText.count ":" v) 1%nat) as [Hc|Hc].
  2:{ right. split.
      - intros (y & m & r & _ & _ & _ & _ & _ & _ & _ & _ & H1).
        contradiction.
      - eexists. split; [right; right; left; reflexivity|]. unfold str2date.
        change (PyText.count "-" eg) with 2%nat.
        change (PyText.count "T" eg) with 1%nat.
        change (PyText.count ":" eg) with 1%nat.
        rewrite Hd, HT. apply Nat.eqb_neq in Hc. rewrite Hc. reflexivity. }
  destruct (split_three "-" v Hd) as (y & m & r & Hsp & Hv & Hy & Hm & Hr).
  assert (∀ y' m' r', v = y' +:+ "-" +:+ m' +:+ "-" +:+ r' →
            Py.contains "-" y' = false → Py.contains "-" m' = false →
            Py.contains "-" r' = false → y' = y ∧ m' = m ∧ r' = r) as Huniq.
  { intros y' m' r' Hv' Hy' Hm' Hr'.
    assert (Py.split "-" v = [y'; m'; r']) as Hsp'.
    { rewrite Hv'.
      change (y' +:+ "-" +:+ m' +:+ "-" +:+ r')
        with (y' +:+ String "-" (m' +:+ String "-" r')).
      rewrite (split_cons_sep _ _ _ Hy'), (split_cons_sep _ _ _ Hm'),
        (split_no_sep _ _ Hr'). reflexivity. }
    rewrite Hsp in Hsp'. injection Hsp' as -> -> ->. auto. }
  assert (str2date strptime v
          = if negb (String.length y =? 4)%nat
            then reject "ERROR: Year in date must be 4 numbers" v
            else if (negb (String.length m =? 2)
                     && negb (String.length m =? 1))%nat
            then reject "ERROR: Month in date must be 1-2 numbers" v
            else if (negb (String.length
                             (hd EmptyString (Py.split "T" r)) =? 2)
                     && negb (String.length
                                (hd EmptyString (Py.split "T" r)) =? 1))%nat
            then reject "ERROR: Day in date must be 1-2 numbers" v
            else ([], lifted (strptime v))) as Heq.
  { unfold str2date.
    change (PyText.count "-" eg) with 2%nat.
    change (PyText.count "T" eg) with 1%nat.
    change (PyText.count ":" eg) with 1%nat.
    rewrite Hd, HT, Hc, Hsp. cbn [Nat.eqb negb].
    cbn [subscript lookup list_lookup with_item].
    destruct (negb (String.length y =? 4)%nat); [reflexivity|].
    destruct (negb (String.length m =? 2)
              && negb (String.length m =? 1))%nat; [reflexivity|].
    pose proof (split_nonempty "T" r) as Hne.
    destruct (Py.split "T" r) as [|d ds]; [contradiction|]. reflexivity. }
  rewrite Heq.
  destruct (Nat.eqb_spec (String.length y) 4%nat) as [Hly|Hly]; cbn [negb].
  2:{ right. split.
      - intros (y' & m' & r' & Hv' & Hy' & Hm' & Hr' & Hl & _).
        destruct (Huniq _ _ _ Hv' Hy' Hm' Hr') as (-> & _). contradiction.
      - eexists. split; [|reflexivity]. cbn. auto 10. }
  destruct (Nat.eqb_spec (String.length m) 2%nat) as [Hm2|Hm2];
    destruct (Nat.eqb_spec (String.length m) 1%nat) as [Hm1|Hm1];
    cbn [negb andb];
    try (destruct (Nat.eqb_spec
                     (String.length (hd EmptyString (Py.split "T" r))) 2%nat)
           as [Hd2|Hd2];
         destruct (Nat.eqb_spec
                     (String.length (hd EmptyString (Py.split "T" r))) 1%nat)
           as [Hd1|Hd1];
         cbn [negb andb]);
    try (left; split; [|reflexivity];
         exists y, m, r; rewrite Hv at 1; repeat split; auto; fail);
    right; (split;
      [intros (y' & m' & r' & Hv' & Hy' & Hm' & Hr' & Hl & Hlm & Hld & _);
       destruct (Huniq _ _ _ Hv' Hy' Hm' Hr') as (-> & -> & ->); lia
      |eexists; split; [|reflexivity]; cbn; auto 10]).
Qed.

(** X15: [str2date] hands its argument to the parser, and returns or
    raises what the parser does with nothing printed, exactly when the
    argument has the date shape; any other argument gets one of the six
    error lines, the four lines that follow with the argument and the
    example in quotes, and the [ValueError].  The list subscripts of the
    checks are never out of range. *)
Theorem X15_str2date_shape v :
  (date_shaped v ↔ str2date strptime v = ([], lifted (strptime v)))
  ∧ (¬ date_shaped v ↔
     ∃ line, In line error_lines
             ∧ str2date strptime v
               = ([line; "Please change your input date:";
                   dquote +:+ v +:+ dquote;
                   "to match the example date format:";
                   dquote +:+ "1994-11-30T12:00" +:+ dquote],
                  inl (Exn (ValueError "Date in incorrect format"))))
  ∧ (str2date strptime v).2 ≠ inl IndexError.
Proof.
  destruct (str2date_cases v) as [[Hs Heq] | [Hn (line & Hin & Heq)]].
  - split; [tauto|]. split.
    + split; [contradiction|]. intros (line & _ & Hr).
      rewrite Heq in Hr. discriminate.
    + rewrite Heq. unfold lifted. cbn [snd].
      destruct (strptime v); discriminate.
  - split; [|split].
    + split; [contradiction|]. intros Hacc. rewrite Heq in Hacc.
      discriminate.
    + split; [|auto]. intros _. exists line. auto.
    + rewrite Heq. discriminate.
Qed.

End WithParser.

End Converters.

(** * Closed instances of the further properties *)

Lemma X1_witness :
  (OsPath.split (epochFile (resolved Scenario.to_out))).2
  = "sample-epoch.csv.gz"
  ∧ (OsPath.split (epochFile (resolved Scenario.to_out))).1 = "out".
Proof.
  destruct (X1_outputs_split_back (H := Sim.full) Scenario.to_out
              (initial Sim.disk) (resolved Scenario.to_out)
              (initial Sim.disk) eq_refl
              "out" "-epoch.csv.gz" (epochFile (resolved Scenario.to_out)))
    as [Ht Hh].
  - vm_compute. auto 10.
  - split; [exact Ht|]. apply Hh; [discriminate|reflexivity].
Defined.

Lemma X2_witness : List.NoDup (output_files (resolved Scenario.to_out)).
Proof.
  exact (X2_outputs_distinct (H := Sim.full) Scenario.to_out
           (initial Sim.disk) (resolved Scenario.to_out)
           (initial Sim.disk) eq_refl).
Defined.

Lemma X3_witness :
  inputFileName (epochFile (resolved Scenario.to_out)) = "sample-epoch"
  ∧ inputFileName (rawFile (resolved Scenario.to_out)) = "sample".
Proof.
  destruct (X3_stem_of_outputs (H := Sim.full) Scenario.to_out
              (initial Sim.disk) (resolved Scenario.to_out)
              (initial Sim.disk) eq_refl)
    as (_ & _ & _ & _ & He & Hr).
  split; [exact He|exact Hr].
Defined.

Lemma X4_witness :
  rawFile (resolved ScenarioX.csv_input) = "data/sample.csv.gz".
Proof.
  apply (X4_raw_output_is_input (H := Sim.full) ScenarioX.csv_input
           (initial Sim.disk) (resolved ScenarioX.csv_input)
           (initial Sim.disk) "data" "sample");
    [discriminate|reflexivity..].
Defined.

Lemma X5_witness :
  epochFile (resolved ScenarioX.bare) = "sample-epoch.csv.gz"
  ∧ main (H := Sim.full) ScenarioX.bare (initial Sim.disk)
    = (inl (AssertionError (folder_msg EmptyString)), initial Sim.disk).
Proof.
  destruct (X5_bare_input_name (H := Sim.full) ScenarioX.bare
              (initial Sim.disk) (resolved ScenarioX.bare)
              (initial Sim.disk)) as (_ & Hfiles & Hmain).
  - reflexivity.
  - intros x Hx. vm_compute in Hx.
    repeat (destruct Hx as [<- | Hx]; [reflexivity|]). contradiction.
  - reflexivity.
  - split.
    + apply (Hfiles EmptyString "-epoch.csv.gz"). vm_compute. auto 10.
    + apply Hmain. reflexivity.
Defined.


Lemma X10_witness :
  useFilter (resolved Scenario.slow) = useFilter Scenario.slow
  ∨ useFilter (resolved Scenario.slow) = false
    ∧ sampleRate Scenario.slow ≤ 40.
Proof.
  apply (X10_options_pass_through (H := Sim.full) Scenario.slow
           (initial Sim.disk) (resolved Scenario.slow)
           (logged (initial Sim.disk) [Warn filter_msg]) eq_refl).
Defined.

Lemma X11_witness :
  final (run_process (H := Sim.full) Scenario.too_slow Sim.disk)
  = initial Sim.disk.
Proof.
  destruct (X11_early_stop_no_cleanup (H := Sim.full) Scenario.too_slow
              Sim.disk) as (_ & _ & Hf & _).
  - left. vm_compute. reflexivity.
  - rewrite Hf. reflexivity.
Defined.

Lemma X12_witness :
  Sim.files
    (fs (final (run_process (H := Sim.full) Scenario.inverted
                  ScenarioX.disk_with_epoch)))
  = ["data/sample.cwa.gz"].
Proof.
  destruct (X12_time_stop_cleans_up (H := Sim.full) Scenario.inverted
              ScenarioX.disk_with_epoch Scenario.jan2 Scenario.jan1_late)
    as (_ & _ & Hrm); [vm_compute; discriminate|reflexivity..|].
  destruct (Hrm eq_refl eq_refl
                (Sim.mkFS ["data/sample.cwa.gz"] ["data"; "out"] []))
    as [Hfs _]; [reflexivity|].
  rewrite Hfs. reflexivity.
Defined.

Lemma X13_witness :
  "data/sample-epoch.csv.gz" ≠ summaryFile (resolved Scenario.plain).
Proof.
  apply (X13_only_intermediates_removed (H := Sim.full) Scenario.plain
           Sim.disk "data/sample-epoch.csv.gz").
  vm_compute. auto 20.
Defined.

(** ** The converters on examples *)

Example str2bool_examples :
  str2bool "True" = true ∧ str2bool "YES" = true ∧ str2bool "t" = true
  ∧ str2bool "1" = true ∧ str2bool "False" = false
  ∧ str2bool "on" = false ∧ str2bool EmptyString = false
  ∧ str2bool " true" = false.
Proof. repeat split; reflexivity. Qed.

Example str2date_examples :
  str2date ScenarioX.strptime "1994-11-30T12:00"
  = ([], inr (mkDatetime 1994 11 30 12 0))
  ∧ (str2date ScenarioX.strptime "1994-11-30").1
    = ["ERROR: No T seperator in date";
       "Please change your input date:";
       dquote +:+ "1994-11-30" +:+ dquote;
       "to match the example date format:";
       dquote +:+ "1994-11-30T12:00" +:+ dquote]
  ∧ (str2date ScenarioX.strptime "1994-11-30 12:00:00").1
    = ["ERROR: No T seperator in date";
       "Please change your input date:";
       dquote +:+ "1994-11-30 12:00:00" +:+ dquote;
       "to match the example date format:";
       dquote +:+ "1994-11-30T12:00" +:+ dquote].
Proof. repeat split; reflexivity. Qed.
